(** * Water-tank telemetry service: channels, ingestion and queries

    A shallow embedding of the request handlers of the service
    ([app/routes/channels.py], [app/routes/data.py], [coap_server.py] and the
    MQTT callbacks of [main.py], whose text is kept at the end of
    [coap_simulation_client.py]) over an explicit model of the two MongoDB
    collections they share.

    Modelling conventions.
    - A document of the [data] collection is one flat Python dict: the keys
      ["tank_id"] and ["timestamp"] live in the same name space as the
      channel's fields, exactly as the handlers build it.
    - The store is the interface the handlers use: [find_one], [find] with a
      filter, a projection, a sort key and a length, [insert_one],
      [update_one], [update_many] and [delete_*].  An equality filter on
      ["tank_id"] matches a string equal to the name and an array that has it
      among its elements; a bound on ["timestamp"] matches a date and an
      array that has such a date.  A [$set] and a projection take a plain
      name as a top-level key; what the store does with any other name
      (a dotted path, a [$] prefix, ["_id"]) belongs to the environment.
      Identifiers assigned by the store itself are not represented: a
      document without an ["_id"] entry has one that is no JSON value.
    - A string is the UTF-8 encoding of a Python [str].
    - The clock, the random key generator and the uuid generator are inputs
      of the handlers that read them.
    - The model starts after [connect_to_mongodb]: both collections exist. *)

From Stdlib Require Import ZArith String Ascii List Lia.
From Stdlib Require Import Floats.SpecFloat.
From stdpp Require Import base option gmap sets list strings sorting pretty.

Local Open Scope string_scope.
Local Open Scope Z_scope.

(** ** Values held by documents and JSON payloads *)

#[local] Unset Elimination Schemes.
Inductive value : Type :=
  | VNull
  | VBool (b : bool)
  | VInt (z : Z)
  | VFloat (f : spec_float)
  | VStr (s : string)
  | VTime (t : Z)
  | VArr (l : list value)
  | VObj (l : list (string * value)).
#[local] Set Elimination Schemes.

(** The exceptions of Python that the handlers can meet. *)
Inductive exn : Type :=
  | ValueError
  | TypeError
  | OverflowError
  | AttributeError
  | KeyError
  | WriteError
  | OperationFailure.

Inductive res (A : Type) : Type :=
  | Ok (a : A)
  | Exn (e : exn).
Arguments Ok {A} a.
Arguments Exn {A} e.

(** ** Code points

    [float] reads a [str] through its code points: white space and decimal
    digits of any script count as the ASCII ones.  The tables are those of
    the Unicode database, version 14.0. *)
Module Unicode.

Definition byte (a : ascii) : N := N_of_ascii a.

(** The six bits of a continuation byte. *)
Definition continuation (a : ascii) : option N :=
  let n := byte a in
  if ((128 <=? n) && (n <? 192))%N then Some (n - 128)%N else None.

(** What a byte sequence that encodes no code point decodes to. *)
Definition invalid : N := 1114112%N.

Definition between (lo hi cp : N) : N :=
  if ((lo <=? cp) && (cp <=? hi))%N then cp else invalid.

(** The code points of a UTF-8 string. *)
Fixpoint decode (l : list ascii) : list N :=
  match l with
  | [] => []
  | a :: l1 =>
      let n := byte a in
      if (n <? 128)%N then n :: decode l1
      else if (n <? 192)%N then invalid :: decode l1
      else if (n <? 224)%N then
        match l1 with
        | b :: l2 =>
            match continuation b with
            | Some x =>
                between 128 2047 ((n - 192) * 64 + x)%N :: decode l2
            | None => invalid :: decode l1
            end
        | [] => [invalid]
        end
      else if (n <? 240)%N then
        match l1 with
        | b :: c :: l3 =>
            match continuation b, continuation c with
            | Some x, Some y =>
                between 2048 65535 ((n - 224) * 4096 + x * 64 + y)%N
                :: decode l3
            | _, _ => invalid :: decode l1
            end
        | _ => [invalid]
        end
      else
        match l1 with
        | b :: c :: d :: l4 =>
            match continuation b, continuation c, continuation d with
            | Some x, Some y, Some z =>
                between 65536 1114111
                  ((n - 240) * 262144 + x * 4096 + y * 64 + z)%N
                :: decode l4
            | _, _, _ => invalid :: decode l1
            end
        | _ => [invalid]
        end
  end.

(** The white space beyond ASCII. *)
Definition spaces : list N :=
  [133; 160; 5760; 8192; 8193; 8194; 8195; 8196; 8197; 8198; 8199; 8200;
   8201; 8202; 8232; 8233; 8239; 8287; 12288]%N.

Definition is_space (cp : N) : bool :=
  existsb (N.eqb cp) spaces.

(** The digit zero of every run of decimal digits beyond ASCII. *)
Definition zeros : list N :=
  [1632; 1776; 1984; 2406; 2534; 2662; 2790; 2918; 3046; 3174; 3302; 3430;
   3558; 3664; 3792; 3872; 4160; 4240; 6112; 6160; 6470; 6608; 6784; 6800;
   6992; 7088; 7232; 7248; 42528; 43216; 43264; 43472; 43504; 43600; 44016;
   65296; 66720; 68912; 69734; 69872; 69942; 70096; 70384; 70736; 70864;
   71248; 71360; 71472; 71904; 72016; 72784; 73040; 73120; 92768; 92864;
   93008; 120782; 120792; 120802; 120812; 120822; 123200; 123632; 125264;
   130032]%N.

Definition decimal (cp : N) : option N :=
  match List.find (fun z => (z <=? cp) && (cp <? z + 10))%N zeros with
  | Some z => Some (cp - z)%N
  | None => None
  end.

(** Code points to ASCII: a space for white space, the ASCII digit for a
    decimal digit, and the text is cut at a question mark where a code point
    is neither. *)
Fixpoint transform (cps : list N) : list ascii :=
  match cps with
  | [] => []
  | cp :: rest =>
      if (cp <? 127)%N then ascii_of_N cp :: transform rest
      else if is_space cp then " "%char :: transform rest
      else match decimal cp with
           | Some d => ascii_of_N (48 + d) :: transform rest
           | None => ["?"%char]
           end
  end.

(** An ASCII string is taken as it is. *)
Definition to_ascii (l : list ascii) : list ascii :=
  if forallb (fun a => (byte a <? 128)%N) l then l
  else transform (decode l).

End Unicode.

(** ** Python's [float] builtin

    Binary64 numbers are [spec_float]s with 53 bits of precision; every
    conversion below rounds to nearest, ties to even. *)
Module PyFloat.

Definition prec : Z := 53.
Definition emax : Z := 1024.

Definition nan : spec_float := S754_nan.
Definition inf (neg : bool) : spec_float := S754_infinity neg.

(** [m * 10^e] with the sign [neg], correctly rounded. *)
Definition of_decimal (neg : bool) (m : Z) (e : Z) : spec_float :=
  match m with
  | Zpos p =>
      if 0 <=? e
      then binary_normalize prec emax
             (if neg then - (m * 10 ^ e) else m * 10 ^ e) 0 neg
      else SFdiv prec emax (S754_finite neg p 0)
             (S754_finite false (Z.to_pos (10 ^ (- e))) 0)
  | _ => S754_zero neg
  end.

(** [float(n)] for an [int]: [OverflowError] when the rounded value does not
    fit. *)
Definition of_int (z : Z) : res spec_float :=
  match binary_normalize prec emax z 0 false with
  | S754_infinity _ => Exn OverflowError
  | f => Ok f
  end.

(** The blanks that are stripped: tab, line feed, vertical tab, form feed,
    carriage return and space. *)
Definition is_space (a : ascii) : bool :=
  let n := nat_of_ascii a in
  ((9 <=? n) && (n <=? 13))%nat || (n =? 32)%nat.

Fixpoint lstrip (l : list ascii) : list ascii :=
  match l with
  | a :: l' => if is_space a then lstrip l' else l
  | [] => []
  end.

Definition strip (l : list ascii) : list ascii :=
  rev (lstrip (rev (lstrip l))).

(** A digit of the text that [Unicode.to_ascii] hands over, in which the
    decimal digits of every script are the ASCII ones. *)
Definition digit (a : ascii) : option Z :=
  let n := nat_of_ascii a in
  if ((48 <=? n) && (n <=? 57))%nat then Some (Z.of_nat n - 48) else None.

Definition lower (a : ascii) : ascii :=
  let n := nat_of_ascii a in
  if ((65 <=? n) && (n <=? 90))%nat then ascii_of_nat (n + 32) else a.

(** digit (["_"] digit)*, after its first digit: the value read so far, the
    number of digits, and the rest of the input. *)
Fixpoint digitpart_tail (acc : Z) (n : Z) (l : list ascii)
  : Z * Z * list ascii :=
  match l with
  | a :: l' =>
      match digit a with
      | Some d => digitpart_tail (10 * acc + d) (n + 1) l'
      | None =>
          if Ascii.eqb a "_"%char
          then match l' with
               | b :: l'' =>
                   match digit b with
                   | Some d => digitpart_tail (10 * acc + d) (n + 1) l''
                   | None => (acc, n, l)
                   end
               | [] => (acc, n, l)
               end
          else (acc, n, l)
      end
  | [] => (acc, n, [])
  end.

Definition digitpart (acc : Z) (l : list ascii)
  : option (Z * Z * list ascii) :=
  match l with
  | a :: l' =>
      match digit a with
      | Some d => Some (digitpart_tail (10 * acc + d) 1 l')
      | None => None
      end
  | [] => None
  end.

(** number ::= [digitpart] "." digitpart | digitpart ["."]: the digits as one
    integer and the number of them after the point. *)
Definition number (l : list ascii) : option (Z * Z * list ascii) :=
  match digitpart 0 l with
  | Some (i, _, rest) =>
      match rest with
      | "."%char :: rest' =>
          match digitpart i rest' with
          | Some (m, k, rest'') => Some (m, k, rest'')
          | None => Some (i, 0, rest')
          end
      | _ => Some (i, 0, rest)
      end
  | None =>
      match l with
      | "."%char :: rest' => digitpart 0 rest'
      | _ => None
      end
  end.

Definition sign (l : list ascii) : bool * list ascii :=
  match l with
  | "-"%char :: l' => (true, l')
  | "+"%char :: l' => (false, l')
  | _ => (false, l)
  end.

(** exponent ::= ("e" | "E") [sign] digitpart, or nothing. *)
Definition exponent (l : list ascii) : option (Z * list ascii) :=
  match l with
  | [] => Some (0, [])
  | a :: l' =>
      if Ascii.eqb (lower a) "e"%char
      then let '(neg, l'') := sign l' in
           match digitpart 0 l'' with
           | Some (x, _, rest) => Some (if neg then - x else x, rest)
           | None => None
           end
      else None
  end.

Definition floatnumber (neg : bool) (l : list ascii) : option spec_float :=
  match number l with
  | Some (m, k, rest) =>
      match exponent rest with
      | Some (x, []) => Some (of_decimal neg m (x - k))
      | _ => None
      end
  | None => None
  end.

(** [float(s)] for a [str]: [ValueError] when [s] is not a float literal. *)
Definition of_str (s : string) : res spec_float :=
  let '(neg, body) :=
    sign (strip (Unicode.to_ascii (list_ascii_of_string s))) in
  let name := string_of_list_ascii (map lower body) in
  if String.eqb name "inf" || String.eqb name "infinity" then Ok (inf neg)
  else if String.eqb name "nan" then Ok nan
  else match floatnumber neg body with
       | Some f => Ok f
       | None => Exn ValueError
       end.

End PyFloat.

(** [float(value)] as the handlers call it. *)
Definition py_float (v : value) : res spec_float :=
  match v with
  | VFloat f => Ok f
  | VInt z => PyFloat.of_int z
  | VBool b => Ok (if b then PyFloat.of_decimal false 1 0 else S754_zero false)
  | VStr s => PyFloat.of_str s
  | VNull | VTime _ | VArr _ | VObj _ => Exn TypeError
  end.

(** The [try: float(value) except (ValueError, TypeError): value] of the JSON
    handlers: any other exception escapes. *)
Definition coerce (v : value) : res value :=
  match py_float v with
  | Ok f => Ok (VFloat f)
  | Exn ValueError | Exn TypeError => Ok v
  | Exn e => Exn e
  end.

(** The [try: float(value) except ValueError: value] of the query-parameter
    handler. *)
Definition coerce_query (v : value) : res value :=
  match py_float v with
  | Ok f => Ok (VFloat f)
  | Exn ValueError => Ok v
  | Exn e => Exn e
  end.

(** What [coerce] stores when it stores something. *)
Definition coerced (v : value) : value :=
  match py_float v with
  | Ok f => VFloat f
  | Exn _ => v
  end.

(** ** Strings: [str.split] *)

(** [s.split(sep)] on a one-character separator. *)
Fixpoint split (sep : ascii) (s : string) : list string :=
  match s with
  | EmptyString => [EmptyString]
  | String a s' =>
      if Ascii.eqb a sep then EmptyString :: split sep s'
      else match split sep s' with
           | w :: ws => String a w :: ws
           | [] => [String a EmptyString]
           end
  end.

(** [s.split(sep, 1)] when [sep in s], and [None] when it is not. *)
Fixpoint split_once (sep : ascii) (s : string) : option (string * string) :=
  match s with
  | EmptyString => None
  | String a s' =>
      if Ascii.eqb a sep then Some (EmptyString, s')
      else match split_once sep s' with
           | Some (k, v) => Some (String a k, v)
           | None => None
           end
  end.

(** Truthiness of a string that may be [None]: [if api_key:]. *)
Definition truthy (o : option string) : bool :=
  match o with
  | Some s => negb (String.eqb s EmptyString)
  | None => false
  end.

(** ** The document store *)

Abbreviation doc := (gmap string value).

Definition NA : value := VStr "N/A".

Module Channel.
Record t : Type := Build {
  channel_name : string;
  api_key : string;
  fields : list string
}.
End Channel.

Module Database.
Record t : Type := Build {
  channels : list Channel.t;
  data : list doc
}.
End Database.

(** The outcome of [json.loads(payload.decode())]: a dict, another JSON
    value, or one of the two exceptions the handlers name. *)
Inductive json_result : Type :=
| JObject (bag : gmap string value)
| JOther (v : value)
| JSONDecodeError
| UnicodeDecodeError.

(** What [json.dumps] can write: every value but a date, at any depth. *)
Fixpoint json_serializable (v : value) : bool :=
  match v with
  | VNull | VBool _ | VInt _ | VFloat _ | VStr _ => true
  | VTime _ => false
  | VArr l => forallb json_serializable l
  | VObj l => forallb (fun kv => let '(_, x) := kv in json_serializable x) l
  end.

(** A name that the store takes as one top-level key, in a [$set] and in a
    projection alike: it is not empty and not ["_id"], it does not start with
    a dollar sign, and it holds no dot and no NUL. *)
Definition plain (name : string) : bool :=
  match name with
  | EmptyString => false
  | String a _ =>
      negb (Ascii.eqb a "$"%char)
      && negb (String.eqb name "_id")
      && forallb (fun c => negb (Ascii.eqb c "."%char)
                           && negb (Ascii.eqb c Ascii.zero))
           (list_ascii_of_string name)
  end.

(** Projections, as [get_historical_data] builds them: ["_id"] mapped to 0
    and names mapped to 1. *)
Module Projection.

(** An inclusion projection keeps the keys mapped to 1, and ["_id"] unless
    it is mapped to 0. *)
Definition keeps (projection : gmap string Z) (k : string) : bool :=
  match projection !! k with
  | Some n => n =? 1
  | None => String.eqb k "_id"
  end.

Definition project (projection : gmap string Z) (d : doc) : doc :=
  filter (fun kv => keeps projection kv.1 = true) d.

(** ["_id"] is left out and every other name is plain and mapped to 1. *)
Definition plain (projection : gmap string Z) : bool :=
  bool_decide (projection !! "_id" = Some 0)
  && forallb (fun kn => let '(k, n) := kn in
                String.eqb k "_id" || (plain k && (n =? 1)))
       (map_to_list projection).

End Projection.

(** What the handlers take from their libraries: date formatting, [str],
    the JSON decoder, and from the store the order in which it sorts values
    in either direction, its [$set] on one document and its reading of a
    projection.  The order of two dates is that of their instants; a plain
    name is written, and projected, as a top-level key; and ["_id"] cannot be
    given another value. *)
Class Env : Type := {
  isoformat : Z -> string;
  py_str : value -> string;
  json_loads : string -> json_result;
  bson_leb : option value -> option value -> bool;
  bson_leb_total : forall a b, bson_leb a b = true \/ bson_leb b a = true;
  bson_leb_trans : forall a b c,
    bson_leb a b = true -> bson_leb b c = true -> bson_leb a c = true;
  bson_leb_time : forall s t,
    bson_leb (Some (VTime s)) (Some (VTime t)) = (s <=? t);
  bson_geb : option value -> option value -> bool;
  bson_geb_total : forall a b, bson_geb a b = true \/ bson_geb b a = true;
  bson_geb_trans : forall a b c,
    bson_geb a b = true -> bson_geb b c = true -> bson_geb a c = true;
  bson_geb_time : forall s t,
    bson_geb (Some (VTime s)) (Some (VTime t)) = (t <=? s);
  mongo_set : string -> value -> doc -> res doc;
  mongo_set_plain : forall key v d,
    plain key = true -> mongo_set key v d = Ok (<[key := v]> d);
  mongo_set_id : forall v d,
    d !! "_id" <> Some v -> mongo_set "_id" v d = Exn WriteError;
  mongo_projection : gmap string Z -> res (doc -> doc);
  mongo_projection_plain : forall projection,
    Projection.plain projection = true ->
    mongo_projection projection = Ok (Projection.project projection)
}.

(** Filters, as the handlers build them: [{"tank_id": c}], with an optional
    [{"timestamp": {"$gte": a, "$lte": b}}]. *)
Module Query.
Record range : Type := Range { gte : option Z; lte : option Z }.
Record t : Type := Build { tank_id : string; timestamp : option range }.
End Query.

Module Collection.

Definition has_name (name : string) (c : Channel.t) : bool :=
  String.eqb (Channel.channel_name c) name.

(** [channels.find_one({"channel_name": name})] *)
Definition find_one (name : string) (cs : list Channel.t)
  : option Channel.t :=
  List.find (has_name name) cs.

(** [insert_one(d)] *)
Definition insert_one {A : Type} (d : A) (coll : list A) : list A :=
  coll ++ [d].

(** The first document named [name] rewritten by [f]:
    [channels.update_one({"channel_name": name}, ...)]. *)
Fixpoint update_one (name : string) (f : Channel.t -> Channel.t)
    (cs : list Channel.t) : list Channel.t :=
  match cs with
  | [] => []
  | c :: cs' =>
      if has_name name c then f c :: cs' else c :: update_one name f cs'
  end.

(** [{"$set": {"fields": fs}}] *)
Definition set_fields (fs : list string) (c : Channel.t) : Channel.t :=
  Channel.Build (Channel.channel_name c) (Channel.api_key c) fs.

(** [{"$pull": {"fields": f}}]: every occurrence of [f] leaves the array. *)
Definition pull_field (f : string) (c : Channel.t) : Channel.t :=
  set_fields (List.filter (fun g => negb (String.eqb g f)) (Channel.fields c))
             c.

(** [channels.delete_one({"channel_name": name})] *)
Fixpoint delete_one (name : string) (cs : list Channel.t)
  : list Channel.t :=
  match cs with
  | [] => []
  | c :: cs' => if has_name name c then cs' else c :: delete_one name cs'
  end.

(** The value is the string [tank]. *)
Definition names (tank : string) (v : value) : bool :=
  match v with
  | VStr s => String.eqb s tank
  | _ => false
  end.

(** The filter [{"tank_id": tank}]: the entry is the string, or an array
    that has the string among its elements. *)
Definition tagged (tank : string) (d : doc) : bool :=
  match d !! "tank_id" with
  | Some (VArr l) => existsb (names tank) l
  | Some v => names tank v
  | None => false
  end.

(** The dates a bound on ["timestamp"] is compared with: the entry when it
    is a date, the dates among its elements when it is an array. *)
Definition dates (d : doc) : list Z :=
  match d !! "timestamp" with
  | Some (VTime t) => [t]
  | Some (VArr l) =>
      omap (fun v => match v with VTime t => Some t | _ => None end) l
  | _ => []
  end.

(** [{"timestamp": {"$gte": a, "$lte": b}}], each bound when it is there;
    without a bound the filter is [{"timestamp": {}}], which asks for the
    empty document. *)
Definition in_range (r : Query.range) (d : doc) : bool :=
  match Query.gte r, Query.lte r with
  | None, None =>
      match d !! "timestamp" with
      | Some (VObj []) => true
      | _ => false
      end
  | gte, lte =>
      match gte with
      | Some a => existsb (fun t => a <=? t) (dates d)
      | None => true
      end
      && match lte with
         | Some b => existsb (fun t => t <=? b) (dates d)
         | None => true
         end
  end.

Definition matches (q : Query.t) (d : doc) : bool :=
  tagged (Query.tank_id q) d
  && match Query.timestamp q with
     | Some r => in_range r d
     | None => true
     end.

(** [data.delete_many({"tank_id": tank})] *)
Definition delete_many (tank : string) (ds : list doc) : list doc :=
  List.filter (fun d => negb (tagged tank d)) ds.

Section Store.
Context `{!Env}.

(** [data.update_many({"tank_id": tank}, {"$set": {key: v}})]: the
    documents are written one after the other, and a write that the store
    refuses ends the call with the documents before it written. *)
Fixpoint update_many (tank key : string) (v : value) (ds : list doc)
  : list doc * option exn :=
  match ds with
  | [] => ([], None)
  | d :: ds' =>
      if tagged tank d
      then match mongo_set key v d with
           | Ok d' =>
               let '(ds'', e) := update_many tank key v ds' in (d' :: ds'', e)
           | Exn e => (d :: ds', Some e)
           end
      else let '(ds'', e) := update_many tank key v ds' in (d :: ds'', e)
  end.

(** [d1] comes no later than [d2] in an ascending sort on ["timestamp"]. *)
Definition ts_le (d1 d2 : doc) : Prop :=
  bson_leb (d1 !! "timestamp") (d2 !! "timestamp") = true.

#[global] Instance ts_le_dec d1 d2 : Decision (ts_le d1 d2).
Proof. unfold ts_le. apply _. Defined.

(** [d1] comes no later than [d2] in a descending sort on ["timestamp"]. *)
Definition ts_ge (d1 d2 : doc) : Prop :=
  bson_geb (d1 !! "timestamp") (d2 !! "timestamp") = true.

#[global] Instance ts_ge_dec d1 d2 : Decision (ts_ge d1 d2).
Proof. unfold ts_ge. apply _. Defined.

(** [.sort("timestamp", 1)] and [.sort("timestamp", -1)] *)
Definition sort (direction : Z) (ds : list doc) : list doc :=
  if direction =? 1 then merge_sort ts_le ds
  else merge_sort ts_ge ds.

(** [data.find(q).sort("timestamp", direction).to_list(length)] *)
Definition find (q : Query.t) (direction : Z) (length : Z)
    (ds : list doc) : list doc :=
  take (Z.to_nat length) (sort direction (List.filter (matches q) ds)).

(** [data.find(q, projection).sort("timestamp", direction).to_list(length)] *)
Definition find_projected (q : Query.t) (projection : gmap string Z)
    (direction : Z) (length : Z) (ds : list doc) : res (list doc) :=
  match mongo_projection projection with
  | Ok shown => Ok (map shown (find q direction length ds))
  | Exn e => Exn e
  end.

End Store.

End Collection.

(** ** Handlers: state and exceptions *)

Inductive failure : Type :=
| HTTPException (status_code : Z) (detail : string)
| RequestValidationError
| Uncaught (e : exn).

Inductive outcome (A : Type) : Type :=
| Return (a : A)
| Raise (f : failure).
Arguments Return {A} a.
Arguments Raise {A} f.

Definition handler (A : Type) : Type :=
  Database.t -> outcome A * Database.t.

Definition ret {A : Type} (a : A) : handler A :=
  fun s => (Return a, s).

Definition raise {A : Type} (f : failure) : handler A :=
  fun s => (Raise f, s).

Definition bind {A B : Type} (m : handler A) (k : A -> handler B)
  : handler B :=
  fun s =>
    match m s with
    | (Return a, s') => k a s'
    | (Raise f, s') => (Raise f, s')
    end.

Notation "x <- m ;; k" := (bind m (fun x => k))
  (at level 100, m at next level, right associativity).

(** The collections of the shared [db] object. *)
Module db.

Definition channels_find_one (name : string) : handler (option Channel.t) :=
  fun s => (Return (Collection.find_one name (Database.channels s)), s).

Definition channels_insert_one (c : Channel.t) : handler unit :=
  fun s =>
    (Return tt,
     Database.Build (Collection.insert_one c (Database.channels s))
                    (Database.data s)).

Definition channels_update_one (name : string) (f : Channel.t -> Channel.t)
  : handler unit :=
  fun s =>
    (Return tt,
     Database.Build (Collection.update_one name f (Database.channels s))
                    (Database.data s)).

Definition channels_delete_one (name : string) : handler unit :=
  fun s =>
    (Return tt,
     Database.Build (Collection.delete_one name (Database.channels s))
                    (Database.data s)).

Definition data_insert_one (d : doc) : handler unit :=
  fun s =>
    (Return tt,
     Database.Build (Database.channels s)
                    (Collection.insert_one d (Database.data s))).

Definition data_update_many `{!Env} (tank key : string) (v : value)
  : handler unit :=
  fun s =>
    let '(data, e) := Collection.update_many tank key v (Database.data s) in
    (match e with
     | None => Return tt
     | Some e => Raise (Uncaught e)
     end,
     Database.Build (Database.channels s) data).

Definition data_delete_many (tank : string) : handler unit :=
  fun s =>
    (Return tt,
     Database.Build (Database.channels s)
                    (Collection.delete_many tank (Database.data s))).

Definition data_find `{!Env} (q : Query.t) (direction length : Z)
  : handler (list doc) :=
  fun s => (Return (Collection.find q direction length (Database.data s)), s).

Definition data_find_projected `{!Env} (q : Query.t)
    (projection : gmap string Z) (direction length : Z)
  : handler (list doc) :=
  fun s =>
    (match Collection.find_projected q projection direction length
             (Database.data s) with
     | Ok found => Return found
     | Exn e => Raise (Uncaught e)
     end, s).

End db.

(** [doc[key]]: [KeyError] when the key is missing. *)
Definition getitem {A : Type} (d : gmap string A) (key : string) : handler A :=
  match d !! key with
  | Some v => ret v
  | None => raise (Uncaught KeyError)
  end.

(** [for x in xs: body], threading the store. *)
Fixpoint for_each {A : Type} (xs : list A) (body : A -> handler unit)
  : handler unit :=
  match xs with
  | [] => ret tt
  | x :: xs' => _ <- body x ;; for_each xs' body
  end.

(** [entry["timestamp"] = entry["timestamp"].isoformat()] when it is a
    datetime. *)
Definition format_timestamp `{!Env} (entry : doc) : doc :=
  match entry !! "timestamp" with
  | Some (VTime t) => <["timestamp" := VStr (isoformat t)]> entry
  | _ => entry
  end.

(** Request bodies of [app/routes/channels.py]. *)
Module ChannelCreate.
Record t : Type := Build {
  channel_name : string;
  fields : list string;
  initial_values : option (gmap string value)
}.
End ChannelCreate.

Module ChannelUpdate.
Record t : Type := Build {
  add_fields : option (list string);
  remove_fields : option (list string)
}.
End ChannelUpdate.

(** ** app/routes/channels.py *)
Module channels.

(** The body of the loop of [write_data] and of [render_put]: the document
    built so far and [valid_field_found]. *)
Definition write_step (channel_fields : gset string)
    (acc : res (doc * bool)) (item : string * value) : res (doc * bool) :=
  match acc with
  | Exn e => Exn e
  | Ok (data_doc, valid_field_found) =>
      let '(field, v) := item in
      if decide (field ∈ channel_fields)
      then match coerce v with
           | Ok v' => Ok (<[field := v']> data_doc, true)
           | Exn e => Exn e
           end
      else Ok (data_doc, valid_field_found)
  end.

(** The body of the loop of [update_channel_data_by_query_params]. *)
Definition query_step (channel_fields : gset string)
    (acc : res (doc * bool)) (item : string * string) : res (doc * bool) :=
  match acc with
  | Exn e => Exn e
  | Ok (data_to_insert, found_valid_field) =>
      let '(field, v) := item in
      if String.eqb field "api_key" then Ok (data_to_insert, found_valid_field)
      else if decide (field ∈ channel_fields)
      then match coerce_query (VStr v) with
           | Ok v' => Ok (<[field := v']> data_to_insert, true)
           | Exn e => Exn e
           end
      else Ok (data_to_insert, found_valid_field)
  end.

(** The seed document of [create_channel]. *)
Definition seed_doc (now : Z) (channel : ChannelCreate.t) : doc :=
  let data_to_insert : doc :=
    <["timestamp" := VTime now]>
      {["tank_id" := VStr (ChannelCreate.channel_name channel)]} in
  let initial_values :=
    default ∅ (ChannelCreate.initial_values channel) in
  if bool_decide (size initial_values = 0%nat)
  then foldl (fun d field => <[field := NA]> d) data_to_insert
         (ChannelCreate.fields channel)
  else foldl (fun d '(field, v) =>
                if decide (field ∈ ChannelCreate.fields channel)
                then <[field := v]> d else d)
         data_to_insert (map_to_list initial_values).

(** [POST /]: [generated] is the key drawn by [generate_api_key]. *)
Definition create_channel (generated : string) (now : Z)
    (channel : ChannelCreate.t) : handler Channel.t :=
  existing <- db.channels_find_one (ChannelCreate.channel_name channel) ;;
  match existing with
  | Some _ => raise (HTTPException 400 "Channel already exists")
  | None =>
      let channel_doc :=
        Channel.Build (ChannelCreate.channel_name channel) generated
                      (ChannelCreate.fields channel) in
      _ <- db.channels_insert_one channel_doc ;;
      _ <- db.data_insert_one (seed_doc now channel) ;;
      ret channel_doc
  end.

(** [GET /{channel_name}] *)
Definition get_channel (channel_name api_key : string) : handler Channel.t :=
  channel <- db.channels_find_one channel_name ;;
  match channel with
  | None => raise (HTTPException 404 "Channel not found")
  | Some channel =>
      if negb (String.eqb api_key (Channel.api_key channel))
      then raise (HTTPException 401 "Invalid API key")
      else ret channel
  end.

(** [POST /{channel_name}/data] *)
Definition write_data (now : Z) (channel_name api_key : string)
    (data : gmap string value) : handler doc :=
  channel <- db.channels_find_one channel_name ;;
  match channel with
  | None => raise (HTTPException 404 "Channel not found")
  | Some channel =>
      if negb (String.eqb api_key (Channel.api_key channel))
      then raise (HTTPException 401 "Invalid API key")
      else
        let data_doc : doc :=
          <["timestamp" := VTime now]> {["tank_id" := VStr channel_name]} in
        let channel_fields : gset string :=
          list_to_set (Channel.fields channel) in
        match foldl (write_step channel_fields) (Ok (data_doc, false))
                (map_to_list data) with
        | Exn e => raise (Uncaught e)
        | Ok (data_doc, valid_field_found) =>
            if negb valid_field_found
            then raise (HTTPException 400
                          "No valid channel fields provided in data.")
            else
              _ <- db.data_insert_one data_doc ;;
              ts <- getitem data_doc "timestamp" ;;
              ret (<["timestamp" := ts]>
                     {["message" :=
                         VStr "Data written successfully (JSON Body)"]})
        end
  end.

(** [GET /{channel_name}/update] *)
Definition update_channel_data_by_query_params (now : Z)
    (channel_name : string) (query_params : gmap string string)
  : handler doc :=
  let api_key := query_params !! "api_key" in
  if negb (truthy api_key)
  then raise (HTTPException 400
                "API key is required in query parameters.")
  else
    channel <- db.channels_find_one channel_name ;;
    match channel with
    | None => raise (HTTPException 404 "Channel not found")
    | Some channel =>
        if negb (bool_decide (api_key = Some (Channel.api_key channel)))
        then raise (HTTPException 401 "Invalid API key")
        else
          let data_to_insert : doc :=
            <["timestamp" := VTime now]> {["tank_id" := VStr channel_name]} in
          let channel_fields : gset string :=
            list_to_set (Channel.fields channel) in
          match foldl (query_step channel_fields) (Ok (data_to_insert, false))
                  (map_to_list query_params) with
          | Exn e => raise (Uncaught e)
          | Ok (data_to_insert, found_valid_field) =>
              if negb found_valid_field
              then raise (HTTPException 400
                "No valid channel fields provided in query parameters (excluding api_key).")
              else
                _ <- db.data_insert_one data_to_insert ;;
                ts <- getitem data_to_insert "timestamp" ;;
                ret (<["timestamp" := ts]>
                       {["message" :=
                           VStr "Data written successfully via query parameters"]})
          end
    end.

(** [limit: int = Query(100, ge=1, le=1000)]: the value the handler runs
    with, or nothing when the request is refused before the handler runs. *)
Definition Query_limit (limit : option Z) : option Z :=
  match limit with
  | None => Some 100
  | Some n => if (1 <=? n) && (n <=? 1000) then Some n else None
  end.

(** [GET /{channel_name}/data] *)
Definition get_historical_data `{!Env} (channel_name api_key : string)
    (field_name : option string) (start_time end_time : option Z)
    (limit : option Z) : handler (list doc) :=
  match Query_limit limit with
  | None => raise RequestValidationError
  | Some limit =>
      channel <- db.channels_find_one channel_name ;;
      match channel with
      | None => raise (HTTPException 404 "Channel not found")
      | Some channel =>
          if negb (String.eqb api_key (Channel.api_key channel))
          then raise (HTTPException 401 "Invalid API key")
          else
            let query :=
              Query.Build channel_name
                (if bool_decide (is_Some start_time)
                    || bool_decide (is_Some end_time)
                 then Some (Query.Range start_time end_time) else None) in
            let projection : gmap string Z :=
              <["timestamp" := 1]> {["_id" := 0]} in
            projection <-
              (if truthy field_name
               then
                 let field_name := default EmptyString field_name in
                 if negb (bool_decide (field_name ∈ Channel.fields channel))
                 then raise (HTTPException 400
                        ("Field '" +:+ field_name
                         +:+ "' is not defined for channel '"
                         +:+ channel_name +:+ "'"))
                 else ret (<[field_name := 1]> projection)
               else
                 ret (foldl (fun p field => <[field := 1]> p) projection
                        (Channel.fields channel))) ;;
            historical_data <-
              db.data_find_projected query projection 1 limit ;;
            ret (map format_timestamp historical_data)
      end
  end.

(** [DELETE /{channel_name}] *)
Definition delete_channel (channel_name api_key : string) : handler string :=
  channel <- db.channels_find_one channel_name ;;
  match channel with
  | None => raise (HTTPException 404 "Channel not found")
  | Some channel =>
      if negb (String.eqb api_key (Channel.api_key channel))
      then raise (HTTPException 401 "Invalid API key")
      else
        _ <- db.channels_delete_one channel_name ;;
        _ <- db.data_delete_many channel_name ;;
        ret ("Channel '" +:+ channel_name +:+ "' and all related data deleted")
  end.

(** [DELETE /{channel_name}/fields/{field_name}] *)
Definition delete_field `{!Env} (channel_name field_name api_key : string)
  : handler string :=
  channel <- db.channels_find_one channel_name ;;
  match channel with
  | None => raise (HTTPException 404 "Channel not found")
  | Some channel =>
      if negb (String.eqb api_key (Channel.api_key channel))
      then raise (HTTPException 401 "Invalid API key")
      else if negb (bool_decide (field_name ∈ Channel.fields channel))
      then raise (HTTPException 404 "Field not found in channel")
      else
        _ <- db.channels_update_one channel_name
               (Collection.pull_field field_name) ;;
        _ <- db.data_update_many channel_name field_name NA ;;
        ret ("Field '" +:+ field_name +:+ "' deleted from channel '"
             +:+ channel_name +:+ "' (set to 'N/A' in all data)")
  end.

(** A list that may be [None], as a condition: [if update.add_fields:]. *)
Definition nonempty (o : option (list string)) : bool :=
  match o with
  | Some (_ :: _) => true
  | _ => false
  end.

(** [PATCH /{channel_name}]: the new fields list, [list(current_fields)]. *)
Definition update_channel_fields `{!Env} (channel_name : string)
    (update : ChannelUpdate.t) (api_key : string) : handler (list string) :=
  channel <- db.channels_find_one channel_name ;;
  match channel with
  | None => raise (HTTPException 404 "Channel not found")
  | Some channel =>
      if negb (String.eqb api_key (Channel.api_key channel))
      then raise (HTTPException 401 "Invalid API key")
      else
        let current_fields : gset string :=
          list_to_set (Channel.fields channel) in
        let current_fields :=
          if nonempty (ChannelUpdate.add_fields update)
          then current_fields
               ∪ list_to_set (default [] (ChannelUpdate.add_fields update))
          else current_fields in
        current_fields <-
          (if nonempty (ChannelUpdate.remove_fields update)
           then
             let remove_fields :=
               default [] (ChannelUpdate.remove_fields update) in
             let current_fields :=
               current_fields ∖ list_to_set remove_fields in
             _ <- for_each remove_fields
                    (fun field => db.data_update_many channel_name field NA) ;;
             ret current_fields
           else ret current_fields) ;;
        _ <- db.channels_update_one channel_name
               (Collection.set_fields (elements current_fields)) ;;
        ret (elements current_fields)
  end.

End channels.

(** ** app/routes/data.py *)
Module data.

(** [GET /{channel_name}/latest] *)
Definition get_latest_data `{!Env} (channel_name api_key : string)
  : handler doc :=
  channel <- db.channels_find_one channel_name ;;
  match channel with
  | None => raise (HTTPException 404 "Channel not found")
  | Some channel =>
      if negb (String.eqb api_key (Channel.api_key channel))
      then raise (HTTPException 401 "Invalid API key")
      else
        data <- db.data_find (Query.Build channel_name None) (-1) 1 ;;
        match data with
        | [] => raise (HTTPException 404 "No data found for this channel.")
        | latest_entry :: _ =>
            let latest_entry :=
              match latest_entry !! "_id" with
              | Some id => <["_id" := VStr (py_str id)]> latest_entry
              | None => latest_entry
              end in
            ret (format_timestamp latest_entry)
        end
  end.

(** [GET /{channel_name}/latest/{field_name}] *)
Definition get_field_value `{!Env} (channel_name field_name api_key : string)
  : handler doc :=
  channel <- db.channels_find_one channel_name ;;
  match channel with
  | None => raise (HTTPException 404 "Channel not found")
  | Some channel =>
      if negb (String.eqb api_key (Channel.api_key channel))
      then raise (HTTPException 401 "Invalid API key")
      else if negb (bool_decide (field_name ∈ Channel.fields channel))
      then raise (HTTPException 400
                    ("Field '" +:+ field_name
                     +:+ "' is not defined for channel '"
                     +:+ channel_name +:+ "'"))
      else
        data <- db.data_find (Query.Build channel_name None) (-1) 1 ;;
        match data with
        | [] => raise (HTTPException 404
                         ("Field '" +:+ field_name
                          +:+ "' data not found for this channel."))
        | latest :: _ =>
            match latest !! field_name with
            | None => raise (HTTPException 404
                               ("Field '" +:+ field_name
                                +:+ "' data not found for this channel."))
            | Some v =>
                ret (<["timestamp" :=
                         match latest !! "timestamp" with
                         | Some (VTime t) => VStr (isoformat t)
                         | Some ts => ts
                         | None => VNull
                         end]>
                     (<["value" := v]>
                     (<["field" := VStr field_name]>
                      {["channel_name" := VStr channel_name]})))
            end
        end
  end.

End data.

(** ** coap_server.py *)
Module coap_server.

Inductive Code : Type :=
| CREATED
| CONTENT
| BAD_REQUEST
| UNAUTHORIZED
| NOT_FOUND.

(** A payload is a byte string, or [json.dumps] of a dict. *)
Inductive Payload : Type :=
| Bytes (s : string)
| Json (d : doc).

Record Message : Type := Build_Message {
  code : Code;
  payload : Payload
}.

Module Request.
Record t : Type := Build {
  uri_path : list string;
  uri_query : list string;
  payload : string
}.
End Request.

(** [json.dumps(d)]: [TypeError] when a value of [d] cannot be written. *)
Definition json_dumps (d : doc) : handler Payload :=
  if forallb (fun kv => json_serializable kv.2) (map_to_list d)
  then ret (Json d)
  else raise (Uncaught TypeError).

(** The loop that reads [request.opt.uri_query] into a dict. *)
Definition parse_query (uri_query : list string) : gmap string string :=
  foldl (fun query_params param =>
           match split_once "="%char param with
           | Some (k, v) => <[k := v]> query_params
           | None => <[param := EmptyString]> query_params
           end)
        ∅ uri_query.

Module ChannelDataResource.

(** [PUT /channels/{channel_name}/data] *)
Definition render_put `{!Env} (now : Z) (request : Request.t)
  : handler Message :=
  match Request.uri_path request !! 1%nat with
  | None => ret (Build_Message BAD_REQUEST
                   (Bytes "Invalid URI path for data put."))
  | Some channel_name =>
      let query_params := parse_query (Request.uri_query request) in
      let api_key := query_params !! "api_key" in
      if negb (truthy api_key)
      then ret (Build_Message BAD_REQUEST
        (Bytes "API key is required in query parameters (e.g., ?api_key=YOUR_KEY)."))
      else
        channel <- db.channels_find_one channel_name ;;
        match channel with
        | None => ret (Build_Message NOT_FOUND (Bytes "Channel not found."))
        | Some channel =>
            if negb (bool_decide (api_key = Some (Channel.api_key channel)))
            then ret (Build_Message UNAUTHORIZED (Bytes "Invalid API key."))
            else if String.eqb (Request.payload request) EmptyString
            then ret (Build_Message BAD_REQUEST (Bytes "Empty payload."))
            else
              match json_loads (Request.payload request) with
              | JSONDecodeError =>
                  ret (Build_Message BAD_REQUEST
                         (Bytes "Invalid JSON payload."))
              | UnicodeDecodeError =>
                  ret (Build_Message BAD_REQUEST
                         (Bytes "Invalid payload encoding."))
              | JOther _ => raise (Uncaught AttributeError)
              | JObject data_payload =>
                  let data_doc : doc :=
                    <["timestamp" := VTime now]>
                      {["tank_id" := VStr channel_name]} in
                  let channel_fields : gset string :=
                    list_to_set (Channel.fields channel) in
                  match foldl (channels.write_step channel_fields)
                          (Ok (data_doc, false))
                          (map_to_list data_payload) with
                  | Exn e => raise (Uncaught e)
                  | Ok (data_doc, valid_field_found) =>
                      if negb valid_field_found
                      then ret (Build_Message BAD_REQUEST
                        (Bytes "No valid channel fields provided in data that match channel configuration."))
                      else
                        _ <- db.data_insert_one data_doc ;;
                        ts <- getitem data_doc "timestamp" ;;
                        match ts with
                        | VTime t =>
                            ret (Build_Message CREATED
                                   (Json (<["timestamp" := VStr (isoformat t)]>
                                            {["message" := VStr
                                               "Data written successfully via CoAP"]})))
                        | _ => raise (Uncaught AttributeError)
                        end
                  end
              end
        end
  end.

End ChannelDataResource.

Module ChannelLatestDataResource.

(** [GET /channels/{channel_name}/latest] *)
Definition render_get `{!Env} (request : Request.t) : handler Message :=
  match Request.uri_path request !! 1%nat with
  | None => ret (Build_Message BAD_REQUEST
                   (Bytes "Invalid URI path for latest data get."))
  | Some channel_name =>
      let query_params := parse_query (Request.uri_query request) in
      let api_key := query_params !! "api_key" in
      if negb (truthy api_key)
      then ret (Build_Message BAD_REQUEST (Bytes "API key is required."))
      else
        channel <- db.channels_find_one channel_name ;;
        match channel with
        | None => ret (Build_Message NOT_FOUND (Bytes "Channel not found."))
        | Some channel =>
            if negb (bool_decide (api_key = Some (Channel.api_key channel)))
            then ret (Build_Message UNAUTHORIZED (Bytes "Invalid API key."))
            else
              data <- db.data_find (Query.Build channel_name None) (-1) 1 ;;
              match data with
              | [] => ret (Build_Message NOT_FOUND
                             (Bytes "No data found for this channel."))
              | latest_entry :: _ =>
                  ret (Build_Message CONTENT
                         (Json (format_timestamp (delete "_id" latest_entry))))
              end
        end
  end.

End ChannelLatestDataResource.

Module ChannelLatestFieldResource.

(** [GET /channels/{channel_name}/latest/{field_name}] *)
Definition render_get `{!Env} (request : Request.t) : handler Message :=
  match Request.uri_path request !! 1%nat,
        Request.uri_path request !! 2%nat with
  | Some channel_name, Some field_name =>
      let query_params := parse_query (Request.uri_query request) in
      let api_key := query_params !! "api_key" in
      if negb (truthy api_key)
      then ret (Build_Message BAD_REQUEST (Bytes "API key is required."))
      else
        channel <- db.channels_find_one channel_name ;;
        match channel with
        | None => ret (Build_Message NOT_FOUND (Bytes "Channel not found."))
        | Some channel =>
            if negb (bool_decide (api_key = Some (Channel.api_key channel)))
            then ret (Build_Message UNAUTHORIZED (Bytes "Invalid API key."))
            else if negb (bool_decide (field_name ∈ Channel.fields channel))
            then ret (Build_Message BAD_REQUEST
                        (Bytes ("Field '" +:+ field_name
                                +:+ "' is not defined for channel '"
                                +:+ channel_name +:+ "'.")))
            else
              data <- db.data_find (Query.Build channel_name None) (-1) 1 ;;
              match data with
              | [] => ret (Build_Message NOT_FOUND
                             (Bytes ("Field '" +:+ field_name
                                     +:+ "' data not found for this channel.")))
              | latest :: _ =>
                  match latest !! field_name with
                  | None => ret (Build_Message NOT_FOUND
                             (Bytes ("Field '" +:+ field_name
                                     +:+ "' data not found for this channel.")))
                  | Some v =>
                      let response_data : doc :=
                        <["timestamp" :=
                            match latest !! "timestamp" with
                            | Some (VTime t) => VStr (isoformat t)
                            | Some ts => ts
                            | None => VNull
                            end]>
                          (<["value" := v]>
                          (<["field" := VStr field_name]>
                           {["channel_name" := VStr channel_name]})) in
                      response_payload <- json_dumps response_data ;;
                      ret (Build_Message CONTENT response_payload)
                  end
              end
        end
  | _, _ => ret (Build_Message BAD_REQUEST
                   (Bytes "Invalid URI path for field data get."))
  end.

End ChannelLatestFieldResource.

End coap_server.

(** ** main.py (in coap_simulation_client.py): the MQTT subscriber *)
Module main.

(** The loop of [save_mqtt_data] that fills [cleaned_data]. *)
Definition cleaned (allowed_fields : gset string)
    (items : list (string * value)) (acc : doc) : doc :=
  foldl (fun cleaned '(key, v) =>
           if decide (key ∈ allowed_fields)
           then <[key := v]> cleaned else cleaned)
        acc items.

(** [save_mqtt_data]: [uuid] is [str(uuid.uuid4())] and [now] is
    [datetime.utcnow()]. *)
Definition save_mqtt_data (uuid : string) (now : Z) (channel_name : string)
    (data : gmap string value) : handler unit :=
  channel <- db.channels_find_one channel_name ;;
  match channel with
  | None => ret tt
  | Some channel =>
      let allowed_fields : gset string :=
        list_to_set (Channel.fields channel) in
      let cleaned_data : doc :=
        cleaned allowed_fields (map_to_list data) ∅ in
      let data_entry : doc :=
        cleaned_data
        ∪ (<["timestamp" := VTime now]>
           (<["tank_id" := VStr channel_name]>
            {["_id" := VStr uuid]})) in
      db.data_insert_one data_entry
  end.

(** [on_message]: every exception is caught and printed, and the coroutine
    handed to the event loop runs to its end. *)
Definition on_message `{!Env} (uuid : string) (now : Z)
    (topic payload : string) (s : Database.t) : Database.t :=
  match json_loads payload with
  | JObject data_payload =>
      match split "/"%char topic !! 1%nat with
      | Some channel_name =>
          snd (save_mqtt_data uuid now channel_name data_payload s)
      | None => s
      end
  | JOther _ | JSONDecodeError | UnicodeDecodeError => s
  end.

End main.

(** ** An environment to run the handlers in

    Dates are ordered by instant and sort after every other value; values
    of other types are ordered by their type alone. *)
Definition bson_rank (o : option value) : Z :=
  match o with
  | None | Some VNull => 1
  | Some (VInt _) | Some (VFloat _) => 2
  | Some (VStr _) => 3
  | Some (VObj _) => 4
  | Some (VArr _) => 5
  | Some (VBool _) => 8
  | Some (VTime _) => 9
  end.

Definition rank_leb (a b : option value) : bool :=
  match a, b with
  | Some (VTime s), Some (VTime t) => s <=? t
  | _, _ => bson_rank a <=? bson_rank b
  end.

Definition quoted (s : string) : string :=
  String (ascii_of_nat 34) s +:+ String (ascii_of_nat 34) EmptyString.

Definition level_75_2_json : string :=
  "{" +:+ quoted "level" +:+ ": " +:+ quoted "75.2" +:+ "}".

Definition demo_json_loads (payload : string) : json_result :=
  if String.eqb payload level_75_2_json
  then JObject {["level" := VStr "75.2"]}
  else if String.eqb payload "{}" then JObject ∅
  else if String.eqb payload "[]" then JOther (VArr [])
  else JSONDecodeError.

(** The store of the examples writes and projects the plain names, and
    refuses to give ["_id"] another string. *)
Definition demo_set (key : string) (v : value) (d : doc) : res doc :=
  if plain key then Ok (<[key := v]> d)
  else match d !! "_id", v with
       | Some (VStr s), VStr t =>
           if String.eqb key "_id" && String.eqb s t then Ok d
           else Exn WriteError
       | _, _ => Exn WriteError
       end.

Definition demo_projection (projection : gmap string Z) : res (doc -> doc) :=
  if Projection.plain projection then Ok (Projection.project projection)
  else Exn OperationFailure.

#[global] Instance demo_env : Env.
Proof.
  refine {| isoformat := pretty;
            py_str := fun v => match v with VStr s => s | _ => EmptyString end;
            json_loads := demo_json_loads;
            bson_leb := rank_leb;
            bson_geb := fun a b => rank_leb b a;
            mongo_set := demo_set;
            mongo_projection := demo_projection |}.
  - intros a b. unfold rank_leb.
    destruct a as [[]|], b as [[]|]; simpl; try (left; reflexivity);
      try (right; reflexivity).
    destruct (Z.leb_spec t t0); [left; reflexivity|right].
    apply Z.leb_le. lia.
  - intros a b c. unfold rank_leb.
    destruct a as [[]|], b as [[]|], c as [[]|]; simpl; intros Hab Hbc;
      try reflexivity; try discriminate.
    apply Z.leb_le. apply Z.leb_le in Hab, Hbc. lia.
  - reflexivity.
  - intros a b. unfold rank_leb.
    destruct a as [[]|], b as [[]|]; simpl; try (left; reflexivity);
      try (right; reflexivity).
    destruct (Z.leb_spec t0 t); [left; reflexivity|right].
    apply Z.leb_le. lia.
  - intros a b c. unfold rank_leb.
    destruct a as [[]|], b as [[]|], c as [[]|]; simpl; intros Hab Hbc;
      try reflexivity; try discriminate.
    apply Z.leb_le. apply Z.leb_le in Hab, Hbc. lia.
  - reflexivity.
  - intros key v d Hplain. unfold demo_set. by rewrite Hplain.
  - intros v d Hid. unfold demo_set. simpl.
    destruct (d !! "_id") as [[]|]; try done. destruct v; try done.
    destruct (String.eqb_spec s s0) as [->|]; done.
  - intros projection Hplain. unfold demo_projection. by rewrite Hplain.
Defined.

(** A store with the channel of the simulation client. *)
Definition tank3 : Channel.t :=
  Channel.Build "tank3" "XWHX1ZJA6Q8F" ["level"; "temperature"; "humidity"].

Definition tank3_seed : doc :=
  <["timestamp" := VTime 0]> {["tank_id" := VStr "tank3"]}.

Definition tank3_db : Database.t := Database.Build [tank3] [tank3_seed].

(** Two bags of the simulation clients. *)
Definition level_bag : gmap string value := {["level" := VStr "75.2"]}.
Definition status_bag : gmap string value := {["status" := VStr "online"]}.

(** ** The rest of app/routes/channels.py, and app/utils.py *)

(** [string.ascii_uppercase + string.digits] *)
Definition key_alphabet : string := "ABCDEFGHIJKLMNOPQRSTUVWXYZ0123456789".

(** [random.choice(chars)]: [r] is the number the generator draws. *)
Definition random_choice (r : nat) (chars : string) : ascii :=
  nth (r mod String.length chars) (list_ascii_of_string chars) "A"%char.

(** [generate_api_key(length=12)] of [channels.py]: [rng i] is the [i]-th
    draw of the generator. *)
Definition generate_api_key (rng : nat -> nat) (length : nat) : string :=
  string_of_list_ascii
    (map (fun i => random_choice (rng i) key_alphabet) (seq 0 length)).

Module utils.

(** [generate_api_key(length=12)] of [utils.py], which draws with
    [random.choices(characters, k=length)]. *)
Definition generate_api_key (rng : nat -> nat) (length : nat) : string :=
  string_of_list_ascii
    (map (fun i => random_choice (rng i) key_alphabet) (seq 0 length)).

End utils.

(** [GET /]: the name and the fields of the first 100 channels. *)
Definition list_channels : handler (list (string * list string)) :=
  fun s =>
    (Return (map (fun c => (Channel.channel_name c, Channel.fields c))
               (take 100 (Database.channels s))), s).

(** ** Vocabulary of the properties *)

(** A loop that copies into a document the pairs of a dict whose key passes
    a test: [cleaned_data] in [save_mqtt_data], the initial values in
    [create_channel]. *)
Definition select (P : string -> Prop) `{!forall k, Decision (P k)}
    (l : list (string * value)) (acc : doc) : doc :=
  foldl (fun acc '(k, v) => if decide (P k) then <[k := v]> acc else acc)
        acc l.

(** The document every handler starts from. *)
Definition stamp (tank : string) (now : Z) : doc :=
  <["timestamp" := VTime now]> {["tank_id" := VStr tank]}.

(** Every channel of the store has a duplicate-free list of fields. *)
Definition fields_unique (s : Database.t) : Prop :=
  forall c, c ∈ Database.channels s -> NoDup (Channel.fields c).

(** The store after one record was appended that carries the clock's
    instant. *)
Definition persisted_at (now : Z) (s s' : Database.t) : Prop :=
  exists d, s' = Database.Build (Database.channels s) (Database.data s ++ [d])
            /\ d !! "timestamp" = Some (VTime now).

(** A record after the fields [fs] were retired from it. *)
Definition retired (fs : list string) (d : doc) : doc :=
  foldl (fun d field => <[field := NA]> d) d fs.

(** What [update_many] does with a plain name: the key is written into
    every record of the channel. *)
Definition write_key (tank key : string) (v : value) (ds : list doc)
  : list doc :=
  map (fun d => if Collection.tagged tank d then <[key := v]> d else d) ds.

(** The names of a [remove_fields] list that reach the records of the
    channel.  The loop writes the names in turn, and once it has written
    ["tank_id"] the records are no longer those of the channel, unless the
    channel is itself named ["N/A"]. *)
Fixpoint reached (channel_name : string) (fs : list string) : list string :=
  match fs with
  | [] => []
  | f :: fs' =>
      f :: (if String.eqb f "tank_id" && negb (String.eqb channel_name "N/A")
            then [] else reached channel_name fs')
  end.

(** A list in which ["tank_id"] is not removed before another name. *)
Definition keeps_link (channel_name : string) (fs : list string) : Prop :=
  channel_name = "N/A"
  \/ "tank_id" ∉ fs
  \/ exists l, fs = (l ++ ["tank_id"])%list /\ "tank_id" ∉ l.

(** A PATCH that retires one name the channel never had. *)
Definition retire_pressure : ChannelUpdate.t :=
  ChannelUpdate.Build None (Some ["pressure"]).

(** The two shapes of the invalid-key failure: HTTP 401 and CoAP
    UNAUTHORIZED; the store is the one the call started from. *)
Definition unauthorized {A : Type} (s : Database.t)
  : outcome A * Database.t :=
  (Raise (HTTPException 401 "Invalid API key"), s).

Definition coap_unauthorized (s : Database.t)
  : outcome coap_server.Message * Database.t :=
  (Return (coap_server.Build_Message coap_server.UNAUTHORIZED
             (coap_server.Bytes "Invalid API key.")), s).

(** A query-parameter write that sends an empty key, and a history query
    that sends a wrong key with [limit=0]. *)
Definition empty_key_params : gmap string string :=
  <["level" := "76.8"]> {["api_key" := EmptyString]}.





(** Channel names are pairwise distinct. *)
Definition names_unique (s : Database.t) : Prop :=
  NoDup (map Channel.channel_name (Database.channels s)).

(** A character of a generated key: an upper-case letter or a digit. *)
Definition key_char (a : ascii) : bool :=
  let n := nat_of_ascii a in
  ((65 <=? n) && (n <=? 90))%nat || ((48 <=? n) && (n <=? 57))%nat.

(** The latest record as [get_latest_data] returns it: ["_id"] as text when
    there is one, the timestamp as ISO text when it is a date. *)
Definition latest_view `{!Env} (latest_entry : doc) : doc :=
  format_timestamp
    match latest_entry !! "_id" with
    | Some id => <["_id" := VStr (py_str id)]> latest_entry
    | None => latest_entry
    end.




(** The response code of a CoAP message read as the three digits of its
    dotted form: 2.01 Created, 2.05 Content, 4.00 Bad Request,
    4.01 Unauthorized, 4.04 Not Found. *)
Definition dotted (c : coap_server.Code) : Z :=
  match c with
  | coap_server.CREATED => 201
  | coap_server.CONTENT => 205
  | coap_server.BAD_REQUEST => 400
  | coap_server.UNAUTHORIZED => 401
  | coap_server.NOT_FOUND => 404
  end.

(** A CoAP request that names a channel and carries a non-empty key. *)
Definition addressed (request : coap_server.Request.t)
    (channel_name api_key : string) : Prop :=
  coap_server.Request.uri_path request !! 1%nat = Some channel_name
  /\ coap_server.parse_query (coap_server.Request.uri_query request)
       !! "api_key" = Some api_key
  /\ api_key <> EmptyString.

(** A CoAP refusal whose dotted code is the HTTP status. *)
Definition refused_as (status : Z)
    (coap : outcome coap_server.Message) : Prop :=
  exists c text,
    coap = Return (coap_server.Build_Message c (coap_server.Bytes text))
    /\ dotted c = status.

(** The PUT of the simulation client for the bag [{level: "75.2"}]. *)
Definition tank3_put : coap_server.Request.t :=
  coap_server.Request.Build ["channels"; "tank3"; "data"]
    ["api_key=XWHX1ZJA6Q8F"] level_75_2_json.

Definition tank3_get : coap_server.Request.t :=
  coap_server.Request.Build ["channels"; "tank3"; "latest"; "level"]
    ["api_key=XWHX1ZJA6Q8F"] EmptyString.

(** A string in which the character [sep] does not occur. *)
Definition free_of (sep : ascii) (s : string) : Prop :=
  sep ∉ list_ascii_of_string s.

(** The three keys [save_mqtt_data] writes before the values of the bag. *)
Definition mqtt_header (uuid : string) (now : Z) (channel_name : string)
  : doc :=
  <["timestamp" := VTime now]>
    (<["tank_id" := VStr channel_name]> {["_id" := VStr uuid]}).

(** The failure of every HTTP operation on a channel that does not exist,
    and its CoAP form; the store is the one the call started from. *)
Definition not_found {A : Type} (s : Database.t) : outcome A * Database.t :=
  (Raise (HTTPException 404 "Channel not found"), s).

Definition coap_not_found (s : Database.t)
  : outcome coap_server.Message * Database.t :=
  (Return (coap_server.Build_Message coap_server.NOT_FOUND
             (coap_server.Bytes "Channel not found.")), s).

(** The store [s'] is [s] with at most one record appended. *)
Definition appended (s s' : Database.t) : Prop :=
  Database.channels s' = Database.channels s
  /\ (Database.data s' = Database.data s
      \/ exists d, Database.data s' = (Database.data s ++ [d])%list).

(** The bag of a JSON write that carries the query parameters of a
    query-parameter write. *)
Definition as_bag (query_params : gmap string string) : gmap string value :=
  VStr <$> delete "api_key" query_params.

(** A query-parameter write of the simulation client. *)
Definition level_params : gmap string string :=
  <["level" := "75.2"]> {["api_key" := "XWHX1ZJA6Q8F"]}.

(** * Properties *)

(** ** [float] on the values of the simulation clients *)

Example of_str_75_2 :
  PyFloat.of_str "75.2" = Ok (S754_finite false 5291729562160333 (-46)).
Proof. vm_compute. reflexivity. Qed.

Example of_str_tenth :
  PyFloat.of_str " 1e-1 " = Ok (S754_finite false 7205759403792794 (-56)).
Proof. vm_compute. reflexivity. Qed.

Example of_str_online : PyFloat.of_str "online" = Exn ValueError.
Proof. vm_compute. reflexivity. Qed.

Example of_str_percent : PyFloat.of_str "80%" = Exn ValueError.
Proof. vm_compute. reflexivity. Qed.

Example of_int_60 :
  PyFloat.of_int 60 = Ok (S754_finite false 8444249301319680 (-47)).
Proof. vm_compute. reflexivity. Qed.

Example of_int_huge : PyFloat.of_int (10 ^ 400) = Exn OverflowError.
Proof. vm_compute. reflexivity. Qed.

(** [coerce] either yields the float or hands the value back. *)
Lemma coerce_Ok v v' :
  coerce v = Ok v' ->
  (exists f, py_float v = Ok f /\ v' = VFloat f)
  \/ ((py_float v = Exn ValueError \/ py_float v = Exn TypeError) /\ v' = v).
Proof.
  unfold coerce. destruct (py_float v) as [f|[]]; intros [= <-]; eauto.
Qed.

Lemma coerce_query_str s v' :
  coerce_query (VStr s) = Ok v' ->
  (exists f, PyFloat.of_str s = Ok f /\ v' = VFloat f)
  \/ (PyFloat.of_str s = Exn ValueError /\ v' = VStr s).
Proof.
  unfold coerce_query. simpl.
  destruct (PyFloat.of_str s) as [f|[]]; intros [= <-]; eauto.
Qed.

(** A string is never too large for [float]: the query-parameter handler
    meets no exception but [ValueError]. *)
Lemma of_str_no_escape s :
  (exists f, PyFloat.of_str s = Ok f) \/ PyFloat.of_str s = Exn ValueError.
Proof.
  unfold PyFloat.of_str.
  destruct (PyFloat.sign _) as [neg body].
  repeat match goal with |- context [if ?b then _ else _] => destruct b end;
    eauto.
  destruct (PyFloat.floatnumber neg body); eauto.
Qed.

Lemma py_float_exn v e :
  py_float v = Exn e -> e = ValueError \/ e = TypeError \/ e = OverflowError.
Proof.
  destruct v; simpl; try (intros [= <-]; auto); try discriminate.
  - unfold PyFloat.of_int.
    destruct (binary_normalize _ _ _ _ _); intros [= <-]; auto.
  - destruct (of_str_no_escape s) as [[f ->]| ->]; [discriminate|].
    intros [= <-]; auto.
Qed.

Lemma coerce_query_total s : exists v', coerce_query (VStr s) = Ok v'.
Proof.
  unfold coerce_query. simpl.
  destruct (of_str_no_escape s) as [[f ->]| ->]; eauto.
Qed.

(** ** The store *)

Lemma find_one_name name cs c :
  Collection.find_one name cs = Some c -> Channel.channel_name c = name.
Proof.
  unfold Collection.find_one. intros Hf.
  apply find_some in Hf as [_ Hn]. unfold Collection.has_name in Hn.
  by apply String.eqb_eq in Hn.
Qed.

Lemma find_one_elem name cs c :
  Collection.find_one name cs = Some c -> c ∈ cs.
Proof.
  unfold Collection.find_one. intros Hf.
  apply find_some in Hf as [Hin _]. by apply list_elem_of_In.
Qed.

(** ** The ingestion loops *)

Section Loops.
Variable channel_fields : gset string.

Lemma write_step_Exn e l :
  foldl (channels.write_step channel_fields) (Exn e) l = Exn e.
Proof. induction l as [|[k v] l IH]; simpl; auto. Qed.

Lemma query_step_Exn e l :
  foldl (channels.query_step channel_fields) (Exn e) l = Exn e.
Proof. induction l as [|[k v] l IH]; simpl; auto. Qed.

(** A bag with no key in the schema leaves the document and the flag as they
    were. *)
Lemma write_loop_none l d b :
  (forall k v, (k, v) ∈ l -> k ∉ channel_fields) ->
  foldl (channels.write_step channel_fields) (Ok (d, b)) l = Ok (d, b).
Proof.
  revert d b. induction l as [|[k v] l IH]; intros d b Hl; simpl; [done|].
  destruct (decide (k ∈ channel_fields)) as [Hin|_].
  - exfalso. apply (Hl k v); [left|done].
  - apply IH. intros k' v' Hin'. apply (Hl k' v'). by right.
Qed.

Lemma query_loop_none l d b :
  (forall k v, (k, v) ∈ l -> k <> "api_key" -> k ∉ channel_fields) ->
  foldl (channels.query_step channel_fields) (Ok (d, b)) l = Ok (d, b).
Proof.
  revert d b. induction l as [|[k v] l IH]; intros d b Hl; simpl; [done|].
  destruct (String.eqb_spec k "api_key") as [->|Hk].
  - apply IH. intros k' v' Hin'. apply (Hl k' v'). by right.
  - destruct (decide (k ∈ channel_fields)) as [Hin|_].
    + exfalso. apply (Hl k v); [left|done|done].
    + apply IH. intros k' v' Hin'. apply (Hl k' v'). by right.
Qed.

(** Keys outside the schema are never written. *)
Lemma write_loop_frame l d b d' b' k :
  foldl (channels.write_step channel_fields) (Ok (d, b)) l = Ok (d', b') ->
  k ∉ channel_fields -> d' !! k = d !! k.
Proof.
  revert d b. induction l as [|[k0 v] l IH]; intros d b; simpl.
  - by intros [= <- <-].
  - destruct (decide (k0 ∈ channel_fields)) as [Hin|Hout].
    + destruct (coerce v) as [v0|e]; [|by rewrite write_step_Exn].
      intros Hl Hk. rewrite (IH _ _ Hl Hk).
      apply lookup_insert_ne. by intros ->.
    + apply IH.
Qed.

Lemma query_loop_frame l d b d' b' k :
  foldl (channels.query_step channel_fields) (Ok (d, b)) l = Ok (d', b') ->
  k ∉ channel_fields -> d' !! k = d !! k.
Proof.
  revert d b. induction l as [|[k0 v] l IH]; intros d b; simpl.
  - by intros [= <- <-].
  - destruct (String.eqb k0 "api_key"); [apply IH|].
    destruct (decide (k0 ∈ channel_fields)) as [Hin|Hout].
    + destruct (coerce_query (VStr v)) as [v0|e];
        [|by rewrite query_step_Exn].
      intros Hl Hk. rewrite (IH _ _ Hl Hk).
      apply lookup_insert_ne. by intros ->.
    + apply IH.
Qed.

(** Keys that the bag does not hold are never written. *)
Lemma write_loop_other l d b d' b' k :
  foldl (channels.write_step channel_fields) (Ok (d, b)) l = Ok (d', b') ->
  k ∉ l.*1 -> d' !! k = d !! k.
Proof.
  revert d b. induction l as [|[k0 v] l IH]; intros d b; simpl.
  - by intros [= <- <-].
  - intros Hl Hk. apply not_elem_of_cons in Hk as [Hne Hk].
    destruct (decide (k0 ∈ channel_fields)) as [Hin|Hout].
    + destruct (coerce v) as [v0|e]; [|by rewrite write_step_Exn in Hl].
      rewrite (IH _ _ Hl Hk). by apply lookup_insert_ne.
    + by apply (IH _ _ Hl).
Qed.

(** Every pair of the bag whose key is in the schema is stored coerced. *)
Lemma write_loop_value l d b d' b' k v :
  NoDup l.*1 ->
  foldl (channels.write_step channel_fields) (Ok (d, b)) l = Ok (d', b') ->
  (k, v) ∈ l -> k ∈ channel_fields ->
  exists v', coerce v = Ok v' /\ d' !! k = Some v' /\ b' = true.
Proof.
  revert d b. induction l as [|[k0 v0] l IH]; intros d b Hnd; simpl.
  - intros _ Hin. by apply elem_of_nil in Hin.
  - apply NoDup_cons in Hnd as [Hk0 Hnd]. simpl in Hk0.
    intros Hl Hin Hk. apply elem_of_cons in Hin as [[= <- <-]|Hin].
    + destruct (decide (k ∈ channel_fields)); [|done].
      destruct (coerce v) as [v'|ex]; [|by rewrite write_step_Exn in Hl].
      exists v'. split; [done|].
      rewrite (write_loop_other _ _ _ _ _ _ Hl Hk0), lookup_insert_eq.
      split; [done|]. clear -Hl.
      revert Hl. generalize (<[k:=v']> d). revert b'.
      induction l as [|[k1 v1] l IH]; intros b' d0; simpl.
      * by intros [= _ <-].
      * destruct (decide (k1 ∈ channel_fields)); [|apply IH].
        destruct (coerce v1); [apply IH|by rewrite write_step_Exn].
    + destruct (decide (k0 ∈ channel_fields)).
      * destruct (coerce v0) as [v'|ex]; [|by rewrite write_step_Exn in Hl].
        by apply (IH _ _ Hnd Hl).
      * by apply (IH _ _ Hnd Hl).
Qed.

(** The loop ends without an exception when no value of the schema makes
    [coerce] raise. *)
Lemma write_loop_total l d b :
  (forall k v, (k, v) ∈ l -> k ∈ channel_fields -> exists v', coerce v = Ok v') ->
  exists d' b', foldl (channels.write_step channel_fields) (Ok (d, b)) l
              = Ok (d', b').
Proof.
  revert d b. induction l as [|[k v] l IH]; intros d b Hl; simpl; [eauto|].
  destruct (decide (k ∈ channel_fields)) as [Hin|Hout].
  - destruct (Hl k v) as [v' ->]; [left|done|].
    apply IH. intros k' v0 Hin'. apply Hl. by right.
  - apply IH. intros k' v0 Hin'. apply Hl. by right.
Qed.

Lemma query_loop_total l d b :
  exists d' b', foldl (channels.query_step channel_fields) (Ok (d, b)) l
              = Ok (d', b').
Proof.
  revert d b. induction l as [|[k v] l IH]; intros d b; simpl; [eauto|].
  destruct (String.eqb k "api_key"); [apply IH|].
  destruct (decide (k ∈ channel_fields)); [|apply IH].
  destruct (coerce_query_total v) as [v' ->]. apply IH.
Qed.

Lemma query_loop_other l d b d' b' k :
  foldl (channels.query_step channel_fields) (Ok (d, b)) l = Ok (d', b') ->
  k ∉ l.*1 -> d' !! k = d !! k.
Proof.
  revert d b. induction l as [|[k0 v] l IH]; intros d b; simpl.
  - by intros [= <- <-].
  - intros Hl Hk. apply not_elem_of_cons in Hk as [Hne Hk].
    destruct (String.eqb k0 "api_key"); [by apply (IH _ _ Hl)|].
    destruct (decide (k0 ∈ channel_fields)) as [Hin|Hout].
    + destruct (coerce_query (VStr v)) as [v0|e];
        [|by rewrite query_step_Exn in Hl].
      rewrite (IH _ _ Hl Hk). by apply lookup_insert_ne.
    + by apply (IH _ _ Hl).
Qed.

Lemma query_loop_found l d b d' b' :
  foldl (channels.query_step channel_fields) (Ok (d, b)) l = Ok (d', b') ->
  b = true -> b' = true.
Proof.
  revert d b. induction l as [|[k v] l IH]; intros d b; simpl.
  - by intros [= _ <-].
  - destruct (String.eqb k "api_key"); [apply IH|].
    destruct (decide (k ∈ channel_fields)); [|apply IH].
    destruct (coerce_query (VStr v)); [|by rewrite query_step_Exn].
    intros Hl _. by apply (IH _ _ Hl).
Qed.

(** Every parameter but [api_key] whose name is in the schema is stored
    coerced. *)
Lemma query_loop_value l d b d' b' k v :
  NoDup l.*1 ->
  foldl (channels.query_step channel_fields) (Ok (d, b)) l = Ok (d', b') ->
  (k, v) ∈ l -> k <> "api_key" -> k ∈ channel_fields ->
  d' !! k = Some (coerced (VStr v)) /\ b' = true.
Proof.
  revert d b. induction l as [|[k0 v0] l IH]; intros d b Hnd; simpl.
  - intros _ Hin. by apply elem_of_nil in Hin.
  - apply NoDup_cons in Hnd as [Hk0 Hnd]. simpl in Hk0.
    intros Hl Hin Hkey Hk. apply elem_of_cons in Hin as [[= <- <-]|Hin].
    + destruct (String.eqb_spec k "api_key"); [done|].
      destruct (decide (k ∈ channel_fields)); [|done].
      destruct (coerce_query (VStr v)) as [v'|ex] eqn:Hv;
        [|by rewrite query_step_Exn in Hl].
      rewrite (query_loop_other _ _ _ _ _ _ Hl Hk0), lookup_insert_eq.
      split; [|by apply (query_loop_found _ _ _ _ _ Hl)].
      f_equal. unfold coerce_query in Hv. unfold coerced.
      destruct (py_float (VStr v)) as [f|[]]; congruence.
    + destruct (String.eqb k0 "api_key"); [by apply (IH _ _ Hnd Hl)|].
      destruct (decide (k0 ∈ channel_fields)).
      * destruct (coerce_query (VStr v0)) as [v'|ex];
          [|by rewrite query_step_Exn in Hl].
        by apply (IH _ _ Hnd Hl).
      * by apply (IH _ _ Hnd Hl).
Qed.

(** An integer of the schema that is too large for a float ends the loop of
    the JSON handlers in [OverflowError]. *)
Lemma write_loop_overflow l d b k v :
  (k, v) ∈ l -> k ∈ channel_fields -> py_float v = Exn OverflowError ->
  foldl (channels.write_step channel_fields) (Ok (d, b)) l
  = Exn OverflowError.
Proof.
  revert d b. induction l as [|[k0 v0] l IH]; intros d b Hin Hk Hv.
  - by apply elem_of_nil in Hin.
  - simpl. destruct (decide (k0 ∈ channel_fields)) as [Hk0|Hk0].
    + destruct (coerce v0) as [v'|e] eqn:Hv0.
      * apply elem_of_cons in Hin as [[= <- <-]|Hin]; [|by apply IH].
        unfold coerce in Hv0. by rewrite Hv in Hv0.
      * rewrite write_step_Exn. f_equal. unfold coerce in Hv0.
        destruct (py_float v0) as [f|e0] eqn:Hf; [done|].
        destruct (py_float_exn _ _ Hf) as [->|[->| ->]]; congruence.
    + apply elem_of_cons in Hin as [[= <- <-]|Hin]; [done|by apply IH].
Qed.

End Loops.

(** Unfolding of the state-and-exception plumbing. *)
Ltac run :=
  unfold bind, ret, raise, getitem,
    db.channels_find_one, db.channels_insert_one, db.channels_update_one,
    db.channels_delete_one, db.data_insert_one,
    db.data_delete_many, db.data_find; simpl.

Ltac not_in_list :=
  let H := fresh in
  intros H;
  repeat (apply elem_of_cons in H as [H|H]; [discriminate H|]);
  by apply elem_of_nil in H.

Lemma list_to_set_fields (k : string) (l : list string) :
  k ∈ (list_to_set l : gset string) <-> k ∈ l.
Proof. apply elem_of_list_to_set. Qed.

Lemma new_doc_timestamp (tank : string) (now : Z) :
  (<["timestamp" := VTime now]> {["tank_id" := VStr tank]} : doc)
    !! "timestamp" = Some (VTime now).
Proof. apply lookup_insert_eq. Qed.

(** ** Rejection of a bag with no field of the schema *)

Section NoValidFields.
Context `{!Env}.
Variables (now : Z) (s : Database.t) (channel_name : string)
  (channel : Channel.t).
Hypothesis Hfind :
  Collection.find_one channel_name (Database.channels s) = Some channel.

Lemma write_data_no_valid_fields (data : gmap string value) :
  (forall k, is_Some (data !! k) -> k ∉ Channel.fields channel) ->
  channels.write_data now channel_name (Channel.api_key channel) data s
  = (Raise (HTTPException 400 "No valid channel fields provided in data."),
     s).
Proof.
  intros Hnone. unfold channels.write_data. run. rewrite Hfind.
  rewrite String.eqb_refl. simpl.
  rewrite write_loop_none; [done|].
  intros k v Hkv%elem_of_map_to_list. rewrite list_to_set_fields.
  apply Hnone. by exists v.
Qed.

Lemma query_params_no_valid_fields (query_params : gmap string string) :
  query_params !! "api_key" = Some (Channel.api_key channel) ->
  Channel.api_key channel <> EmptyString ->
  (forall k, is_Some (query_params !! k) -> k <> "api_key" ->
             k ∉ Channel.fields channel) ->
  channels.update_channel_data_by_query_params now channel_name query_params s
  = (Raise (HTTPException 400
      "No valid channel fields provided in query parameters (excluding api_key)."),
     s).
Proof.
  intros Hkey Hne Hnone. unfold channels.update_channel_data_by_query_params.
  rewrite Hkey. simpl.
  destruct (String.eqb_spec (Channel.api_key channel) EmptyString); [done|].
  run. rewrite Hfind. rewrite bool_decide_true by done. simpl.
  rewrite query_loop_none; [done|].
  intros k v Hkv%elem_of_map_to_list Hk. rewrite list_to_set_fields.
  apply Hnone; [by exists v|done].
Qed.

Lemma render_put_no_valid_fields (request : coap_server.Request.t)
    (data_payload : gmap string value) :
  coap_server.Request.uri_path request !! 1%nat = Some channel_name ->
  coap_server.parse_query (coap_server.Request.uri_query request)
    !! "api_key" = Some (Channel.api_key channel) ->
  Channel.api_key channel <> EmptyString ->
  coap_server.Request.payload request <> EmptyString ->
  json_loads (coap_server.Request.payload request) = JObject data_payload ->
  (forall k, is_Some (data_payload !! k) -> k ∉ Channel.fields channel) ->
  coap_server.ChannelDataResource.render_put now request s
  = (Return (coap_server.Build_Message coap_server.BAD_REQUEST
       (coap_server.Bytes
          "No valid channel fields provided in data that match channel configuration.")),
     s).
Proof.
  intros Hpath Hkey Hne Hpay Hjson Hnone.
  unfold coap_server.ChannelDataResource.render_put.
  rewrite Hpath, Hkey. simpl.
  destruct (String.eqb_spec (Channel.api_key channel) EmptyString); [done|].
  run. rewrite Hfind. rewrite bool_decide_true by done. simpl.
  destruct (String.eqb_spec (coap_server.Request.payload request)
              EmptyString); [done|].
  rewrite Hjson. rewrite write_loop_none; [done|].
  intros k v Hkv%elem_of_map_to_list. rewrite list_to_set_fields.
  apply Hnone. by exists v.
Qed.

(** The loop of [save_mqtt_data] keeps nothing of a bag with no field of the
    channel. *)
Lemma cleaned_none (fs : gset string) (l : list (string * value))
    (acc : doc) :
  (forall k v, (k, v) ∈ l -> k ∉ fs) -> main.cleaned fs l acc = acc.
Proof.
  unfold main.cleaned. revert acc.
  induction l as [|[k v] l IH]; intros acc Hnone; [done|]. simpl.
  rewrite decide_False by (apply (Hnone k v); left).
  apply IH. intros k' v' Hin. apply (Hnone k' v'). by right.
Qed.

Lemma save_mqtt_data_no_valid_fields (uuid : string)
    (data : gmap string value) :
  (forall k, is_Some (data !! k) -> k ∉ Channel.fields channel) ->
  main.save_mqtt_data uuid now channel_name data s
  = (Return tt,
     Database.Build (Database.channels s)
       (Database.data s ++ [mqtt_header uuid now channel_name])).
Proof.
  intros Hnone. unfold main.save_mqtt_data. run. rewrite Hfind.
  rewrite cleaned_none.
  - unfold Collection.insert_one, mqtt_header. by rewrite (left_id_L ∅ (∪)).
  - intros k v Hkv%elem_of_map_to_list. rewrite list_to_set_fields.
    apply Hnone. by exists v.
Qed.

End NoValidFields.

(** C3, with the path on which the code departs from it.  On the three
    paths that answer a caller, an ingestion call that passes authentication
    and whose field bag holds no field of the channel's field set fails with
    the no-valid-fields error (HTTP 400 on both HTTP writes, BAD_REQUEST on
    the CoAP PUT), and the store is left exactly as it was: no record is
    persisted.  On the MQTT path such a call does not fail:
    [save_mqtt_data], and so [on_message] for a message on the topic of the
    channel, appends a record that holds the id, the channel name and the
    timestamp, and no field. *)
Theorem C3_no_valid_fields_rejected `{!Env} (now : Z) (s : Database.t)
    (channel_name : string) (channel : Channel.t) :
  Collection.find_one channel_name (Database.channels s) = Some channel ->
  (forall data : gmap string value,
     (forall k, is_Some (data !! k) -> k ∉ Channel.fields channel) ->
     channels.write_data now channel_name (Channel.api_key channel) data s
     = (Raise (HTTPException 400
                 "No valid channel fields provided in data."), s))
  /\ (forall query_params : gmap string string,
        query_params !! "api_key" = Some (Channel.api_key channel) ->
        Channel.api_key channel <> EmptyString ->
        (forall k, is_Some (query_params !! k) -> k <> "api_key" ->
                   k ∉ Channel.fields channel) ->
        channels.update_channel_data_by_query_params now channel_name
          query_params s
        = (Raise (HTTPException 400
      "No valid channel fields provided in query parameters (excluding api_key)."),
           s))
  /\ (forall (request : coap_server.Request.t)
             (data_payload : gmap string value),
        coap_server.Request.uri_path request !! 1%nat = Some channel_name ->
        coap_server.parse_query (coap_server.Request.uri_query request)
          !! "api_key" = Some (Channel.api_key channel) ->
        Channel.api_key channel <> EmptyString ->
        coap_server.Request.payload request <> EmptyString ->
        json_loads (coap_server.Request.payload request)
          = JObject data_payload ->
        (forall k, is_Some (data_payload !! k) ->
                   k ∉ Channel.fields channel) ->
        coap_server.ChannelDataResource.render_put now request s
        = (Return (coap_server.Build_Message coap_server.BAD_REQUEST
             (coap_server.Bytes
          "No valid channel fields provided in data that match channel configuration.")),
           s))
  /\ (forall (uuid : string) (data : gmap string value),
        (forall k, is_Some (data !! k) -> k ∉ Channel.fields channel) ->
        let s' := Database.Build (Database.channels s)
                    (Database.data s ++ [mqtt_header uuid now channel_name]) in
        main.save_mqtt_data uuid now channel_name data s = (Return tt, s')
        /\ forall topic payload,
             split "/"%char topic !! 1%nat = Some channel_name ->
             json_loads payload = JObject data ->
             main.on_message uuid now topic payload s = s').
Proof.
  intros Hfind. split; [|split; [|split]].
  - by apply write_data_no_valid_fields.
  - by apply query_params_no_valid_fields.
  - by apply render_put_no_valid_fields.
  - intros uuid data Hnone s'.
    pose proof (save_mqtt_data_no_valid_fields now s channel_name channel
                  Hfind uuid data Hnone) as Hsave.
    split; [done|]. intros topic payload Htopic Hjson.
    unfold main.on_message. by rewrite Hjson, Htopic, Hsave.
Qed.

Lemma C3_witness :
  channels.write_data 7 "tank3" "XWHX1ZJA6Q8F"
    {["status" := VStr "online"]} tank3_db
  = (Raise (HTTPException 400 "No valid channel fields provided in data."),
     tank3_db)
  /\ channels.update_channel_data_by_query_params 7 "tank3"
       (<["status" := "online"]> {["api_key" := "XWHX1ZJA6Q8F"]}) tank3_db
     = (Raise (HTTPException 400
      "No valid channel fields provided in query parameters (excluding api_key)."),
        tank3_db)
  /\ coap_server.ChannelDataResource.render_put 7
       (coap_server.Request.Build ["channels"; "tank3"; "data"]
          ["api_key=XWHX1ZJA6Q8F"] "{}") tank3_db
     = (Return (coap_server.Build_Message coap_server.BAD_REQUEST
          (coap_server.Bytes
          "No valid channel fields provided in data that match channel configuration.")),
        tank3_db)
  /\ main.save_mqtt_data "uuid" 7 "tank3" {["status" := VStr "online"]}
       tank3_db
     = (Return tt,
        Database.Build [tank3] [tank3_seed; mqtt_header "uuid" 7 "tank3"])
  /\ main.on_message "uuid" 7 "tanks/tank3/data" "{}" tank3_db
     = Database.Build [tank3] [tank3_seed; mqtt_header "uuid" 7 "tank3"].
Proof.
  destruct (C3_no_valid_fields_rejected 7 tank3_db "tank3" tank3 eq_refl)
    as (Hjson & Hquery & Hcoap & Hmqtt).
  split; [|split; [|split; [|split]]].
  - apply (Hjson {["status" := VStr "online"]}).
    intros k [v Hv]. apply lookup_singleton_Some in Hv as [<- _].
    simpl. not_in_list.
  - apply (Hquery (<["status" := "online"]> {["api_key" := "XWHX1ZJA6Q8F"]})).
    + reflexivity.
    + discriminate.
    + intros k [v Hv] Hk.
      apply lookup_insert_Some in Hv as [[<- _]|[_ Hv]].
      * simpl. not_in_list.
      * apply lookup_singleton_Some in Hv as [<- _]. done.
  - apply (Hcoap _ ∅).
    + reflexivity.
    + reflexivity.
    + discriminate.
    + discriminate.
    + reflexivity.
    + intros k [v Hv]. by rewrite lookup_empty in Hv.
  - refine (proj1 (Hmqtt "uuid" {["status" := VStr "online"]} _)).
    intros k [v Hv]. apply lookup_singleton_Some in Hv as [<- _].
    simpl. not_in_list.
  - refine (proj2 (Hmqtt "uuid" ∅ _) "tanks/tank3/data" "{}" eq_refl eq_refl).
    intros k [v Hv]. by rewrite lookup_empty in Hv.
Defined.

(** ** Coercion of the values of the schema *)

Lemma coerce_coerced v v' : coerce v = Ok v' -> v' = coerced v.
Proof.
  unfold coerce, coerced. destruct (py_float v) as [f|[]]; by intros [= <-].
Qed.

Lemma coerce_no_overflow v :
  py_float v <> Exn OverflowError -> coerce v = Ok (coerced v).
Proof.
  unfold coerce, coerced. intros Hv.
  destruct (py_float v) as [f|e] eqn:Hf; [done|].
  destruct (py_float_exn _ _ Hf) as [->|[->| ->]]; done.
Qed.

(** The JSON write stores, for every pair of the bag whose field is in the
    schema, the float that [float] makes of the value, or the value itself
    when [float] raises [ValueError] or [TypeError]; this needs that no value
    of the schema is an integer beyond the range of a float. *)
Lemma write_data_stores_coerced (now : Z) (s : Database.t)
    (channel_name : string) (channel : Channel.t)
    (data : gmap string value) :
  Collection.find_one channel_name (Database.channels s) = Some channel ->
  (forall k v, data !! k = Some v -> k ∈ Channel.fields channel ->
               py_float v <> Exn OverflowError) ->
  (exists k, is_Some (data !! k) /\ k ∈ Channel.fields channel) ->
  exists data_doc response,
    channels.write_data now channel_name (Channel.api_key channel) data s
    = (Return response,
       Database.Build (Database.channels s) (Database.data s ++ [data_doc]))
    /\ forall k v, data !! k = Some v -> k ∈ Channel.fields channel ->
                   data_doc !! k = Some (coerced v).
Proof.
  intros Hfind Hsafe (k0 & [v0 Hv0] & Hk0).
  unfold channels.write_data. run. rewrite Hfind, String.eqb_refl. simpl.
  set (base := <["timestamp" := VTime now]> {["tank_id" := VStr channel_name]}).
  set (fs := list_to_set (Channel.fields channel) : gset string).
  destruct (write_loop_total fs (map_to_list data) base false)
    as (d' & b' & Hloop).
  { intros k v Hkv%elem_of_map_to_list Hk%list_to_set_fields.
    exists (coerced v). apply coerce_no_overflow. by apply (Hsafe k). }
  rewrite Hloop.
  assert (Hval : forall k v, data !! k = Some v -> k ∈ Channel.fields channel ->
                   d' !! k = Some (coerced v) /\ b' = true).
  { intros k v Hkv Hk.
    destruct (write_loop_value fs (map_to_list data) base false d' b' k v)
      as (v' & Hv' & Hd' & Hb'); auto.
    - apply NoDup_fst_map_to_list.
    - by apply elem_of_map_to_list.
    - by apply list_to_set_fields.
    - by rewrite (coerce_coerced _ _ Hv') in Hd'. }
  destruct (Hval k0 v0 Hv0 Hk0) as [_ ->]. simpl.
  destruct (d' !! "timestamp") as [ts|] eqn:Hts.
  - eexists d', _. split; [reflexivity|]. intros k v Hkv Hk.
    by destruct (Hval k v Hkv Hk).
  - exfalso. destruct (decide ("timestamp" ∈ fs)) as [Hin|Hout].
    + destruct (data !! "timestamp") as [v|] eqn:Hv.
      * apply list_to_set_fields in Hin.
        destruct (Hval _ _ Hv Hin) as [Hd' _]. congruence.
      * rewrite (write_loop_other fs _ _ _ _ _ "timestamp" Hloop) in Hts.
        -- unfold base in Hts. by rewrite new_doc_timestamp in Hts.
        -- intros ((k & v) & Hk & Hkv%elem_of_map_to_list)%list_elem_of_fmap.
           simpl in Hk. subst k. congruence.
    + rewrite (write_loop_frame fs _ _ _ _ _ _ Hloop Hout) in Hts.
      unfold base in Hts. by rewrite new_doc_timestamp in Hts.
Qed.

(** The query-parameter write stores every parameter of the schema coerced:
    its values are strings, for which [float] raises nothing but
    [ValueError]. *)
Lemma query_params_stores_coerced (now : Z) (s : Database.t)
    (channel_name : string) (channel : Channel.t)
    (query_params : gmap string string) :
  Collection.find_one channel_name (Database.channels s) = Some channel ->
  query_params !! "api_key" = Some (Channel.api_key channel) ->
  Channel.api_key channel <> EmptyString ->
  (exists k, k <> "api_key" /\ is_Some (query_params !! k)
             /\ k ∈ Channel.fields channel) ->
  exists data_to_insert response,
    channels.update_channel_data_by_query_params now channel_name
      query_params s
    = (Return response,
       Database.Build (Database.channels s)
                      (Database.data s ++ [data_to_insert]))
    /\ forall k v, k <> "api_key" -> query_params !! k = Some v ->
                   k ∈ Channel.fields channel ->
                   data_to_insert !! k = Some (coerced (VStr v)).
Proof.
  intros Hfind Hkey Hne (k0 & Hk0 & [v0 Hv0] & Hin0).
  unfold channels.update_channel_data_by_query_params.
  rewrite Hkey. simpl.
  destruct (String.eqb_spec (Channel.api_key channel) EmptyString); [done|].
  run. rewrite Hfind. rewrite bool_decide_true by done. simpl.
  set (fs := list_to_set (Channel.fields channel) : gset string).
  destruct (query_loop_total fs (map_to_list query_params)
              (stamp channel_name now) false) as (d' & b' & Hloop).
  unfold stamp in Hloop. rewrite Hloop.
  assert (Hval : forall k v, k <> "api_key" -> query_params !! k = Some v ->
                   k ∈ Channel.fields channel ->
                   d' !! k = Some (coerced (VStr v)) /\ b' = true).
  { intros k v Hk Hkv Hin.
    eapply (query_loop_value fs (map_to_list query_params)); eauto.
    - apply NoDup_fst_map_to_list.
    - by apply elem_of_map_to_list.
    - by apply list_to_set_fields. }
  destruct (Hval k0 v0 Hk0 Hv0 Hin0) as [_ ->]. simpl.
  destruct (d' !! "timestamp") as [ts|] eqn:Hts.
  - eexists d', _. split; [reflexivity|]. intros k v Hk Hkv Hin.
    by destruct (Hval k v Hk Hkv Hin).
  - exfalso. destruct (decide ("timestamp" ∈ fs)) as [Hin|Hout].
    + destruct (query_params !! "timestamp") as [v|] eqn:Hv.
      * apply list_to_set_fields in Hin.
        destruct (Hval "timestamp" v) as [Hd' _]; [done..|]. congruence.
      * rewrite (query_loop_other fs _ _ _ _ _ "timestamp" Hloop) in Hts.
        -- by rewrite new_doc_timestamp in Hts.
        -- intros ((k & v) & Hk & Hkv%elem_of_map_to_list)%list_elem_of_fmap.
           simpl in Hk. subst k. congruence.
    + rewrite (query_loop_frame fs _ _ _ _ _ _ Hloop Hout) in Hts.
      by rewrite new_doc_timestamp in Hts.
Qed.

(** An integer of the schema beyond the range of a float: the JSON write
    and the CoAP PUT end in an exception that nothing catches, and nothing is
    stored. *)
Lemma write_data_overflow (now : Z) (s : Database.t)
    (channel_name : string) (channel : Channel.t)
    (data : gmap string value) (k : string) (v : value) :
  Collection.find_one channel_name (Database.channels s) = Some channel ->
  data !! k = Some v -> k ∈ Channel.fields channel ->
  py_float v = Exn OverflowError ->
  channels.write_data now channel_name (Channel.api_key channel) data s
  = (Raise (Uncaught OverflowError), s).
Proof.
  intros Hfind Hkv Hk Hv. unfold channels.write_data. run.
  rewrite Hfind, String.eqb_refl. simpl.
  rewrite (write_loop_overflow _ _ _ _ k v); [done| | |done].
  - by apply elem_of_map_to_list.
  - by apply list_to_set_fields.
Qed.

Lemma render_put_overflow `{!Env} (now : Z) (s : Database.t)
    (channel_name : string) (channel : Channel.t)
    (request : coap_server.Request.t) (data_payload : gmap string value)
    (k : string) (v : value) :
  Collection.find_one channel_name (Database.channels s) = Some channel ->
  coap_server.Request.uri_path request !! 1%nat = Some channel_name ->
  coap_server.parse_query (coap_server.Request.uri_query request)
    !! "api_key" = Some (Channel.api_key channel) ->
  Channel.api_key channel <> EmptyString ->
  coap_server.Request.payload request <> EmptyString ->
  json_loads (coap_server.Request.payload request) = JObject data_payload ->
  data_payload !! k = Some v -> k ∈ Channel.fields channel ->
  py_float v = Exn OverflowError ->
  coap_server.ChannelDataResource.render_put now request s
  = (Raise (Uncaught OverflowError), s).
Proof.
  intros Hfind Hpath Hkey Hne Hpay Hjson Hkv Hk Hv.
  unfold coap_server.ChannelDataResource.render_put.
  rewrite Hpath, Hkey. simpl.
  destruct (String.eqb_spec (Channel.api_key channel) EmptyString); [done|].
  run. rewrite Hfind. rewrite bool_decide_true by done. simpl.
  destruct (String.eqb_spec (coap_server.Request.payload request)
              EmptyString); [done|].
  rewrite Hjson.
  rewrite (write_loop_overflow _ _ _ _ k v); [done| | |done].
  - by apply elem_of_map_to_list.
  - by apply list_to_set_fields.
Qed.

(** The two examples of the specification, through [POST .../data]. *)
Example write_data_75_2 :
  snd (channels.write_data 7 "tank3" "XWHX1ZJA6Q8F"
         {["level" := VStr "75.2"]} tank3_db)
  = Database.Build [tank3]
      [tank3_seed;
       <["level" := VFloat (S754_finite false 5291729562160333 (-46))]>
         (<["timestamp" := VTime 7]> {["tank_id" := VStr "tank3"]})].
Proof. vm_compute. reflexivity. Qed.

Example write_data_online :
  snd (channels.write_data 7 "tank3" "STATUSKEY000"
         {["status" := VStr "online"]}
         (Database.Build [Channel.Build "tank3" "STATUSKEY000" ["status"]] []))
  = Database.Build [Channel.Build "tank3" "STATUSKEY000" ["status"]]
      [<["status" := VStr "online"]>
         (<["timestamp" := VTime 7]> {["tank_id" := VStr "tank3"]})].
Proof. vm_compute. reflexivity. Qed.

(** C2, at the input where the code departs from it: a JSON integer too
    large for a float, for a field of the schema.  [float] raises
    [OverflowError], which the handler does not catch: the request ends in an
    unhandled exception and nothing is stored, where the specification has
    the original value stored unchanged. *)
Theorem C2_overflow_escapes_write_data :
  py_float (VInt (10 ^ 400)) = Exn OverflowError
  /\ channels.write_data 7 "tank3" "XWHX1ZJA6Q8F"
       {["level" := VInt (10 ^ 400)]} tank3_db
     = (Raise (Uncaught OverflowError), tank3_db).
Proof. split; vm_compute; reflexivity. Qed.

(** ** The MQTT subscriber *)

(** Loops that copy into a document the pairs of a dict whose key passes a
    test: [cleaned_data] in [save_mqtt_data], the initial values in
    [create_channel]. *)
Section Select.
Context (P : string -> Prop) `{!forall k, Decision (P k)}.
#[local] Abbreviation select := (select P).

Lemma select_cons k v l acc :
  select ((k, v) :: l) acc
  = select l (if decide (P k) then <[k := v]> acc else acc).
Proof. reflexivity. Qed.

Lemma select_frame l acc k : ~ P k -> select l acc !! k = acc !! k.
Proof.
  intros Hk. revert acc. induction l as [|[k0 v] l IH]; intros acc; [done|].
  rewrite select_cons, IH. destruct (decide (P k0)); [|done].
  apply lookup_insert_ne. by intros ->.
Qed.

Lemma select_other l acc k : k ∉ l.*1 -> select l acc !! k = acc !! k.
Proof.
  revert acc. induction l as [|[k0 v] l IH]; intros acc Hk; [done|].
  apply not_elem_of_cons in Hk as [Hne Hk].
  rewrite select_cons, IH by done.
  destruct (decide (P k0)); [|done]. by apply lookup_insert_ne.
Qed.

Lemma select_value l acc k v :
  NoDup l.*1 -> (k, v) ∈ l -> P k -> select l acc !! k = Some v.
Proof.
  revert acc. induction l as [|[k0 v0] l IH]; intros acc Hnd Hin Hk.
  - by apply elem_of_nil in Hin.
  - apply NoDup_cons in Hnd as [Hk0 Hnd]. simpl in Hk0.
    rewrite select_cons.
    apply elem_of_cons in Hin as [[= <- <-]|Hin]; [|by apply IH].
    rewrite select_other by done.
    destruct (decide (P k)); [|done]. apply lookup_insert_eq.
Qed.

(** Over the items of a dict: the entries that pass the test, on top of the
    document the loop started from. *)
Lemma select_lookup (data : gmap string value) acc k :
  select (map_to_list data) acc !! k
  = if decide (P k)
    then match data !! k with Some v => Some v | None => acc !! k end
    else acc !! k.
Proof.
  destruct (decide (P k)) as [Hk|Hk]; [|by rewrite select_frame].
  destruct (data !! k) as [v|] eqn:Hv.
  - apply select_value; [apply NoDup_fst_map_to_list| |done].
    by apply elem_of_map_to_list.
  - rewrite select_other; [done|].
    intros ((k' & v) & Hk' & Hkv%elem_of_map_to_list)%list_elem_of_fmap.
    simpl in Hk'. subst k'. congruence.
Qed.

End Select.

Lemma cleaned_lookup (fs : gset string) (data : gmap string value) k :
  main.cleaned fs (map_to_list data) ∅ !! k
  = if decide (k ∈ fs) then data !! k else None.
Proof.
  change (main.cleaned fs (map_to_list data) ∅)
    with (select (fun k => k ∈ fs) (map_to_list data) ∅).
  rewrite select_lookup, lookup_empty.
  destruct (decide (k ∈ fs)); [|done]. by destruct (data !! k).
Qed.

(** What [save_mqtt_data] does for a channel that exists: one record is
    always appended, and it holds the values of the bag as they came. *)
Lemma save_mqtt_data_stores_raw (uuid : string) (now : Z) (s : Database.t)
    (channel_name : string) (channel : Channel.t)
    (data : gmap string value) :
  Collection.find_one channel_name (Database.channels s) = Some channel ->
  exists data_entry,
    main.save_mqtt_data uuid now channel_name data s
    = (Return tt,
       Database.Build (Database.channels s) (Database.data s ++ [data_entry]))
    /\ forall k, k ∈ Channel.fields channel -> is_Some (data !! k) ->
                 data_entry !! k = data !! k.
Proof.
  intros Hfind. unfold main.save_mqtt_data. run. rewrite Hfind.
  eexists. split; [reflexivity|].
  intros k Hk [v Hv]. rewrite Hv.
  apply lookup_union_Some_l. rewrite cleaned_lookup.
  destruct (decide _) as [|Hn]; [done|]. by apply list_to_set_fields in Hk.
Qed.

(** [on_message] hands the second segment of the topic and the decoded bag
    to [save_mqtt_data]. *)
Lemma on_message_tanks `{!Env} (uuid : string) (now : Z)
    (channel_name rest payload : string) (data : gmap string value)
    (s : Database.t) :
  json_loads payload = JObject data ->
  split "/"%char ("tanks/" +:+ channel_name +:+ "/" +:+ rest) !! 1%nat
    = Some channel_name ->
  main.on_message uuid now ("tanks/" +:+ channel_name +:+ "/" +:+ rest)
    payload s
  = snd (main.save_mqtt_data uuid now channel_name data s).
Proof. intros Hjson Htopic. unfold main.on_message. by rewrite Hjson, Htopic. Qed.

(** C1, at the inputs where the MQTT path departs from the HTTP and CoAP
    pipeline.  For the same channel and the same bag [{level: "75.2"}] the
    HTTP write stores the float 75.2 and [save_mqtt_data] stores the string;
    for a bag with no field of the schema the HTTP write is rejected and
    stores nothing, and [save_mqtt_data] appends a record that has no field
    at all. *)
Theorem C1_mqtt_stores_raw_and_never_rejects :
  snd (channels.write_data 7 "tank3" "XWHX1ZJA6Q8F"
         {["level" := VStr "75.2"]} tank3_db)
  = Database.Build [tank3]
      [tank3_seed;
       <["level" := VFloat (S754_finite false 5291729562160333 (-46))]>
         (<["timestamp" := VTime 7]> {["tank_id" := VStr "tank3"]})]
  /\ main.on_message "uuid" 7 "tanks/tank3/data" level_75_2_json tank3_db
     = Database.Build [tank3]
         [tank3_seed;
          <["level" := VStr "75.2"]>
            (<["timestamp" := VTime 7]>
               (<["tank_id" := VStr "tank3"]> {["_id" := VStr "uuid"]}))]
  /\ main.save_mqtt_data "uuid" 7 "tank3" {["level" := VStr "75.2"]} tank3_db
     = (Return tt,
        main.on_message "uuid" 7 "tanks/tank3/data" level_75_2_json tank3_db)
  /\ channels.write_data 7 "tank3" "XWHX1ZJA6Q8F"
       {["status" := VStr "online"]} tank3_db
     = (Raise (HTTPException 400 "No valid channel fields provided in data."),
        tank3_db)
  /\ main.save_mqtt_data "uuid" 7 "tank3" {["status" := VStr "online"]}
       tank3_db
     = (Return tt,
        Database.Build [tank3]
          [tank3_seed;
           <["timestamp" := VTime 7]>
             (<["tank_id" := VStr "tank3"]> {["_id" := VStr "uuid"]})]).
Proof. repeat split; vm_compute; reflexivity. Qed.

(** ** Registration *)

Lemma fill_NA_lookup (fs : list string) (d : doc) k :
  foldl (fun d field => <[field := NA]> d) d fs !! k
  = if decide (k ∈ fs) then Some NA else d !! k.
Proof.
  revert d. induction fs as [|f fs IH]; intros d; simpl.
  - destruct (decide (k ∈ [])) as [Hin|]; [by apply elem_of_nil in Hin|done].
  - rewrite IH. destruct (decide (k ∈ fs)) as [Hin|Hout].
    + rewrite decide_True; [done|by right].
    + destruct (decide (k = f)) as [->|Hne].
      * rewrite decide_True by left. apply lookup_insert_eq.
      * rewrite decide_False.
        -- by apply lookup_insert_ne.
        -- intros [->|Hin]%elem_of_cons; done.
Qed.

(** C4, as the code has it.  A registration whose name is free succeeds,
    adds the channel with the fields as given, and appends exactly one seed
    record.  In that record a key of [initial_values] that is not a declared
    field contributes nothing.  When [initial_values] is absent or empty every
    declared field holds ["N/A"]; when it is not empty every declared field
    holds its initial value if it has one, and is otherwise left out of the
    record: no ["N/A"] is written for it. *)
Theorem C4_seed_record (generated : string) (now : Z) (s : Database.t)
    (channel : ChannelCreate.t) :
  Collection.find_one (ChannelCreate.channel_name channel)
    (Database.channels s) = None ->
  let channel_doc :=
    Channel.Build (ChannelCreate.channel_name channel) generated
      (ChannelCreate.fields channel) in
  let seed := channels.seed_doc now channel in
  let base := stamp (ChannelCreate.channel_name channel) now in
  channels.create_channel generated now channel s
  = (Return channel_doc,
     Database.Build (Database.channels s ++ [channel_doc])
                    (Database.data s ++ [seed]))
  /\ (forall k, k ∉ ChannelCreate.fields channel -> seed !! k = base !! k)
  /\ (forall f, f ∈ ChannelCreate.fields channel ->
        match ChannelCreate.initial_values channel with
        | None => seed !! f = Some NA
        | Some initial_values =>
            if decide (initial_values = ∅) then seed !! f = Some NA
            else seed !! f = match initial_values !! f with
                             | Some v => Some v
                             | None => base !! f
                             end
        end).
Proof.
  intros Hfree channel_doc seed base. split; [|split].
  - unfold channels.create_channel. run. by rewrite Hfree.
  - intros k Hk. unfold seed, channels.seed_doc.
    destruct (bool_decide _).
    + rewrite fill_NA_lookup. by rewrite decide_False.
    + change (foldl _ _ _)
        with (select (fun k => k ∈ ChannelCreate.fields channel)
                (map_to_list (default ∅ (ChannelCreate.initial_values channel)))
                base).
      by rewrite select_frame.
  - intros f Hf. unfold seed, channels.seed_doc.
    destruct (ChannelCreate.initial_values channel) as [iv|]; simpl.
    + destruct (decide (iv = ∅)) as [->|Hne].
      * rewrite bool_decide_true by apply map_size_empty.
        rewrite fill_NA_lookup. by rewrite decide_True.
      * rewrite bool_decide_false by by rewrite map_size_empty_iff.
        change (foldl _ _ _)
          with (select (fun k => k ∈ ChannelCreate.fields channel)
                  (map_to_list iv) base).
        rewrite select_lookup. by rewrite decide_True.
    + rewrite bool_decide_true by apply map_size_empty.
      rewrite fill_NA_lookup. by rewrite decide_True.
Qed.

Lemma C4_witness :
  channels.create_channel "A1B2C3D4E5F6" 7
    (ChannelCreate.Build "tank9" ["level"; "temperature"] None)
    tank3_db
  = (Return (Channel.Build "tank9" "A1B2C3D4E5F6" ["level"; "temperature"]),
     Database.Build
       [tank3; Channel.Build "tank9" "A1B2C3D4E5F6" ["level"; "temperature"]]
       [tank3_seed;
        channels.seed_doc 7
          (ChannelCreate.Build "tank9" ["level"; "temperature"] None)]).
Proof.
  apply (C4_seed_record "A1B2C3D4E5F6" 7 tank3_db
           (ChannelCreate.Build "tank9" ["level"; "temperature"] None)).
  reflexivity.
Defined.

(** C4 as stated fails: with a non-empty [initial_values] that leaves a
    declared field out, the seed record has no entry for that field. *)
Lemma C4_counterexample :
  channels.create_channel "A1B2C3D4E5F6" 7
    (ChannelCreate.Build "tank9" ["level"; "temperature"]
       (Some {["level" := VInt 5]}))
    (Database.Build [] [])
  = (Return (Channel.Build "tank9" "A1B2C3D4E5F6" ["level"; "temperature"]),
     Database.Build
       [Channel.Build "tank9" "A1B2C3D4E5F6" ["level"; "temperature"]]
       [<["level" := VInt 5]> (stamp "tank9" 7)])
  /\ (<["level" := VInt 5]> (stamp "tank9" 7) : doc) !! "temperature"
     <> Some NA.
Proof. split; [vm_compute; reflexivity|]. vm_compute. discriminate. Qed.

(** ** Duplicate field names *)

(** C7, at the input where the code departs from it: registration stores the
    list of fields as it was sent, duplicates included. *)
Theorem C7_registration_keeps_duplicates :
  channels.create_channel "A1B2C3D4E5F6" 7
    (ChannelCreate.Build "tank9" ["level"; "level"] None)
    (Database.Build [] [])
  = (Return (Channel.Build "tank9" "A1B2C3D4E5F6" ["level"; "level"]),
     Database.Build [Channel.Build "tank9" "A1B2C3D4E5F6" ["level"; "level"]]
                    [<["level" := NA]> (stamp "tank9" 7)])
  /\ ~ NoDup (Channel.fields
                (Channel.Build "tank9" "A1B2C3D4E5F6" ["level"; "level"])).
Proof.
  split; [vm_compute; reflexivity|].
  simpl. intros [Hnotin _]%NoDup_cons. apply Hnotin. left.
Qed.

Lemma update_one_elem name f cs c :
  c ∈ Collection.update_one name f cs ->
  c ∈ cs \/ exists c0, c0 ∈ cs /\ c = f c0.
Proof.
  induction cs as [|c1 cs IH]; simpl; [by left|].
  destruct (Collection.has_name name c1).
  - intros [->|Hin]%elem_of_cons.
    + right. exists c1. split; [left|done].
    + left. by right.
  - intros [->|Hin]%elem_of_cons; [left; left|].
    destruct (IH Hin) as [?|(c0 & ? & ->)]; [left; by right|].
    right. exists c0. split; [by right|done].
Qed.

Lemma update_one_find name f cs c :
  (forall c0, Channel.channel_name (f c0) = Channel.channel_name c0) ->
  Collection.find_one name cs = Some c ->
  Collection.find_one name (Collection.update_one name f cs) = Some (f c).
Proof.
  intros Hname. unfold Collection.find_one.
  induction cs as [|c1 cs IH]; simpl; [done|].
  destruct (Collection.has_name name c1) eqn:Hn; simpl.
  - intros [= ->]. unfold Collection.has_name in *.
    by rewrite Hname, Hn.
  - rewrite Hn. apply IH.
Qed.

Lemma delete_one_elem name cs c :
  c ∈ Collection.delete_one name cs -> c ∈ cs.
Proof.
  induction cs as [|c1 cs IH]; simpl; [done|].
  destruct (Collection.has_name name c1); [by right|].
  intros [->|Hin]%elem_of_cons; [left|right; auto].
Qed.

(** On a plain name [update_many] writes the key into every record of the
    channel and raises nothing. *)
Lemma update_many_plain `{!Env} tank key v (ds : list doc) :
  plain key = true ->
  Collection.update_many tank key v ds = (write_key tank key v ds, None).
Proof.
  intros Hplain. induction ds as [|d ds IH]; simpl; [done|].
  rewrite IH. destruct (Collection.tagged tank d); [|done].
  by rewrite mongo_set_plain.
Qed.

Lemma data_update_many_channels `{!Env} tank key v s :
  Database.channels (snd (db.data_update_many tank key v s))
  = Database.channels s.
Proof.
  unfold db.data_update_many. by destruct (Collection.update_many _ _ _ _).
Qed.

(** The loop of the PATCH handler over [remove_fields] leaves the channels
    as they were, whatever the names are. *)
Lemma remove_loop_channels `{!Env} channel_name (l : list string) s :
  Database.channels
    (snd (for_each l (fun field => db.data_update_many channel_name field NA)
            s))
  = Database.channels s.
Proof.
  revert s. induction l as [|f l IH]; intros s; simpl; [done|].
  unfold bind at 1.
  pose proof (data_update_many_channels channel_name f NA s) as Hf.
  destruct (db.data_update_many channel_name f NA s) as [[[]|e] s1];
    simpl in *; [|done].
  by rewrite IH.
Qed.

(** The loop over plain names. *)
Lemma remove_loop `{!Env} channel_name (l : list string) s :
  forallb plain l = true ->
  for_each l (fun field => db.data_update_many channel_name field NA) s
  = (Return tt,
     Database.Build (Database.channels s)
       (foldl (fun ds field => write_key channel_name field NA ds)
              (Database.data s) l)).
Proof.
  revert s. induction l as [|f l IH]; intros s Hl; simpl.
  - by destruct s.
  - simpl in Hl. apply andb_true_iff in Hl as [Hf Hl].
    unfold bind at 1. unfold db.data_update_many at 1.
    rewrite update_many_plain by done. by rewrite IH.
Qed.

(** The PATCH handler always writes a duplicate-free list, whatever the list
    was before; the DELETE handlers keep a duplicate-free list so; and
    registration keeps the invariant exactly when the list it is sent has no
    duplicates. *)
Lemma update_channel_fields_unique `{!Env} channel_name update api_key s :
  fields_unique s ->
  fields_unique (snd (channels.update_channel_fields channel_name update
                        api_key s)).
Proof.
  intros Hs. unfold channels.update_channel_fields. run.
  destruct (Collection.find_one _ _) as [channel|]; [|done].
  destruct (negb _); [done|]. simpl.
  assert (Hstep : forall (fs : gset string) s0,
            Database.channels s0 = Database.channels s ->
            fields_unique
              (Database.Build
                 (Collection.update_one channel_name
                    (Collection.set_fields (elements fs))
                    (Database.channels s0))
                 (Database.data s0))).
  { intros fs s0 Hs0 c [Hin|(c0 & _ & ->)]%update_one_elem; simpl in *.
    - apply Hs. by rewrite <- Hs0.
    - apply NoDup_elements. }
  destruct (channels.nonempty (ChannelUpdate.remove_fields update));
    [|by apply Hstep].
  simpl.
  pose proof (remove_loop_channels channel_name
                (default [] (ChannelUpdate.remove_fields update)) s) as Hloop.
  destruct (for_each _ _ s) as [[[]|e] s1]; simpl in *.
  - by apply Hstep.
  - intros c Hc. apply Hs. by rewrite <- Hloop.
Qed.

Lemma delete_field_unique `{!Env} channel_name field_name api_key s :
  fields_unique s ->
  fields_unique (snd (channels.delete_field channel_name field_name
                        api_key s)).
Proof.
  intros Hs. unfold channels.delete_field. run.
  destruct (Collection.find_one _ _) as [channel|]; [|done].
  destruct (negb _); [done|]. destruct (negb _); [done|]. simpl.
  set (s1 := Database.Build _ _).
  assert (Hs1 : fields_unique s1).
  { intros c [Hin|(c0 & Hin & ->)]%update_one_elem; [by apply Hs|].
    simpl. apply NoDup_ListNoDup, List.NoDup_filter, NoDup_ListNoDup.
    by apply Hs. }
  clearbody s1.
  pose proof (data_update_many_channels channel_name field_name NA s1) as Hch.
  destruct (db.data_update_many channel_name field_name NA s1)
    as [[[]|e] s2]; simpl in *; intros c Hc; apply Hs1; by rewrite <- Hch.
Qed.

Lemma delete_channel_unique channel_name api_key s :
  fields_unique s ->
  fields_unique (snd (channels.delete_channel channel_name api_key s)).
Proof.
  intros Hs. unfold channels.delete_channel. run.
  destruct (Collection.find_one _ _) as [channel|]; [|done].
  destruct (negb _); [done|]. simpl.
  intros c Hin%delete_one_elem. by apply Hs.
Qed.

Lemma create_channel_unique generated now channel s :
  fields_unique s -> NoDup (ChannelCreate.fields channel) ->
  fields_unique (snd (channels.create_channel generated now channel s)).
Proof.
  intros Hs Hnd. unfold channels.create_channel. run.
  destruct (Collection.find_one _ _) as [existing|]; [done|]. simpl.
  unfold Collection.insert_one.
  intros c [Hin|Heq%list_elem_of_singleton]%elem_of_app; [by apply Hs|].
  by subst c.
Qed.

(** ** The timestamp of a persisted record *)

Section Timestamp.
Context `{!Env}.
Variables (now : Z) (s : Database.t) (channel_name : string).
Hypothesis Hfree : forall channel,
  Collection.find_one channel_name (Database.channels s) = Some channel ->
  "timestamp" ∉ Channel.fields channel.

Lemma write_data_timestamp api_key data :
  match channels.write_data now channel_name api_key data s with
  | (Return _, s') => persisted_at now s s'
  | (Raise _, s') => s' = s
  end.
Proof.
  unfold channels.write_data. run.
  destruct (Collection.find_one _ _) as [channel|] eqn:Hfind; [|done].
  destruct (negb _); [done|]. simpl.
  destruct (foldl _ _ _) as [[d' b']|e] eqn:Hloop; [|done].
  destruct b'; simpl; [|done].
  assert (Hts : d' !! "timestamp" = Some (VTime now)).
  { rewrite (write_loop_frame _ _ _ _ _ _ "timestamp" Hloop).
    - apply new_doc_timestamp.
    - rewrite list_to_set_fields. by apply Hfree. }
  rewrite Hts. simpl. by exists d'.
Qed.

Lemma query_params_timestamp query_params :
  match channels.update_channel_data_by_query_params now channel_name
          query_params s with
  | (Return _, s') => persisted_at now s s'
  | (Raise _, s') => s' = s
  end.
Proof.
  unfold channels.update_channel_data_by_query_params.
  destruct (negb (truthy _)); [done|]. run.
  destruct (Collection.find_one _ _) as [channel|] eqn:Hfind; [|done].
  destruct (negb _); [done|]. simpl.
  destruct (foldl _ _ _) as [[d' b']|e] eqn:Hloop; [|done].
  destruct b'; simpl; [|done].
  assert (Hts : d' !! "timestamp" = Some (VTime now)).
  { rewrite (query_loop_frame _ _ _ _ _ _ "timestamp" Hloop).
    - apply new_doc_timestamp.
    - rewrite list_to_set_fields. by apply Hfree. }
  rewrite Hts. simpl. by exists d'.
Qed.

Lemma render_put_timestamp request :
  coap_server.Request.uri_path request !! 1%nat = Some channel_name ->
  match coap_server.ChannelDataResource.render_put now request s with
  | (Return m, s') =>
      match coap_server.code m with
      | coap_server.CREATED => persisted_at now s s'
      | _ => s' = s
      end
  | (Raise _, s') => s' = s
  end.
Proof.
  intros Hpath. unfold coap_server.ChannelDataResource.render_put.
  rewrite Hpath. destruct (negb (truthy _)); [done|]. run.
  destruct (Collection.find_one _ _) as [channel|] eqn:Hfind; [|done].
  destruct (negb _); [done|]. destruct (String.eqb _ _); [done|].
  destruct (json_loads _); try done.
  destruct (foldl _ _ _) as [[d' b']|e] eqn:Hloop; [|done].
  destruct b'; simpl; [|done].
  assert (Hts : d' !! "timestamp" = Some (VTime now)).
  { rewrite (write_loop_frame _ _ _ _ _ _ "timestamp" Hloop).
    - apply new_doc_timestamp.
    - rewrite list_to_set_fields. by apply Hfree. }
  rewrite Hts. simpl. by exists d'.
Qed.

Lemma save_mqtt_data_timestamp uuid data :
  match Collection.find_one channel_name (Database.channels s) with
  | Some _ => persisted_at now s
                (snd (main.save_mqtt_data uuid now channel_name data s))
  | None => snd (main.save_mqtt_data uuid now channel_name data s) = s
  end.
Proof.
  unfold main.save_mqtt_data. run.
  destruct (Collection.find_one _ _) as [channel|] eqn:Hfind; [|done].
  simpl. eexists. split; [reflexivity|].
  apply lookup_union_Some_raw. right. split.
  - rewrite cleaned_lookup. rewrite decide_False; [done|].
    rewrite list_to_set_fields. by apply Hfree.
  - apply lookup_insert_eq.
Qed.

End Timestamp.

(** C5, as the code has it.  On a channel whose field set does not hold the
    name ["timestamp"], every ingestion that persists a record (HTTP JSON
    body, HTTP query parameters, CoAP PUT, MQTT) appends one record whose
    ["timestamp"] is the server's clock at the call, whatever the bag holds;
    every other ingestion leaves the store as it was. *)
Theorem C5_timestamp_is_server_clock `{!Env} (now : Z) (s : Database.t)
    (channel_name : string) :
  (forall channel,
     Collection.find_one channel_name (Database.channels s) = Some channel ->
     "timestamp" ∉ Channel.fields channel) ->
  (forall api_key data,
     match channels.write_data now channel_name api_key data s with
     | (Return _, s') => persisted_at now s s'
     | (Raise _, s') => s' = s
     end)
  /\ (forall query_params,
        match channels.update_channel_data_by_query_params now channel_name
                query_params s with
        | (Return _, s') => persisted_at now s s'
        | (Raise _, s') => s' = s
        end)
  /\ (forall request,
        coap_server.Request.uri_path request !! 1%nat = Some channel_name ->
        match coap_server.ChannelDataResource.render_put now request s with
        | (Return m, s') =>
            match coap_server.code m with
            | coap_server.CREATED => persisted_at now s s'
            | _ => s' = s
            end
        | (Raise _, s') => s' = s
        end)
  /\ (forall uuid data,
        match Collection.find_one channel_name (Database.channels s) with
        | Some _ => persisted_at now s
                      (snd (main.save_mqtt_data uuid now channel_name data s))
        | None => snd (main.save_mqtt_data uuid now channel_name data s) = s
        end).
Proof.
  intros Hfree. repeat split.
  - intros. by apply (write_data_timestamp now s channel_name).
  - intros. by apply (query_params_timestamp now s channel_name).
  - intros. by apply (render_put_timestamp now s channel_name).
  - intros. by apply (save_mqtt_data_timestamp now s channel_name).
Qed.

Lemma C5_witness :
  match channels.write_data 7 "tank3" "XWHX1ZJA6Q8F" level_bag tank3_db with
  | (Return _, s') => persisted_at 7 tank3_db s'
  | (Raise _, s') => s' = tank3_db
  end.
Proof.
  refine (proj1 (C5_timestamp_is_server_clock 7 tank3_db "tank3" _)
            "XWHX1ZJA6Q8F" level_bag).
  intros channel [= <-]. simpl. not_in_list.
Defined.

(** C5 as stated fails: on a channel that has a field named ["timestamp"]
    the value sent for it replaces the clock's instant in the record, on the
    HTTP path and on the MQTT path alike. *)
Lemma C5_counterexample :
  snd (channels.write_data 7 "clock" "A1B2C3D4E5F6"
         {["timestamp" := VStr "0"]}
         (Database.Build
            [Channel.Build "clock" "A1B2C3D4E5F6" ["timestamp"]] []))
  = Database.Build [Channel.Build "clock" "A1B2C3D4E5F6" ["timestamp"]]
      [<["timestamp" := VFloat (S754_zero false)]>
         {["tank_id" := VStr "clock"]}]
  /\ snd (main.save_mqtt_data "uuid" 7 "clock"
            {["timestamp" := VStr "0"]}
            (Database.Build
               [Channel.Build "clock" "A1B2C3D4E5F6" ["timestamp"]] []))
     = Database.Build [Channel.Build "clock" "A1B2C3D4E5F6" ["timestamp"]]
         [<["timestamp" := VStr "0"]>
            (<["tank_id" := VStr "clock"]> {["_id" := VStr "uuid"]})]
  /\ ~ persisted_at 7
         (Database.Build
            [Channel.Build "clock" "A1B2C3D4E5F6" ["timestamp"]] [])
         (snd (channels.write_data 7 "clock" "A1B2C3D4E5F6"
                 {["timestamp" := VStr "0"]}
                 (Database.Build
                    [Channel.Build "clock" "A1B2C3D4E5F6" ["timestamp"]] []))).
Proof.
  split; [vm_compute; reflexivity|]. split; [vm_compute; reflexivity|].
  intros (d & Hs' & Hts). vm_compute in Hs'.
  injection Hs' as Hd. subst d. vm_compute in Hts. discriminate Hts.
Qed.

(** ** Removing fields *)

Lemma retired_lookup fs d k :
  retired fs d !! k = if decide (k ∈ fs) then Some NA else d !! k.
Proof. apply fill_NA_lookup. Qed.

Lemma tagged_insert_ne tank key v (d : doc) :
  key <> "tank_id" ->
  Collection.tagged tank (<[key := v]> d) = Collection.tagged tank d.
Proof.
  intros Hne. unfold Collection.tagged. by rewrite lookup_insert_ne.
Qed.

Lemma tagged_retired_link tank (d : doc) :
  Collection.tagged tank (<["tank_id" := NA]> d) = String.eqb "N/A" tank.
Proof. unfold Collection.tagged. by rewrite lookup_insert_eq. Qed.

(** The sequence of writes of the PATCH handler: a record of the channel
    gets the names that reach it, and the other records are as they were. *)
Lemma retire_all tank (fs : list string) (ds : list doc) :
  foldl (fun ds field => write_key tank field NA ds) ds fs
  = map (fun d => if Collection.tagged tank d
                  then retired (reached tank fs) d else d) ds.
Proof.
  revert ds. induction fs as [|f fs IH]; intros ds.
  - simpl. induction ds as [|d ds IHds]; simpl; [done|].
    rewrite <- IHds. by destruct (Collection.tagged tank d).
  - cbn [foldl reached]. rewrite IH. unfold write_key.
    rewrite map_map. apply map_ext. intros d.
    destruct (Collection.tagged tank d) eqn:Htag; [|by rewrite Htag].
    unfold retired at 2. cbn [foldl]. fold (retired (reached tank fs)).
    destruct (String.eqb_spec f "tank_id") as [->|Hf].
    + rewrite tagged_retired_link.
      destruct (String.eqb_spec tank "N/A") as [->|Hne]; cbn [andb negb].
      * by rewrite String.eqb_refl.
      * by destruct (String.eqb_spec "N/A" tank) as [<-|].
    + cbn [andb]. by rewrite tagged_insert_ne, Htag.
Qed.

Lemma reached_all channel_name (fs : list string) :
  keeps_link channel_name fs -> reached channel_name fs = fs.
Proof.
  intros [->|[Hout|(l & -> & Hout)]].
  - induction fs as [|f fs IH]; simpl; [done|].
    by rewrite andb_false_r, IH.
  - induction fs as [|f fs IH]; simpl; [done|].
    apply not_elem_of_cons in Hout as [Hf Hout].
    destruct (String.eqb_spec f "tank_id"); [done|]. simpl.
    by rewrite IH.
  - induction l as [|f l IH]; simpl.
    + by destruct (negb _).
    + apply not_elem_of_cons in Hout as [Hf Hout].
      destruct (String.eqb_spec f "tank_id"); [done|]. simpl.
      by rewrite IH.
Qed.

Section Patch.
Context `{!Env}.
Variables (channel_name : string) (update : ChannelUpdate.t)
  (s : Database.t) (channel : Channel.t).
Hypothesis Hfind :
  Collection.find_one channel_name (Database.channels s) = Some channel.

Let add_fields := default [] (ChannelUpdate.add_fields update).
Let remove_fields := default [] (ChannelUpdate.remove_fields update).
Let current_fields : gset string :=
  (list_to_set (Channel.fields channel) ∪ list_to_set add_fields)
  ∖ list_to_set remove_fields.

(** What an authorised PATCH computes and writes when the names it removes
    are plain. *)
Lemma update_channel_fields_run :
  forallb plain remove_fields = true ->
  channels.update_channel_fields channel_name update
    (Channel.api_key channel) s
  = (Return (elements current_fields),
     Database.Build
       (Collection.update_one channel_name
          (Collection.set_fields (elements current_fields))
          (Database.channels s))
       (foldl (fun ds field => write_key channel_name field NA ds)
              (Database.data s) remove_fields)).
Proof.
  intros Hplain. unfold channels.update_channel_fields. run.
  rewrite Hfind, String.eqb_refl. simpl.
  unfold current_fields, add_fields, remove_fields in *.
  destruct update as [[[|a add]|] [[|r rem]|]];
    cbn [channels.nonempty default ChannelUpdate.add_fields
         ChannelUpdate.remove_fields] in *;
    rewrite ?remove_loop by exact Hplain; simpl;
    rewrite ?union_empty_r_L, ?difference_empty_L; reflexivity.
Qed.

Lemma update_channel_fields_set f :
  f ∈ elements current_fields
  <-> (f ∈ Channel.fields channel \/ f ∈ add_fields) /\ f ∉ remove_fields.
Proof.
  unfold current_fields.
  rewrite elem_of_elements, elem_of_difference, elem_of_union.
  by rewrite !elem_of_list_to_set.
Qed.

End Patch.

Lemma pull_field_fields f channel g :
  g ∈ Channel.fields (Collection.pull_field f channel)
  <-> g ∈ Channel.fields channel /\ g <> f.
Proof.
  simpl. rewrite !list_elem_of_In, filter_In.
  destruct (String.eqb_spec g f) as [->|Hne]; simpl; intuition congruence.
Qed.

Section DeleteField.
Context `{!Env}.
Variables (channel_name field_name : string) (s : Database.t)
  (channel : Channel.t).
Hypothesis Hfind :
  Collection.find_one channel_name (Database.channels s) = Some channel.

Lemma delete_field_present :
  field_name ∈ Channel.fields channel ->
  plain field_name = true ->
  channels.delete_field channel_name field_name (Channel.api_key channel) s
  = (Return ("Field '" +:+ field_name +:+ "' deleted from channel '"
             +:+ channel_name +:+ "' (set to 'N/A' in all data)"),
     Database.Build
       (Collection.update_one channel_name
          (Collection.pull_field field_name) (Database.channels s))
       (write_key channel_name field_name NA (Database.data s))).
Proof.
  intros Hin Hplain. unfold channels.delete_field, db.data_update_many. run.
  rewrite Hfind, String.eqb_refl. simpl.
  rewrite bool_decide_true by done. simpl.
  by rewrite update_many_plain.
Qed.

Lemma delete_field_absent :
  field_name ∉ Channel.fields channel ->
  channels.delete_field channel_name field_name (Channel.api_key channel) s
  = (Raise (HTTPException 404 "Field not found in channel"), s).
Proof.
  intros Hout. unfold channels.delete_field. run.
  rewrite Hfind, String.eqb_refl. simpl.
  by rewrite bool_decide_false.
Qed.

End DeleteField.

(** C6, as the code has it, for the names that the store takes as plain
    top-level keys.  Through PATCH, removal is an idempotent set difference:
    the call succeeds whether or not the names are fields, after it the field
    set is the old one plus the added names minus the removed ones, so a
    removed name is absent and removing only absent names leaves the set as
    it was; and every record of the channel holds ["N/A"] under every removed
    name that reaches it, which is every removed name when ["tank_id"] is not
    removed before another name.  Through the DELETE field endpoint, removing
    a field of the channel takes it out of the list and sets it to ["N/A"] in
    every record of the channel, but removing a name that is not a field
    fails with 404 and changes nothing. *)
Theorem C6_remove_fields `{!Env} (channel_name : string) (s : Database.t)
    (channel : Channel.t) :
  Collection.find_one channel_name (Database.channels s) = Some channel ->
  (forall update : ChannelUpdate.t,
     let add_fields := default [] (ChannelUpdate.add_fields update) in
     let remove_fields := default [] (ChannelUpdate.remove_fields update) in
     forallb plain remove_fields = true ->
     exists fields s',
       channels.update_channel_fields channel_name update
         (Channel.api_key channel) s = (Return fields, s')
       /\ Collection.find_one channel_name (Database.channels s')
          = Some (Collection.set_fields fields channel)
       /\ (forall f, f ∈ fields <->
                     (f ∈ Channel.fields channel \/ f ∈ add_fields)
                     /\ f ∉ remove_fields)
       /\ (forall f, f ∈ remove_fields -> f ∉ fields)
       /\ (add_fields = [] ->
           (forall f, f ∈ remove_fields -> f ∉ Channel.fields channel) ->
           forall f, f ∈ fields <-> f ∈ Channel.fields channel)
       /\ (forall i d, Database.data s !! i = Some d ->
                       Collection.tagged channel_name d = true ->
                       exists d', Database.data s' !! i = Some d'
                         /\ (forall f,
                               f ∈ reached channel_name remove_fields ->
                               d' !! f = Some NA)
                         /\ (keeps_link channel_name remove_fields ->
                             forall f, f ∈ remove_fields ->
                                       d' !! f = Some NA)))
  /\ (forall field_name,
        field_name ∈ Channel.fields channel ->
        plain field_name = true ->
        exists message s' channel',
          channels.delete_field channel_name field_name
            (Channel.api_key channel) s = (Return message, s')
          /\ Collection.find_one channel_name (Database.channels s')
             = Some channel'
          /\ (forall g, g ∈ Channel.fields channel' <->
                        g ∈ Channel.fields channel /\ g <> field_name)
          /\ forall i d, Database.data s !! i = Some d ->
                         Collection.tagged channel_name d = true ->
                         Database.data s' !! i
                         = Some (<[field_name := NA]> d))
  /\ (forall field_name,
        field_name ∉ Channel.fields channel ->
        channels.delete_field channel_name field_name
          (Channel.api_key channel) s
        = (Raise (HTTPException 404 "Field not found in channel"), s)).
Proof.
  intros Hfind. split; [|split].
  - intros update add_fields remove_fields Hplain.
    eexists _, _. split; [by apply update_channel_fields_run|].
    pose proof (update_channel_fields_set update channel) as Hset.
    fold add_fields remove_fields in Hset. simpl.
    split; [by apply update_one_find|]. split; [done|].
    split; [intros f Hf Hin; by apply Hset in Hin as [_ ?]|].
    split.
    + intros Hadd Habsent f. destruct (Hset f) as [Hto Hfrom]. split.
      * intros Hf. destruct (Hto Hf) as [[?|Hnil] _]; [done|].
        rewrite Hadd in Hnil. by apply elem_of_nil in Hnil.
      * intros Hf. apply Hfrom. split; [by left|].
        intros Hr. by apply (Habsent f).
    + intros i d Hd Htag. rewrite retire_all.
      rewrite list_lookup_fmap, Hd. simpl. rewrite Htag.
      eexists. split; [done|].
      assert (Hreached : forall f,
                f ∈ reached channel_name
                      (default [] (ChannelUpdate.remove_fields update)) ->
                retired (reached channel_name
                           (default [] (ChannelUpdate.remove_fields update)))
                  d !! f = Some NA).
      { intros f Hf. rewrite retired_lookup. by rewrite decide_True. }
      split; [done|]. intros Hlink f Hf. apply Hreached.
      by rewrite reached_all.
  - intros field_name Hin Hplain.
    eexists _, _, _. split; [by apply delete_field_present|]. simpl.
    split; [by apply update_one_find|].
    split; [apply pull_field_fields|].
    intros i d Hd Htag. unfold write_key.
    by rewrite list_lookup_fmap, Hd; simpl; rewrite Htag.
  - intros field_name Hout. by apply delete_field_absent.
Qed.

(** C6 as stated fails: through the DELETE field endpoint, removing a name
    that is not a field of the channel does not succeed. *)
Lemma C6_counterexample :
  ("pressure" ∉ Channel.fields tank3)
  /\ channels.delete_field "tank3" "pressure" "XWHX1ZJA6Q8F" tank3_db
     = (Raise (HTTPException 404 "Field not found in channel"), tank3_db).
Proof. split; [simpl; not_in_list|vm_compute; reflexivity]. Qed.

Lemma C6_witness :
  channels.delete_field "tank3" "pressure" (Channel.api_key tank3) tank3_db
  = (Raise (HTTPException 404 "Field not found in channel"), tank3_db).
Proof.
  refine (proj2 (proj2 (C6_remove_fields "tank3" tank3_db tank3 eq_refl))
            "pressure" _).
  simpl. not_in_list.
Defined.

(** C10, as the code has it.  An authorised PATCH whose [remove_fields]
    holds plain names writes ["N/A"] into every record of the channel under
    every name of that list that reaches it, fields of the channel or not;
    the other keys of these records, the records of other channels and the
    number of records are as before.  Every name of the list reaches the
    records when ["tank_id"] is not removed before another name. *)
Theorem C10_patch_writes_NA `{!Env} (channel_name : string)
    (update : ChannelUpdate.t) (s : Database.t) (channel : Channel.t)
    (remove_fields : list string) :
  Collection.find_one channel_name (Database.channels s) = Some channel ->
  ChannelUpdate.remove_fields update = Some remove_fields ->
  forallb plain remove_fields = true ->
  exists fields s',
    channels.update_channel_fields channel_name update
      (Channel.api_key channel) s = (Return fields, s')
    /\ length (Database.data s') = length (Database.data s)
    /\ (forall i d, Database.data s !! i = Some d ->
          if Collection.tagged channel_name d
          then exists d', Database.data s' !! i = Some d'
                 /\ (forall f, f ∈ reached channel_name remove_fields ->
                               d' !! f = Some NA)
                 /\ (forall k, k ∉ reached channel_name remove_fields ->
                               d' !! k = d !! k)
          else Database.data s' !! i = Some d)
    /\ (keeps_link channel_name remove_fields ->
        reached channel_name remove_fields = remove_fields).
Proof.
  intros Hfind Hrem Hplain.
  eexists _, _. split.
  { apply update_channel_fields_run; [done|]. by rewrite Hrem. }
  simpl. rewrite Hrem. simpl. rewrite retire_all.
  split; [apply length_map|]. split; [|apply reached_all].
  intros i d Hd. rewrite list_lookup_fmap, Hd. simpl.
  destruct (Collection.tagged channel_name d); [|done].
  eexists. split; [done|].
  split; intros k Hk; rewrite retired_lookup.
  - by rewrite decide_True.
  - by rewrite decide_False.
Qed.

Lemma C10_witness :
  exists fields s',
    channels.update_channel_fields "tank3" retire_pressure
      (Channel.api_key tank3) tank3_db = (Return fields, s')
    /\ length (Database.data s') = length (Database.data tank3_db)
    /\ (forall i d, Database.data tank3_db !! i = Some d ->
          if Collection.tagged "tank3" d
          then exists d', Database.data s' !! i = Some d'
                 /\ (forall f, f ∈ reached "tank3" ["pressure"] ->
                               d' !! f = Some NA)
                 /\ (forall k, k ∉ reached "tank3" ["pressure"] ->
                               d' !! k = d !! k)
          else Database.data s' !! i = Some d)
    /\ (keeps_link "tank3" ["pressure"] ->
        reached "tank3" ["pressure"] = ["pressure"]).
Proof.
  exact (C10_patch_writes_NA "tank3" retire_pressure tank3_db tank3
           ["pressure"] eq_refl eq_refl eq_refl).
Defined.

(** C10 as stated fails.  When ["tank_id"] is retired before another name,
    the records stop being the channel's and the later name is not written
    into them; and the store refuses to give ["_id"] another value, so that
    a list that holds it ends the call with an exception and writes
    nothing. *)
Lemma C10_counterexample :
  Collection.tagged "tank3" tank3_seed = true
  /\ Database.data
       (snd (channels.update_channel_fields "tank3"
               (ChannelUpdate.Build None (Some ["tank_id"; "level"]))
               "XWHX1ZJA6Q8F" tank3_db))
     = [<["tank_id" := NA]> tank3_seed]
  /\ (<["tank_id" := NA]> tank3_seed : doc) !! "level" <> Some NA
  /\ channels.update_channel_fields "tank3"
       (ChannelUpdate.Build None (Some ["_id"])) "XWHX1ZJA6Q8F" tank3_db
     = (Raise (Uncaught WriteError), tank3_db).
Proof.
  split; [reflexivity|]. split; [vm_compute; reflexivity|].
  split; [vm_compute; discriminate|]. vm_compute. reflexivity.
Qed.

(** ** Authorization *)

Section InvalidKey.
Context `{!Env}.
Variables (s : Database.t) (channel_name : string) (channel : Channel.t)
  (api_key : string).
Hypothesis Hfind :
  Collection.find_one channel_name (Database.channels s) = Some channel.
Hypothesis Hkey : api_key <> Channel.api_key channel.

Lemma key_eqb : String.eqb api_key (Channel.api_key channel) = false.
Proof. by apply String.eqb_neq. Qed.

Lemma key_decide :
  bool_decide (Some api_key = Some (Channel.api_key channel)) = false.
Proof. apply bool_decide_false. by intros [= ?]. Qed.

Ltac refuse := run; rewrite Hfind, ?key_eqb, ?key_decide; reflexivity.

Lemma get_channel_key :
  channels.get_channel channel_name api_key s = unauthorized s.
Proof. unfold channels.get_channel. refuse. Qed.

Lemma write_data_key now data :
  channels.write_data now channel_name api_key data s = unauthorized s.
Proof. unfold channels.write_data. refuse. Qed.

Lemma get_historical_data_key field_name start_time end_time limit :
  is_Some (channels.Query_limit limit) ->
  channels.get_historical_data channel_name api_key field_name start_time
    end_time limit s = unauthorized s.
Proof.
  intros [n Hn]. unfold channels.get_historical_data. rewrite Hn. refuse.
Qed.

Lemma delete_channel_key :
  channels.delete_channel channel_name api_key s = unauthorized s.
Proof. unfold channels.delete_channel. refuse. Qed.

Lemma delete_field_key field_name :
  channels.delete_field channel_name field_name api_key s = unauthorized s.
Proof. unfold channels.delete_field. refuse. Qed.

Lemma update_channel_fields_key update :
  channels.update_channel_fields channel_name update api_key s
  = unauthorized s.
Proof. unfold channels.update_channel_fields. refuse. Qed.

Lemma get_latest_data_key :
  data.get_latest_data channel_name api_key s = unauthorized s.
Proof. unfold data.get_latest_data. refuse. Qed.

Lemma get_field_value_key field_name :
  data.get_field_value channel_name field_name api_key s = unauthorized s.
Proof. unfold data.get_field_value. refuse. Qed.

Hypothesis Hsupplied : api_key <> EmptyString.

Lemma key_truthy : truthy (Some api_key) = true.
Proof. simpl. by destruct (String.eqb_spec api_key EmptyString). Qed.

Lemma query_params_key now (query_params : gmap string string) :
  query_params !! "api_key" = Some api_key ->
  channels.update_channel_data_by_query_params now channel_name
    query_params s = unauthorized s.
Proof.
  intros Hq. unfold channels.update_channel_data_by_query_params.
  rewrite Hq, key_truthy. simpl. refuse.
Qed.

Lemma render_put_key now request :
  coap_server.Request.uri_path request !! 1%nat = Some channel_name ->
  coap_server.parse_query (coap_server.Request.uri_query request)
    !! "api_key" = Some api_key ->
  coap_server.ChannelDataResource.render_put now request s
  = coap_unauthorized s.
Proof.
  intros Hpath Hq. unfold coap_server.ChannelDataResource.render_put.
  rewrite Hpath, Hq, key_truthy. simpl. refuse.
Qed.

Lemma latest_render_get_key request :
  coap_server.Request.uri_path request !! 1%nat = Some channel_name ->
  coap_server.parse_query (coap_server.Request.uri_query request)
    !! "api_key" = Some api_key ->
  coap_server.ChannelLatestDataResource.render_get request s
  = coap_unauthorized s.
Proof.
  intros Hpath Hq. unfold coap_server.ChannelLatestDataResource.render_get.
  rewrite Hpath, Hq, key_truthy. simpl. refuse.
Qed.

Lemma field_render_get_key request field_name :
  coap_server.Request.uri_path request !! 1%nat = Some channel_name ->
  coap_server.Request.uri_path request !! 2%nat = Some field_name ->
  coap_server.parse_query (coap_server.Request.uri_query request)
    !! "api_key" = Some api_key ->
  coap_server.ChannelLatestFieldResource.render_get request s
  = coap_unauthorized s.
Proof.
  intros Hpath Hfield Hq.
  unfold coap_server.ChannelLatestFieldResource.render_get.
  rewrite Hpath, Hfield, Hq, key_truthy. simpl. refuse.
Qed.

End InvalidKey.

(** A key that is missing or empty, on the handlers that read it
    themselves: refused before the channel is looked up. *)
Lemma query_params_key_required now channel_name
    (query_params : gmap string string) s :
  truthy (query_params !! "api_key") = false ->
  channels.update_channel_data_by_query_params now channel_name
    query_params s
  = (Raise (HTTPException 400 "API key is required in query parameters."),
     s).
Proof.
  intros Hq. unfold channels.update_channel_data_by_query_params.
  by rewrite Hq.
Qed.

Lemma render_put_key_required `{!Env} now request channel_name s :
  coap_server.Request.uri_path request !! 1%nat = Some channel_name ->
  truthy (coap_server.parse_query (coap_server.Request.uri_query request)
            !! "api_key") = false ->
  coap_server.ChannelDataResource.render_put now request s
  = (Return (coap_server.Build_Message coap_server.BAD_REQUEST
       (coap_server.Bytes
    "API key is required in query parameters (e.g., ?api_key=YOUR_KEY).")),
     s).
Proof.
  intros Hpath Hq. unfold coap_server.ChannelDataResource.render_put.
  by rewrite Hpath, Hq.
Qed.

Lemma latest_render_get_key_required `{!Env} request channel_name s :
  coap_server.Request.uri_path request !! 1%nat = Some channel_name ->
  truthy (coap_server.parse_query (coap_server.Request.uri_query request)
            !! "api_key") = false ->
  coap_server.ChannelLatestDataResource.render_get request s
  = (Return (coap_server.Build_Message coap_server.BAD_REQUEST
               (coap_server.Bytes "API key is required.")), s).
Proof.
  intros Hpath Hq. unfold coap_server.ChannelLatestDataResource.render_get.
  by rewrite Hpath, Hq.
Qed.

Lemma field_render_get_key_required `{!Env} request channel_name field_name
    s :
  coap_server.Request.uri_path request !! 1%nat = Some channel_name ->
  coap_server.Request.uri_path request !! 2%nat = Some field_name ->
  truthy (coap_server.parse_query (coap_server.Request.uri_query request)
            !! "api_key") = false ->
  coap_server.ChannelLatestFieldResource.render_get request s
  = (Return (coap_server.Build_Message coap_server.BAD_REQUEST
               (coap_server.Bytes "API key is required.")), s).
Proof.
  intros Hpath Hfield Hq.
  unfold coap_server.ChannelLatestFieldResource.render_get.
  by rewrite Hpath, Hfield, Hq.
Qed.

(** C8, as the code has it.  When the named channel exists and the key of
    the request is not the channel's stored key, every operation that checks
    a key fails with the invalid-key error (HTTP 401, CoAP UNAUTHORIZED) and
    changes nothing, whatever else the request names; this needs, for the
    history query, that [limit] passes its bounds, which are checked before
    the handler runs, and, for the query-parameter write and the three CoAP
    operations, that the key is not empty: these four refuse an empty or
    missing key as a bad request before they look the channel up. *)
Theorem C8_invalid_api_key `{!Env} (s : Database.t) (channel_name : string)
    (channel : Channel.t) (api_key : string) :
  Collection.find_one channel_name (Database.channels s) = Some channel ->
  api_key <> Channel.api_key channel ->
  channels.get_channel channel_name api_key s = unauthorized s
  /\ (forall now data,
        channels.write_data now channel_name api_key data s = unauthorized s)
  /\ (forall field_name start_time end_time limit,
        is_Some (channels.Query_limit limit) ->
        channels.get_historical_data channel_name api_key field_name
          start_time end_time limit s = unauthorized s)
  /\ channels.delete_channel channel_name api_key s = unauthorized s
  /\ (forall field_name,
        channels.delete_field channel_name field_name api_key s
        = unauthorized s)
  /\ (forall update,
        channels.update_channel_fields channel_name update api_key s
        = unauthorized s)
  /\ data.get_latest_data channel_name api_key s = unauthorized s
  /\ (forall field_name,
        data.get_field_value channel_name field_name api_key s
        = unauthorized s)
  /\ (api_key <> EmptyString ->
      (forall now (query_params : gmap string string),
         query_params !! "api_key" = Some api_key ->
         channels.update_channel_data_by_query_params now channel_name
           query_params s = unauthorized s)
      /\ (forall now request,
            coap_server.Request.uri_path request !! 1%nat
              = Some channel_name ->
            coap_server.parse_query (coap_server.Request.uri_query request)
              !! "api_key" = Some api_key ->
            coap_server.ChannelDataResource.render_put now request s
            = coap_unauthorized s)
      /\ (forall request,
            coap_server.Request.uri_path request !! 1%nat
              = Some channel_name ->
            coap_server.parse_query (coap_server.Request.uri_query request)
              !! "api_key" = Some api_key ->
            coap_server.ChannelLatestDataResource.render_get request s
            = coap_unauthorized s)
      /\ (forall request field_name,
            coap_server.Request.uri_path request !! 1%nat
              = Some channel_name ->
            coap_server.Request.uri_path request !! 2%nat
              = Some field_name ->
            coap_server.parse_query (coap_server.Request.uri_query request)
              !! "api_key" = Some api_key ->
            coap_server.ChannelLatestFieldResource.render_get request s
            = coap_unauthorized s))
  /\ (forall now (query_params : gmap string string),
        truthy (query_params !! "api_key") = false ->
        channels.update_channel_data_by_query_params now channel_name
          query_params s
        = (Raise (HTTPException 400
                    "API key is required in query parameters."), s))
  /\ (forall request,
        coap_server.Request.uri_path request !! 1%nat = Some channel_name ->
        truthy (coap_server.parse_query
                  (coap_server.Request.uri_query request) !! "api_key")
          = false ->
        (forall now,
           coap_server.ChannelDataResource.render_put now request s
           = (Return (coap_server.Build_Message coap_server.BAD_REQUEST
                (coap_server.Bytes
    "API key is required in query parameters (e.g., ?api_key=YOUR_KEY).")),
              s))
        /\ coap_server.ChannelLatestDataResource.render_get request s
           = (Return (coap_server.Build_Message coap_server.BAD_REQUEST
                        (coap_server.Bytes "API key is required.")), s)
        /\ (forall field_name,
              coap_server.Request.uri_path request !! 2%nat
                = Some field_name ->
              coap_server.ChannelLatestFieldResource.render_get request s
              = (Return (coap_server.Build_Message coap_server.BAD_REQUEST
                           (coap_server.Bytes "API key is required.")), s))).
Proof.
  intros Hfind Hkey.
  split; [by apply (get_channel_key s channel_name channel)|].
  split; [intros; by apply (write_data_key s channel_name channel)|].
  split; [intros; by apply (get_historical_data_key s channel_name channel)|].
  split; [by apply (delete_channel_key s channel_name channel)|].
  split; [intros; by apply (delete_field_key s channel_name channel)|].
  split; [intros;
          by apply (update_channel_fields_key s channel_name channel)|].
  split; [by apply (get_latest_data_key s channel_name channel)|].
  split; [intros; by apply (get_field_value_key s channel_name channel)|].
  split.
  { intros Hsupplied.
    split; [intros;
            by apply (query_params_key s channel_name channel api_key)|].
    split; [intros;
            by apply (render_put_key s channel_name channel api_key)|].
    split; [intros;
            by apply (latest_render_get_key s channel_name channel api_key)|].
    intros. by apply (field_render_get_key s channel_name channel api_key)
                     with (field_name := field_name). }
  split; [intros; by apply query_params_key_required|].
  intros request Hpath Hq.
  split; [intros; by apply (render_put_key_required _ _ channel_name)|].
  split; [by apply (latest_render_get_key_required _ channel_name)|].
  intros field_name Hfield.
  by apply (field_render_get_key_required _ channel_name field_name).
Qed.

Lemma C8_witness :
  channels.delete_channel "tank3" "WRONGKEY0000" tank3_db
  = unauthorized tank3_db.
Proof.
  refine (proj1 (proj2 (proj2 (proj2
            (C8_invalid_api_key tank3_db "tank3" tank3 "WRONGKEY0000"
               eq_refl _))))).
  discriminate.
Defined.

(** C8 as stated fails: an empty key is not the stored key, yet the
    query-parameter write and the CoAP PUT answer that a key is required, and
    a history query whose [limit] is out of bounds is refused before the key
    is looked at. *)
Lemma C8_counterexample :
  EmptyString <> Channel.api_key tank3
  /\ channels.update_channel_data_by_query_params 7 "tank3"
       empty_key_params tank3_db
     = (Raise (HTTPException 400 "API key is required in query parameters."),
        tank3_db)
  /\ channels.update_channel_data_by_query_params 7 "tank3"
       empty_key_params tank3_db
     <> unauthorized tank3_db
  /\ coap_server.ChannelDataResource.render_put 7
       (coap_server.Request.Build ["channels"; "tank3"; "data"]
          ["api_key="] level_75_2_json) tank3_db
     = (Return (coap_server.Build_Message coap_server.BAD_REQUEST
          (coap_server.Bytes
    "API key is required in query parameters (e.g., ?api_key=YOUR_KEY).")),
        tank3_db)
  /\ channels.get_historical_data "tank3" "WRONGKEY0000" None None None
       (Some 0) tank3_db
     = (Raise RequestValidationError, tank3_db).
Proof.
  split; [discriminate|].
  assert (Hrun : channels.update_channel_data_by_query_params 7 "tank3"
                   empty_key_params tank3_db
                 = (Raise (HTTPException 400
                             "API key is required in query parameters."),
                    tank3_db)) by (vm_compute; reflexivity).
  split; [exact Hrun|]. split; [rewrite Hrun; discriminate|].
  split; vm_compute; reflexivity.
Qed.

(** ** History *)







#[global] Instance ts_le_total `{!Env} : Total Collection.ts_le.
Proof. intros d1 d2. apply bson_leb_total. Qed.

#[global] Instance ts_le_trans `{!Env} : Transitive Collection.ts_le.
Proof. intros d1 d2 d3. apply bson_leb_trans. Qed.

(** The store's order on two dates is the order of their instants, so a
    sorted answer has its dates ascending, and stays sorted when it is cut. *)
Lemma ts_le_dates `{!Env} (d1 d2 : doc) (t1 t2 : Z) :
  d1 !! "timestamp" = Some (VTime t1) ->
  d2 !! "timestamp" = Some (VTime t2) ->
  Collection.ts_le d1 d2 <-> t1 <= t2.
Proof.
  intros H1 H2. unfold Collection.ts_le.
  rewrite H1, H2, bson_leb_time. apply Z.leb_le.
Qed.

Lemma StronglySorted_take {A : Type} (R : relation A) (l : list A) (n : nat) :
  StronglySorted R l -> StronglySorted R (take n l).
Proof.
  intros Hl. revert n. induction Hl as [|x l Hl IH Hx]; intros [|n]; simpl;
    try constructor; auto.
  by apply Forall_take.
Qed.

Lemma sorted_dates_ascending `{!Env} (l : list doc) :
  StronglySorted Collection.ts_le l ->
  forall (i j : nat) d1 d2 t1 t2,
    (i < j)%nat -> l !! i = Some d1 -> l !! j = Some d2 ->
    d1 !! "timestamp" = Some (VTime t1) ->
    d2 !! "timestamp" = Some (VTime t2) ->
    t1 <= t2.
Proof.
  induction 1 as [|x l Hl IH Hx]; intros i j d1 d2 t1 t2 Hij Hi Hj H1 H2.
  - by rewrite lookup_nil in Hi.
  - destruct j as [|j]; [lia|]. simpl in Hj. destruct i as [|i].
    + injection Hi as ->.
      apply (ts_le_dates d1 d2); [done..|].
      rewrite Forall_forall in Hx. apply Hx.
      apply list_elem_of_lookup. by exists j.
    + simpl in Hi. apply (IH i j d1 d2); auto. lia.
Qed.





(** * Properties of the rest of the code *)

(** ** Channel names *)

Lemma find_one_None name cs :
  Collection.find_one name cs = None
  <-> name ∉ map Channel.channel_name cs.
Proof.
  unfold Collection.find_one. induction cs as [|c cs IH]; simpl.
  - split; [intros _ Hin; by apply elem_of_nil in Hin|done].
  - unfold Collection.has_name at 1.
    destruct (String.eqb_spec (Channel.channel_name c) name) as [<-|Hne].
    + split; [done|]. intros Hnot. exfalso. apply Hnot. left.
    + rewrite IH. rewrite not_elem_of_cons. split; [by split|by intros [_ ?]].
Qed.

Lemma find_one_snoc name cs c :
  Collection.find_one name cs = None ->
  Collection.find_one name (cs ++ [c])
  = if Collection.has_name name c then Some c else None.
Proof.
  unfold Collection.find_one. induction cs as [|c0 cs IH]; simpl; [done|].
  destruct (Collection.has_name name c0); [done|apply IH].
Qed.

Lemma find_one_snoc_Some name cs c c0 :
  Collection.find_one name cs = Some c0 ->
  Collection.find_one name (cs ++ [c]) = Some c0.
Proof.
  unfold Collection.find_one. induction cs as [|c1 cs IH]; simpl; [done|].
  destruct (Collection.has_name name c1); [done|apply IH].
Qed.

Lemma update_one_names name f cs :
  (forall c, Channel.channel_name (f c) = Channel.channel_name c) ->
  map Channel.channel_name (Collection.update_one name f cs)
  = map Channel.channel_name cs.
Proof.
  intros Hf. induction cs as [|c cs IH]; simpl; [done|].
  destruct (Collection.has_name name c); simpl; [by rewrite Hf|by rewrite IH].
Qed.

Lemma delete_one_names name cs :
  map Channel.channel_name (Collection.delete_one name cs)
  `sublist_of` map Channel.channel_name cs.
Proof.
  induction cs as [|c cs IH]; simpl; [done|].
  destruct (Collection.has_name name c); simpl.
  - by apply sublist_cons.
  - by apply sublist_skip.
Qed.

(** With distinct names, deleting the first channel of a name leaves no
    channel of that name, and the channels of other names where they were. *)
Lemma delete_one_find name cs :
  NoDup (map Channel.channel_name cs) ->
  Collection.find_one name (Collection.delete_one name cs) = None.
Proof.
  intros Hnd. apply find_one_None.
  induction cs as [|c cs IH]; simpl; [apply not_elem_of_nil|].
  simpl in Hnd. apply NoDup_cons in Hnd as [Hc Hnd].
  destruct (Collection.has_name name c) eqn:Hn; simpl.
  - unfold Collection.has_name in Hn. apply String.eqb_eq in Hn.
    by rewrite <- Hn.
  - unfold Collection.has_name in Hn. apply String.eqb_neq in Hn.
    apply not_elem_of_cons. split; [done|by apply IH].
Qed.

Lemma delete_one_find_ne name name' cs :
  name' <> name ->
  Collection.find_one name' (Collection.delete_one name cs)
  = Collection.find_one name' cs.
Proof.
  intros Hne. unfold Collection.find_one.
  induction cs as [|c cs IH]; simpl; [done|].
  destruct (Collection.has_name name c) eqn:Hc;
    destruct (Collection.has_name name' c) eqn:Hc'; simpl; rewrite ?Hc';
    try done.
  unfold Collection.has_name in Hc, Hc'.
  apply String.eqb_eq in Hc, Hc'. congruence.
Qed.

(** X1.  Registration under a name that is taken is refused and changes nothing;
    with that check, and because PATCH and the two DELETE handlers never
    rename a channel, channel names stay pairwise distinct. *)
Theorem channel_names_stay_unique `{!Env} (s : Database.t) :
  names_unique s ->
  (forall generated now channel existing,
     Collection.find_one (ChannelCreate.channel_name channel)
       (Database.channels s) = Some existing ->
     channels.create_channel generated now channel s
     = (Raise (HTTPException 400 "Channel already exists"), s))
  /\ (forall generated now channel,
        names_unique (snd (channels.create_channel generated now channel s)))
  /\ (forall channel_name update api_key,
        names_unique (snd (channels.update_channel_fields channel_name update
                             api_key s)))
  /\ (forall channel_name field_name api_key,
        names_unique (snd (channels.delete_field channel_name field_name
                             api_key s)))
  /\ (forall channel_name api_key,
        names_unique (snd (channels.delete_channel channel_name api_key s))).
Proof.
  intros Hs. unfold names_unique in *. repeat split.
  - intros generated now channel existing Hfind.
    unfold channels.create_channel. run. by rewrite Hfind.
  - intros generated now channel. unfold channels.create_channel. run.
    destruct (Collection.find_one _ _) as [existing|] eqn:Hfind; [done|].
    simpl. unfold Collection.insert_one. rewrite map_app. simpl.
    apply NoDup_app. split; [done|]. split; [|apply NoDup_singleton].
    intros name Hin ->%list_elem_of_singleton.
    by apply find_one_None in Hfind.
  - intros channel_name update api_key.
    unfold channels.update_channel_fields. run.
    destruct (Collection.find_one _ _) as [channel|]; [|done].
    destruct (negb _); [done|]. simpl.
    destruct (channels.nonempty (ChannelUpdate.remove_fields update)); simpl.
    + pose proof (remove_loop_channels channel_name
                    (default [] (ChannelUpdate.remove_fields update)) s)
        as Hloop.
      destruct (for_each _ _ s) as [[[]|e] s1]; simpl in *.
      * by rewrite update_one_names, Hloop.
      * by rewrite Hloop.
    + by rewrite update_one_names.
  - intros channel_name field_name api_key.
    unfold channels.delete_field. run.
    destruct (Collection.find_one _ _) as [channel|]; [|done].
    destruct (negb _); [done|]. destruct (negb _); [done|]. simpl.
    set (s1 := Database.Build _ _).
    assert (Hs1 : NoDup (map Channel.channel_name (Database.channels s1)))
      by (simpl; by rewrite update_one_names).
    clearbody s1.
    pose proof (data_update_many_channels channel_name field_name NA s1)
      as Hch.
    destruct (db.data_update_many channel_name field_name NA s1)
      as [[[]|e] s2]; simpl in *; by rewrite Hch.
  - intros channel_name api_key. unfold channels.delete_channel. run.
    destruct (Collection.find_one _ _) as [channel|]; [|done].
    destruct (negb _); [done|]. simpl.
    eapply sublist_NoDup; [done|apply delete_one_names].
Qed.

Lemma channel_names_stay_unique_witness :
  channels.create_channel "A1B2C3D4E5F6" 7
    (ChannelCreate.Build "tank3" ["level"] None) tank3_db
  = (Raise (HTTPException 400 "Channel already exists"), tank3_db).
Proof.
  refine (proj1 (channel_names_stay_unique tank3_db _) "A1B2C3D4E5F6" 7
            (ChannelCreate.Build "tank3" ["level"] None) tank3 eq_refl).
  unfold names_unique. simpl. apply NoDup_singleton.
Defined.

(** ** The latest record *)

#[global] Instance ts_ge_total `{!Env} : Total Collection.ts_ge.
Proof. intros d1 d2. apply bson_geb_total. Qed.

#[global] Instance ts_ge_trans `{!Env} : Transitive Collection.ts_ge.
Proof. intros d1 d2 d3. apply bson_geb_trans. Qed.

Lemma ts_ge_dates `{!Env} (d1 d2 : doc) (t1 t2 : Z) :
  d1 !! "timestamp" = Some (VTime t1) ->
  d2 !! "timestamp" = Some (VTime t2) ->
  Collection.ts_ge d1 d2 <-> t2 <= t1.
Proof.
  intros H1 H2. unfold Collection.ts_ge.
  rewrite H1, H2, bson_geb_time. apply Z.leb_le.
Qed.

(** The head of the descending sort comes first among all the list. *)
Lemma sort_desc_head `{!Env} (l : list doc) m rest :
  merge_sort Collection.ts_ge l = m :: rest ->
  m ∈ l /\ forall d, d ∈ l -> Collection.ts_ge m d.
Proof.
  intros Hsort.
  pose proof (merge_sort_Permutation Collection.ts_ge l) as Hperm.
  pose proof (StronglySorted_merge_sort Collection.ts_ge l) as Hsorted.
  rewrite Hsort in Hperm, Hsorted. split.
  - rewrite <- Hperm. left.
  - intros d Hd. rewrite <- Hperm in Hd.
    apply elem_of_cons in Hd as [->|Hd].
    + destruct (total Collection.ts_ge m m); done.
    + apply StronglySorted_inv in Hsorted as [_ Hall].
      rewrite Forall_forall in Hall. by apply Hall.
Qed.

Lemma sort_desc_nil `{!Env} (l : list doc) :
  merge_sort Collection.ts_ge l = [] -> l = [].
Proof.
  intros Hsort.
  pose proof (merge_sort_Permutation Collection.ts_ge l) as Hperm.
  rewrite Hsort in Hperm. by apply Permutation_nil_l in Hperm.
Qed.

(** What [find({"tank_id": c}).sort("timestamp", -1).to_list(length=1)]
    yields: nothing when the filter matches no record, and otherwise one
    record that it matches and that comes no later than any other in the
    descending order of the store. *)
Lemma find_latest `{!Env} (channel_name : string) (ds : list doc) :
  ((forall d, d ∈ ds -> Collection.tagged channel_name d = false)
   /\ Collection.find (Query.Build channel_name None) (-1) 1 ds = [])
  \/ exists latest,
       latest ∈ ds /\ Collection.tagged channel_name latest = true
       /\ (forall d, d ∈ ds -> Collection.tagged channel_name d = true ->
                     Collection.ts_ge latest d)
       /\ Collection.find (Query.Build channel_name None) (-1) 1 ds
          = [latest].
Proof.
  unfold Collection.find, Collection.sort. simpl.
  set (mine := List.filter _ ds).
  assert (Hmine : forall d, d ∈ mine <->
                    d ∈ ds /\ Collection.tagged channel_name d = true).
  { intros d. unfold mine, Collection.matches. simpl.
    rewrite !list_elem_of_In, filter_In. by rewrite andb_true_r. }
  destruct (merge_sort Collection.ts_ge mine) as [|m rest] eqn:Hsort.
  - left. apply sort_desc_nil in Hsort. split; [|done].
    intros d Hd. destruct (Collection.tagged channel_name d) eqn:Htag; [|done].
    assert (d ∈ mine) as Hin by by apply Hmine.
    rewrite Hsort in Hin. by apply elem_of_nil in Hin.
  - right. apply sort_desc_head in Hsort as [Hm Hmax].
    apply Hmine in Hm as [Hm Htag]. exists m.
    split; [done|]. split; [done|]. split; [|reflexivity].
    intros d Hd Hdtag. apply Hmax. by apply Hmine.
Qed.

(** X2.  With the right key, [get_latest_data] answers with the no-data
    error exactly when the filter [{"tank_id": channel}] matches no record,
    that is when no record has the name as its ["tank_id"] or among the
    elements of an array stored there; otherwise it answers with a record
    that the filter matches and that comes first in the descending order of
    the store on ["timestamp"]. *)
Theorem get_latest_data_max `{!Env} (s : Database.t) (channel_name : string)
    (channel : Channel.t) :
  Collection.find_one channel_name (Database.channels s) = Some channel ->
  ((forall d, d ∈ Database.data s ->
              Collection.tagged channel_name d = false)
   /\ data.get_latest_data channel_name (Channel.api_key channel) s
      = (Raise (HTTPException 404 "No data found for this channel."), s))
  \/ exists latest,
       latest ∈ Database.data s
       /\ Collection.tagged channel_name latest = true
       /\ (forall d, d ∈ Database.data s ->
                     Collection.tagged channel_name d = true ->
                     Collection.ts_ge latest d)
       /\ data.get_latest_data channel_name (Channel.api_key channel) s
          = (Return (latest_view latest), s).
Proof.
  intros Hfind. unfold data.get_latest_data. run.
  rewrite Hfind, String.eqb_refl. simpl.
  destruct (find_latest channel_name (Database.data s))
    as [[Hnone ->]|(latest & Hin & Htag & Hmax & ->)].
  - by left.
  - right. by exists latest.
Qed.

Lemma get_latest_data_max_witness :
  ((forall d, d ∈ Database.data tank3_db ->
              Collection.tagged "tank3" d = false)
   /\ data.get_latest_data "tank3" (Channel.api_key tank3) tank3_db
      = (Raise (HTTPException 404 "No data found for this channel."),
         tank3_db))
  \/ exists latest,
       latest ∈ Database.data tank3_db
       /\ Collection.tagged "tank3" latest = true
       /\ (forall d, d ∈ Database.data tank3_db ->
                     Collection.tagged "tank3" d = true ->
                     Collection.ts_ge latest d)
       /\ data.get_latest_data "tank3" (Channel.api_key tank3) tank3_db
          = (Return (latest_view latest), tank3_db).
Proof. exact (get_latest_data_max tank3_db "tank3" tank3 eq_refl). Defined.



(** ** Registration, listing and deletion *)

Lemma seed_doc_frame (now : Z) (channel : ChannelCreate.t) k :
  k ∉ ChannelCreate.fields channel ->
  channels.seed_doc now channel !! k
  = stamp (ChannelCreate.channel_name channel) now !! k.
Proof.
  intros Hk. unfold channels.seed_doc. destruct (bool_decide _).
  - rewrite fill_NA_lookup. by rewrite decide_False.
  - change (foldl _ _ _)
      with (select (fun k => k ∈ ChannelCreate.fields channel)
              (map_to_list (default ∅ (ChannelCreate.initial_values channel)))
              (stamp (ChannelCreate.channel_name channel) now)).
    by rewrite select_frame.
Qed.

Lemma create_channel_run (generated : string) (now : Z) (s : Database.t)
    (channel : ChannelCreate.t) :
  Collection.find_one (ChannelCreate.channel_name channel)
    (Database.channels s) = None ->
  channels.create_channel generated now channel s
  = (Return (Channel.Build (ChannelCreate.channel_name channel) generated
               (ChannelCreate.fields channel)),
     Database.Build
       (Database.channels s
        ++ [Channel.Build (ChannelCreate.channel_name channel) generated
              (ChannelCreate.fields channel)])
       (Database.data s ++ [channels.seed_doc now channel])).
Proof. intros Hfree. unfold channels.create_channel. run. by rewrite Hfree. Qed.

(** X4.  Registration and lookup round trip.  After a registration that
    succeeded, the channel detail under the generated key is the channel as
    registered and every other key is refused; and when no record was filed
    under the name before and ["tank_id"] is not a field, the latest record of
    the channel is its seed record. *)
Theorem registration_round_trip `{!Env} (generated : string) (now : Z)
    (s : Database.t) (channel : ChannelCreate.t) :
  Collection.find_one (ChannelCreate.channel_name channel)
    (Database.channels s) = None ->
  let name := ChannelCreate.channel_name channel in
  let s' := snd (channels.create_channel generated now channel s) in
  channels.get_channel name generated s'
  = (Return (Channel.Build name generated (ChannelCreate.fields channel)), s')
  /\ (forall api_key, api_key <> generated ->
        channels.get_channel name api_key s'
        = (Raise (HTTPException 401 "Invalid API key"), s'))
  /\ ((forall d, d ∈ Database.data s -> Collection.tagged name d = false) ->
      "tank_id" ∉ ChannelCreate.fields channel ->
      data.get_latest_data name generated s'
      = (Return (latest_view (channels.seed_doc now channel)), s')).
Proof.
  intros Hfree name s'. unfold s'. rewrite create_channel_run by done.
  simpl. set (doc := Channel.Build _ _ _).
  assert (Hfind : Collection.find_one name (Database.channels s ++ [doc])
                  = Some doc).
  { rewrite find_one_snoc by done. unfold Collection.has_name. simpl.
    by rewrite String.eqb_refl. }
  split; [|split].
  - unfold channels.get_channel. run. rewrite Hfind. simpl.
    by rewrite String.eqb_refl.
  - intros api_key Hkey. unfold channels.get_channel. run. rewrite Hfind.
    simpl. by apply String.eqb_neq in Hkey as ->.
  - intros Hnone Htank.
    assert (Hseed : Collection.tagged name (channels.seed_doc now channel)
                    = true).
    { unfold Collection.tagged. rewrite seed_doc_frame by done.
      unfold stamp. rewrite lookup_insert_ne by done.
      rewrite lookup_singleton_eq. apply String.eqb_refl. }
    unfold data.get_latest_data. run. rewrite Hfind. simpl.
    rewrite String.eqb_refl. simpl.
    destruct (find_latest name
                (Database.data s ++ [channels.seed_doc now channel]))
      as [[Hempty _]|(latest & Hin & Htag & _ & ->)].
    + rewrite Hempty in Hseed; [done|]. apply elem_of_app. right. left.
    + apply elem_of_app in Hin as [Hin|Hin%list_elem_of_singleton].
      * by rewrite Hnone in Htag.
      * by subst latest.
Qed.

Lemma registration_round_trip_witness :
  channels.get_channel "tank9" "A1B2C3D4E5F6"
    (snd (channels.create_channel "A1B2C3D4E5F6" 7
            (ChannelCreate.Build "tank9" ["level"; "temperature"] None)
            tank3_db))
  = (Return (Channel.Build "tank9" "A1B2C3D4E5F6" ["level"; "temperature"]),
     snd (channels.create_channel "A1B2C3D4E5F6" 7
            (ChannelCreate.Build "tank9" ["level"; "temperature"] None)
            tank3_db)).
Proof.
  exact (proj1 (registration_round_trip "A1B2C3D4E5F6" 7 tank3_db
                  (ChannelCreate.Build "tank9" ["level"; "temperature"] None)
                  eq_refl)).
Defined.

Lemma delete_one_snoc name cs c x :
  Collection.find_one name cs = Some c ->
  Collection.delete_one name (cs ++ [x])
  = (Collection.delete_one name cs ++ [x])%list
  /\ S (length (Collection.delete_one name cs)) = length cs.
Proof.
  unfold Collection.find_one.
  induction cs as [|c0 cs IH]; simpl; [done|].
  destruct (Collection.has_name name c0); [done|].
  intros Hf. destruct (IH Hf) as [-> <-]. done.
Qed.

(** X5.  Listing shows the first 100 channels of the store, in the order of
    the store, each with its name and its fields and never a key, and leaves
    the store as it was: the listing has as many entries as the store has
    channels, up to 100, and its entry at a position below 100 is the channel
    at that position.  So a channel registered when fewer than 100 exist is
    the last entry of the next listing; one registered when 100 or more
    exist is left out of the next listing, whose entries are what they were;
    and one registered as the 101st is listed, in the last place, as soon as
    one of the 100 others was deleted. *)
Theorem list_channels_cap (s : Database.t) :
  let entry_of := fun c => (Channel.channel_name c, Channel.fields c) in
  exists listed,
    list_channels s = (Return listed, s)
    /\ length listed = (length (Database.channels s) `min` 100)%nat
    /\ (forall i, (i < 100)%nat ->
          listed !! i = entry_of <$> Database.channels s !! i)
    /\ (forall generated now channel,
          Collection.find_one (ChannelCreate.channel_name channel)
            (Database.channels s) = None ->
          let s' := snd (channels.create_channel generated now channel s) in
          let entry := (ChannelCreate.channel_name channel,
                        ChannelCreate.fields channel) in
          ((length (Database.channels s) < 100)%nat ->
           fst (list_channels s') = Return (listed ++ [entry])%list)
          /\ ((100 <= length (Database.channels s))%nat ->
              fst (list_channels s') = Return listed)
          /\ (forall channel_name victim,
                Collection.find_one channel_name (Database.channels s)
                = Some victim ->
                length (Database.channels s) = 100%nat ->
                fst (list_channels
                       (snd (channels.delete_channel channel_name
                               (Channel.api_key victim) s')))
                = Return
                    (map entry_of
                       (Collection.delete_one channel_name
                          (Database.channels s)) ++ [entry])%list)).
Proof.
  intros entry_of. unfold list_channels. eexists. split; [reflexivity|].
  split; [rewrite length_map, length_take; lia|].
  split.
  { intros i Hi. rewrite list_lookup_fmap. by rewrite lookup_take_lt. }
  intros generated now channel Hfree.
  rewrite create_channel_run by done. simpl. split; [|split].
  - intros Hfew. rewrite !take_ge by (rewrite ?length_app; simpl; lia).
    by rewrite map_app.
  - intros Hmany. by rewrite take_app_le.
  - intros channel_name victim Hvictim Hlen.
    unfold channels.delete_channel. run.
    rewrite (find_one_snoc_Some _ _ _ _ Hvictim), String.eqb_refl. simpl.
    destruct (delete_one_snoc channel_name _ _
                (Channel.Build (ChannelCreate.channel_name channel)
                   generated (ChannelCreate.fields channel)) Hvictim)
      as [-> Hshorter].
    f_equal. rewrite take_ge by (rewrite length_app; simpl; lia).
    by rewrite map_app.
Qed.

Lemma list_channels_cap_witness :
  fst (list_channels
         (snd (channels.create_channel "A1B2C3D4E5F6" 7
                 (ChannelCreate.Build "tank9" ["level"] None) tank3_db)))
  = Return [("tank3", ["level"; "temperature"; "humidity"]);
            ("tank9", ["level"])].
Proof.
  destruct (list_channels_cap tank3_db)
    as (listed & Hlisted & _ & _ & Hnext).
  injection Hlisted as <-.
  refine (proj1 (Hnext "A1B2C3D4E5F6" 7
                   (ChannelCreate.Build "tank9" ["level"] None) eq_refl) _).
  simpl. lia.
Defined.

(** X6.  Deleting a channel cascades.  With distinct channel names, an
    authorised delete leaves no channel of that name and no record filed under
    it, and keeps every other channel and every other record, in their order;
    afterwards the name is unknown to the queries. *)
Theorem delete_channel_cascade `{!Env} (s : Database.t)
    (channel_name : string) (channel : Channel.t) :
  Collection.find_one channel_name (Database.channels s) = Some channel ->
  names_unique s ->
  exists s',
    channels.delete_channel channel_name (Channel.api_key channel) s
    = (Return ("Channel '" +:+ channel_name
               +:+ "' and all related data deleted"), s')
    /\ Collection.find_one channel_name (Database.channels s') = None
    /\ (forall other, other <> channel_name ->
          Collection.find_one other (Database.channels s')
          = Collection.find_one other (Database.channels s))
    /\ Database.data s'
       = List.filter (fun d => negb (Collection.tagged channel_name d))
           (Database.data s)
    /\ (forall d, d ∈ Database.data s' ->
                  Collection.tagged channel_name d = false)
    /\ (forall api_key,
          data.get_latest_data channel_name api_key s'
          = (Raise (HTTPException 404 "Channel not found"), s')).
Proof.
  intros Hfind Hnames. eexists. split.
  { unfold channels.delete_channel. run.
    by rewrite Hfind, String.eqb_refl. }
  simpl. split; [by apply delete_one_find|].
  split; [intros other Hne; by apply delete_one_find_ne|].
  split; [reflexivity|]. split.
  - intros d Hd. unfold Collection.delete_many in Hd.
    apply list_elem_of_In, filter_In in Hd as [_ Hd].
    by apply negb_true_iff in Hd.
  - intros api_key. unfold data.get_latest_data. run.
    by rewrite delete_one_find.
Qed.

Lemma delete_channel_cascade_witness :
  exists s',
    channels.delete_channel "tank3" (Channel.api_key tank3) tank3_db
    = (Return ("Channel '" +:+ "tank3"
               +:+ "' and all related data deleted"), s')
    /\ Collection.find_one "tank3" (Database.channels s') = None
    /\ (forall other, other <> "tank3" ->
          Collection.find_one other (Database.channels s')
          = Collection.find_one other (Database.channels tank3_db))
    /\ Database.data s'
       = List.filter (fun d => negb (Collection.tagged "tank3" d))
           (Database.data tank3_db)
    /\ (forall d, d ∈ Database.data s' ->
                  Collection.tagged "tank3" d = false)
    /\ (forall api_key,
          data.get_latest_data "tank3" api_key s'
          = (Raise (HTTPException 404 "Channel not found"), s')).
Proof.
  refine (delete_channel_cascade tank3_db "tank3" tank3 eq_refl _).
  unfold names_unique. simpl. apply NoDup_singleton.
Defined.

(** ** The CoAP resources and their HTTP counterparts *)

Lemma addressed_truthy request channel_name api_key :
  addressed request channel_name api_key ->
  truthy (coap_server.parse_query (coap_server.Request.uri_query request)
            !! "api_key") = true.
Proof.
  intros (_ & -> & Hne). simpl.
  by destruct (String.eqb_spec api_key EmptyString).
Qed.

Lemma key_test (api_key key : string) :
  bool_decide (Some api_key = Some key) = String.eqb api_key key.
Proof.
  destruct (String.eqb_spec api_key key) as [->|Hne].
  - by apply bool_decide_true.
  - apply bool_decide_false. by intros [= ?].
Qed.

(** X7.  The CoAP PUT and the HTTP write agree.  For a request that names a
    channel, carries a non-empty key and a payload that decodes to an object,
    [render_put] leaves the store that [write_data] leaves for the same bag;
    where [write_data] raises an HTTP error, [render_put] answers with the
    code of the same number, and an exception that escapes one escapes the
    other.  Where [write_data] succeeds, [render_put] answers 2.01 with the
    ISO text of the stored timestamp when that is a date, and otherwise
    raises [AttributeError] after the record was stored. *)
Theorem render_put_mirrors_write_data `{!Env} (now : Z) (s : Database.t)
    (request : coap_server.Request.t) (channel_name api_key : string)
    (data : gmap string value) :
  addressed request channel_name api_key ->
  coap_server.Request.payload request <> EmptyString ->
  json_loads (coap_server.Request.payload request) = JObject data ->
  let http := channels.write_data now channel_name api_key data s in
  let coap := coap_server.ChannelDataResource.render_put now request s in
  snd coap = snd http
  /\ match fst http with
     | Raise (HTTPException status _) => refused_as status (fst coap)
     | Raise (Uncaught e) => fst coap = Raise (Uncaught e)
     | Raise RequestValidationError => False
     | Return response =>
         match response !! "timestamp" with
         | Some (VTime t) =>
             fst coap
             = Return (coap_server.Build_Message coap_server.CREATED
                 (coap_server.Json
                    (<["timestamp" := VStr (isoformat t)]>
                       {["message" :=
                           VStr "Data written successfully via CoAP"]})))
         | _ => fst coap = Raise (Uncaught AttributeError)
                /\ exists d, snd coap
                     = Database.Build (Database.channels s)
                         (Database.data s ++ [d])
         end
     end.
Proof.
  intros Haddr Hpayload Hjson http coap. unfold http, coap.
  unfold coap_server.ChannelDataResource.render_put, channels.write_data.
  rewrite (addressed_truthy _ _ _ Haddr).
  destruct Haddr as (-> & -> & Hne). run.
  destruct (Collection.find_one _ _) as [channel|]; simpl;
    [|split; [done|by exists coap_server.NOT_FOUND, "Channel not found."]].
  rewrite key_test.
  destruct (String.eqb api_key _); simpl;
    [|split; [done|by exists coap_server.UNAUTHORIZED, "Invalid API key."]].
  apply String.eqb_neq in Hpayload as ->. rewrite Hjson.
  destruct (foldl _ _ _) as [[d' b']|e]; [|done].
  destruct b'; simpl.
  - destruct (d' !! "timestamp") as [ts|]; simpl; [|done].
    rewrite lookup_insert_eq.
    destruct ts; simpl; try (split; [done|split; [done|by eexists]]).
    done.
  - split; [done|]. by eexists coap_server.BAD_REQUEST, _.
Qed.

Lemma render_put_mirrors_write_data_witness :
  snd (coap_server.ChannelDataResource.render_put 7 tank3_put tank3_db)
  = snd (channels.write_data 7 "tank3" "XWHX1ZJA6Q8F" level_bag tank3_db).
Proof.
  refine (proj1 (render_put_mirrors_write_data 7 tank3_db tank3_put
                   "tank3" "XWHX1ZJA6Q8F" level_bag _ _ _)).
  - repeat split. discriminate.
  - discriminate.
  - reflexivity.
Defined.

Lemma format_timestamp_delete_id `{!Env} (d : doc) :
  format_timestamp (delete "_id" d) = delete "_id" (format_timestamp d).
Proof.
  unfold format_timestamp. rewrite lookup_delete_ne by done.
  destruct (d !! "timestamp") as [[]|]; try done.
  by rewrite delete_insert_ne.
Qed.

(** X8.  The CoAP latest-record GET and the HTTP one agree.  Neither changes the
    store; an HTTP error is answered by CoAP with the code of the same number;
    and the record CoAP shows is the one HTTP shows without its ["_id"]. *)
Theorem latest_render_get_mirrors_get_latest_data `{!Env} (s : Database.t)
    (request : coap_server.Request.t) (channel_name api_key : string) :
  addressed request channel_name api_key ->
  let http := data.get_latest_data channel_name api_key s in
  let coap := coap_server.ChannelLatestDataResource.render_get request s in
  snd coap = s /\ snd http = s
  /\ match fst http with
     | Raise (HTTPException status _) => refused_as status (fst coap)
     | Raise _ => False
     | Return latest_entry =>
         fst coap
         = Return (coap_server.Build_Message coap_server.CONTENT
                     (coap_server.Json (delete "_id" latest_entry)))
     end.
Proof.
  intros Haddr http coap. unfold http, coap.
  unfold coap_server.ChannelLatestDataResource.render_get,
    data.get_latest_data.
  rewrite (addressed_truthy _ _ _ Haddr).
  destruct Haddr as (-> & -> & Hne). run.
  destruct (Collection.find_one _ _) as [channel|]; simpl;
    [|repeat split; by exists coap_server.NOT_FOUND, "Channel not found."].
  rewrite key_test.
  destruct (String.eqb api_key _); simpl;
    [|repeat split; by exists coap_server.UNAUTHORIZED, "Invalid API key."].
  destruct (Collection.find _ _ _ _) as [|latest rest]; simpl.
  - repeat split. by eexists coap_server.NOT_FOUND, _.
  - repeat split. do 3 f_equal.
    rewrite <- !format_timestamp_delete_id. f_equal.
    destruct (latest !! "_id"); [|done]. by rewrite delete_insert_eq.
Qed.

Lemma latest_render_get_mirrors_get_latest_data_witness :
  snd (coap_server.ChannelLatestDataResource.render_get tank3_get tank3_db)
  = tank3_db.
Proof.
  refine (proj1 (latest_render_get_mirrors_get_latest_data tank3_db
                   tank3_get "tank3" "XWHX1ZJA6Q8F" _)).
  repeat split. discriminate.
Defined.




(** ** Strings, query options and topics *)

Lemma free_of_cons sep a s :
  free_of sep (String a s) -> Ascii.eqb a sep = false /\ free_of sep s.
Proof.
  unfold free_of. simpl. intros Hfree. split.
  - apply Ascii.eqb_neq. intros ->. apply Hfree. left.
  - intros Hin. apply Hfree. by right.
Qed.

Lemma split_segment sep a t :
  free_of sep a -> split sep (a +:+ String sep t) = a :: split sep t.
Proof.
  induction a as [|c a IH]; simpl; intros Hfree.
  - by rewrite Ascii.eqb_refl.
  - apply free_of_cons in Hfree as [-> Hfree]. by rewrite IH.
Qed.

Lemma split_last sep a : free_of sep a -> split sep a = [a].
Proof.
  induction a as [|c a IH]; simpl; intros Hfree; [done|].
  apply free_of_cons in Hfree as [-> Hfree]. by rewrite IH.
Qed.

Lemma split_once_segment sep k v :
  free_of sep k -> split_once sep (k +:+ String sep v) = Some (k, v).
Proof.
  induction k as [|c k IH]; simpl; intros Hfree.
  - by rewrite Ascii.eqb_refl.
  - apply free_of_cons in Hfree as [-> Hfree]. by rewrite IH.
Qed.

Lemma split_once_free sep s : free_of sep s -> split_once sep s = None.
Proof.
  induction s as [|c s IH]; simpl; intros Hfree; [done|].
  apply free_of_cons in Hfree as [-> Hfree]. by rewrite IH.
Qed.

Lemma parse_query_snoc (uri_query : list string) (param : string) :
  coap_server.parse_query (uri_query ++ [param])
  = match split_once "="%char param with
    | Some (k, v) => <[k := v]> (coap_server.parse_query uri_query)
    | None => <[param := EmptyString]> (coap_server.parse_query uri_query)
    end.
Proof. unfold coap_server.parse_query. by rewrite foldl_app. Qed.

(** X11.  How the CoAP resources read their query options.  An option [k=v]
    binds [k] to [v], where [k] is the text before the first [=], so a value
    may itself contain [=]; an option with no [=] binds its whole text to the
    empty string; a later option replaces an earlier one of the same name and
    leaves the other names as they were. *)
Theorem parse_query_options (uri_query : list string) (k v : string) :
  free_of "="%char k ->
  coap_server.parse_query (uri_query ++ [k +:+ "=" +:+ v])
  = <[k := v]> (coap_server.parse_query uri_query)
  /\ coap_server.parse_query (uri_query ++ [k])
     = <[k := EmptyString]> (coap_server.parse_query uri_query)
  /\ coap_server.parse_query (uri_query ++ [k +:+ "=" +:+ v]) !! k = Some v
  /\ forall k', k' <> k ->
       coap_server.parse_query (uri_query ++ [k +:+ "=" +:+ v]) !! k'
       = coap_server.parse_query uri_query !! k'.
Proof.
  intros Hfree.
  assert (Hkv : coap_server.parse_query (uri_query ++ [k +:+ "=" +:+ v])
                = <[k := v]> (coap_server.parse_query uri_query)).
  { rewrite parse_query_snoc.
    change (k +:+ "=" +:+ v) with (k +:+ String "="%char v).
    by rewrite split_once_segment. }
  split; [done|]. split.
  - rewrite parse_query_snoc. by rewrite split_once_free.
  - rewrite Hkv. split; [apply lookup_insert_eq|].
    intros k' Hne. by rewrite lookup_insert_ne.
Qed.

Lemma parse_query_options_witness :
  coap_server.parse_query (["level=1"] ++ ["api_key" +:+ "=" +:+ "A=B"])
    !! "api_key" = Some "A=B".
Proof.
  refine (proj1 (proj2 (proj2 (parse_query_options ["level=1"] "api_key"
                                 "A=B" _)))).
  unfold free_of. simpl. not_in_list.
Defined.

(** X12.  A CoAP request whose last [api_key] option has no value is refused as a
    request without a key by each of the three resources, before the channel
    is looked up, and the store is unchanged. *)
Theorem bare_key_option_refused `{!Env} (now : Z) (s : Database.t)
    (request : coap_server.Request.t) (uri_query : list string)
    (channel_name field_name : string) :
  coap_server.Request.uri_path request !! 1%nat = Some channel_name ->
  coap_server.Request.uri_path request !! 2%nat = Some field_name ->
  coap_server.Request.uri_query request = (uri_query ++ ["api_key"])%list ->
  coap_server.ChannelDataResource.render_put now request s
  = (Return (coap_server.Build_Message coap_server.BAD_REQUEST
       (coap_server.Bytes
          "API key is required in query parameters (e.g., ?api_key=YOUR_KEY).")),
     s)
  /\ coap_server.ChannelLatestDataResource.render_get request s
     = (Return (coap_server.Build_Message coap_server.BAD_REQUEST
                  (coap_server.Bytes "API key is required.")), s)
  /\ coap_server.ChannelLatestFieldResource.render_get request s
     = (Return (coap_server.Build_Message coap_server.BAD_REQUEST
                  (coap_server.Bytes "API key is required.")), s).
Proof.
  intros Hname Hfield Hquery.
  assert (Hkey : coap_server.parse_query (coap_server.Request.uri_query request)
                   !! "api_key" = Some EmptyString).
  { rewrite Hquery, parse_query_snoc. simpl. apply lookup_insert_eq. }
  unfold coap_server.ChannelDataResource.render_put,
    coap_server.ChannelLatestDataResource.render_get,
    coap_server.ChannelLatestFieldResource.render_get.
  by rewrite Hname, Hfield, Hkey.
Qed.

Lemma bare_key_option_refused_witness :
  coap_server.ChannelLatestDataResource.render_get
    (coap_server.Request.Build ["channels"; "tank3"; "latest"]
       ([] ++ ["api_key"])%list EmptyString) tank3_db
  = (Return (coap_server.Build_Message coap_server.BAD_REQUEST
               (coap_server.Bytes "API key is required.")), tank3_db).
Proof.
  exact (proj1 (proj2 (bare_key_option_refused 0 tank3_db
                  (coap_server.Request.Build ["channels"; "tank3"; "latest"]
                     ([] ++ ["api_key"])%list EmptyString)
                  [] "tank3" "latest" eq_refl eq_refl eq_refl))).
Defined.

(** ** The MQTT subscriber, continued *)

(** X13.  [on_message] files a message under the second segment of its topic,
    whatever the first segment is and whatever follows the second; a topic
    of one segment, and a payload that does not decode to an object, leave
    the store as it was. *)
Theorem on_message_routing `{!Env} (uuid : string) (now : Z)
    (first channel_name payload : string) (s : Database.t) :
  free_of "/"%char first ->
  free_of "/"%char channel_name ->
  (forall data, json_loads payload = JObject data ->
     (forall rest,
        main.on_message uuid now
          (first +:+ "/" +:+ channel_name +:+ "/" +:+ rest) payload s
        = snd (main.save_mqtt_data uuid now channel_name data s))
     /\ main.on_message uuid now (first +:+ "/" +:+ channel_name) payload s
        = snd (main.save_mqtt_data uuid now channel_name data s))
  /\ main.on_message uuid now first payload s = s
  /\ ((forall data, json_loads payload <> JObject data) ->
      forall topic, main.on_message uuid now topic payload s = s).
Proof.
  intros Hfirst Hname. split; [|split].
  - intros data Hjson. unfold main.on_message. rewrite Hjson. split.
    + intros rest.
      change (first +:+ "/" +:+ channel_name +:+ "/" +:+ rest)
        with (first +:+ String "/"%char
                (channel_name +:+ String "/"%char rest)).
      by rewrite !split_segment.
    + change (first +:+ "/" +:+ channel_name)
        with (first +:+ String "/"%char channel_name).
      by rewrite split_segment, split_last.
  - unfold main.on_message. rewrite split_last by done.
    by destruct (json_loads payload).
  - intros Hjson topic. unfold main.on_message.
    destruct (json_loads payload) as [data| | |]; try done.
    by destruct (Hjson data).
Qed.

Lemma on_message_routing_witness :
  main.on_message "u1" 7 ("plant" +:+ "/" +:+ "tank3" +:+ "/" +:+ "data/x")
    level_75_2_json tank3_db
  = snd (main.save_mqtt_data "u1" 7 "tank3" level_bag tank3_db).
Proof.
  refine (proj1 (proj1 (on_message_routing "u1" 7 "plant" "tank3"
                          level_75_2_json tank3_db _ _)
                   level_bag eq_refl) "data/x");
    unfold free_of; simpl; not_in_list.
Defined.

(** X14.  The record [save_mqtt_data] stores.  For a channel that exists it
    appends exactly one record and changes nothing else: under a field of the
    channel that the bag has, the record holds the value of the bag as it
    came, also when that field is ["_id"], ["tank_id"] or ["timestamp"];
    under every other key it holds what the header holds.  For a channel that
    does not exist the store is unchanged. *)
Theorem save_mqtt_data_record (uuid : string) (now : Z) (s : Database.t)
    (channel_name : string) (data : gmap string value) :
  match Collection.find_one channel_name (Database.channels s) with
  | None => main.save_mqtt_data uuid now channel_name data s = (Return tt, s)
  | Some channel =>
      exists data_entry,
        main.save_mqtt_data uuid now channel_name data s
        = (Return tt,
           Database.Build (Database.channels s)
             (Database.data s ++ [data_entry]))
        /\ forall k,
             data_entry !! k
             = if decide (k ∈ Channel.fields channel /\ is_Some (data !! k))
               then data !! k
               else mqtt_header uuid now channel_name !! k
  end.
Proof.
  unfold main.save_mqtt_data. run.
  destruct (Collection.find_one _ _) as [channel|]; [|done].
  eexists. split; [reflexivity|]. intros k.
  rewrite lookup_union, cleaned_lookup.
  destruct (decide (k ∈ (list_to_set (Channel.fields channel) : gset string)))
    as [Hin|Hout].
  - apply list_to_set_fields in Hin.
    destruct (data !! k) as [v|] eqn:Hv.
    + rewrite decide_True by (split; [done|by eexists]).
      match goal with |- Some _ ∪ ?x = _ => by destruct x end.
    + rewrite decide_False by (intros [_ [? ?]]; done).
      by rewrite (left_id None _).
  - rewrite list_to_set_fields in Hout.
    rewrite decide_False by (intros [? _]; done).
    by rewrite (left_id None _).
Qed.

(** ** Generated keys *)

Lemma key_alphabet_chars :
  Forall (fun a => key_char a = true) (list_ascii_of_string key_alphabet).
Proof. repeat constructor. Qed.

Lemma random_choice_key_char (r : nat) :
  key_char (random_choice r key_alphabet) = true.
Proof.
  unfold random_choice.
  pose proof key_alphabet_chars as Hall. rewrite Forall_forall in Hall.
  apply Hall. apply list_elem_of_In, nth_In.
  change (length (list_ascii_of_string key_alphabet)) with 36%nat.
  change (String.length key_alphabet) with 36%nat.
  apply Nat.mod_upper_bound. done.
Qed.

Lemma length_string_of_list_ascii (l : list ascii) :
  String.length (string_of_list_ascii l) = length l.
Proof. induction l; simpl; congruence. Qed.

(** X15.  A generated key has the length asked for and consists of upper-case
    letters and digits only, whatever the generator draws; with the default
    length of 12 it is never the empty key.  This holds for the generator of
    [channels.py] and for the one of [utils.py]. *)
Theorem generate_api_key_shape (rng : nat -> nat) (length : nat) :
  let shape (key : string) :=
    String.length key = length
    /\ Forall (fun a => key_char a = true) (list_ascii_of_string key)
    /\ (length = 12%nat -> truthy (Some key) = true) in
  shape (generate_api_key rng length)
  /\ shape (utils.generate_api_key rng length).
Proof.
  assert (Hshape :
    let key := string_of_list_ascii
        (map (fun i => random_choice (rng i) key_alphabet) (seq 0 length)) in
    String.length key = length
    /\ Forall (fun a => key_char a = true) (list_ascii_of_string key)
    /\ (length = 12%nat -> truthy (Some key) = true)).
  { simpl. split; [|split].
    - by rewrite length_string_of_list_ascii, length_map, length_seq.
    - rewrite list_ascii_of_string_of_list_ascii. apply Forall_forall.
      intros a (i & -> & _)%list_elem_of_fmap. apply random_choice_key_char.
    - intros ->. reflexivity. }
  split; exact Hshape.
Qed.

(** ** Channels that do not exist *)

(** X16.  Every operation on a channel that does not exist fails with the
    not-found error over HTTP, answers 4.04 over CoAP and is skipped over
    MQTT, and changes nothing: no operation creates a channel or a record for
    a name that was never registered. *)
Theorem unknown_channel_refused `{!Env} (now : Z) (uuid : string)
    (s : Database.t) (channel_name api_key : string) :
  Collection.find_one channel_name (Database.channels s) = None ->
  api_key <> EmptyString ->
  channels.get_channel channel_name api_key s = not_found s
  /\ (forall data,
        channels.write_data now channel_name api_key data s = not_found s)
  /\ (forall query_params,
        query_params !! "api_key" = Some api_key ->
        channels.update_channel_data_by_query_params now channel_name
          query_params s = not_found s)
  /\ (forall field_name start_time end_time limit n,
        channels.Query_limit limit = Some n ->
        channels.get_historical_data channel_name api_key field_name
          start_time end_time limit s = not_found s)
  /\ channels.delete_channel channel_name api_key s = not_found s
  /\ (forall field_name,
        channels.delete_field channel_name field_name api_key s
        = not_found s)
  /\ (forall update,
        channels.update_channel_fields channel_name update api_key s
        = not_found s)
  /\ data.get_latest_data channel_name api_key s = not_found s
  /\ (forall field_name,
        data.get_field_value channel_name field_name api_key s = not_found s)
  /\ (forall request,
        addressed request channel_name api_key ->
        coap_server.ChannelDataResource.render_put now request s
        = coap_not_found s
        /\ coap_server.ChannelLatestDataResource.render_get request s
           = coap_not_found s
        /\ (is_Some (coap_server.Request.uri_path request !! 2%nat) ->
            coap_server.ChannelLatestFieldResource.render_get request s
            = coap_not_found s))
  /\ (forall data,
        main.save_mqtt_data uuid now channel_name data s = (Return tt, s)).
Proof.
  intros Hfind Hne.
  assert (Htruthy : truthy (Some api_key) = true).
  { simpl. by destruct (String.eqb_spec api_key EmptyString). }
  repeat split; intros;
    unfold channels.get_channel, channels.write_data,
      channels.update_channel_data_by_query_params,
      channels.get_historical_data, channels.delete_channel,
      channels.delete_field, channels.update_channel_fields,
      data.get_latest_data, data.get_field_value, main.save_mqtt_data,
      coap_server.ChannelDataResource.render_put,
      coap_server.ChannelLatestDataResource.render_get,
      coap_server.ChannelLatestFieldResource.render_get;
    repeat match goal with
      | Ha : addressed _ _ _ |- _ => destruct Ha as (-> & -> & _)
      | Hf : is_Some _ |- _ => destruct Hf as [? ->]
      | Hq : _ !! "api_key" = Some _ |- _ => rewrite Hq
      | Hl : channels.Query_limit _ = Some _ |- _ => rewrite Hl
      end;
    rewrite ?Htruthy; run; by rewrite Hfind.
Qed.

Lemma unknown_channel_refused_witness :
  channels.get_channel "tank9" "XWHX1ZJA6Q8F" tank3_db = not_found tank3_db.
Proof.
  refine (proj1 (unknown_channel_refused 0 "u1" tank3_db "tank9"
                   "XWHX1ZJA6Q8F" eq_refl _)).
  discriminate.
Defined.

(** ** What the ingestion paths change *)

(** X17.  Ingestion only appends.  Whatever the request and whatever the
    outcome, each of the four ingestion paths leaves the channels as they
    were and the records that were stored as they were, in their order, and
    appends at most one record. *)
Theorem ingestion_append_only `{!Env} (now : Z) (uuid : string)
    (s : Database.t) (channel_name : string) :
  (forall api_key data,
     appended s (snd (channels.write_data now channel_name api_key data s)))
  /\ (forall query_params,
        appended s (snd (channels.update_channel_data_by_query_params now
                           channel_name query_params s)))
  /\ (forall request,
        appended s (snd (coap_server.ChannelDataResource.render_put now
                           request s)))
  /\ (forall data,
        appended s (snd (main.save_mqtt_data uuid now channel_name data s)))
  /\ (forall topic payload,
        appended s (main.on_message uuid now topic payload s)).
Proof.
  assert (Hsame : appended s s) by (split; [done|by left]).
  assert (Hmore : forall d,
            appended s (Database.Build (Database.channels s)
                          (Database.data s ++ [d])%list))
    by (intros d; split; [done|right; by exists d]).
  assert (Hmqtt : forall name data,
            appended s (snd (main.save_mqtt_data uuid now name data s))).
  { intros name data. unfold main.save_mqtt_data. run.
    destruct (Collection.find_one _ _); [apply Hmore|apply Hsame]. }
  split; [|split; [|split; [|split]]].
  - intros api_key data. unfold channels.write_data. run.
    destruct (Collection.find_one _ _); [|apply Hsame].
    destruct (negb _); [apply Hsame|]. simpl.
    destruct (foldl _ _ _) as [[d' []]|]; simpl; try apply Hsame.
    destruct (d' !! "timestamp"); apply Hmore.
  - intros query_params.
    unfold channels.update_channel_data_by_query_params.
    destruct (negb (truthy _)); [apply Hsame|]. run.
    destruct (Collection.find_one _ _); [|apply Hsame].
    destruct (negb _); [apply Hsame|]. simpl.
    destruct (foldl _ _ _) as [[d' []]|]; simpl; try apply Hsame.
    destruct (d' !! "timestamp"); apply Hmore.
  - intros request. unfold coap_server.ChannelDataResource.render_put.
    destruct (_ !! 1%nat); [|apply Hsame].
    destruct (negb (truthy _)); [apply Hsame|]. run.
    destruct (Collection.find_one _ _); [|apply Hsame].
    destruct (negb _); [apply Hsame|]. simpl.
    destruct (String.eqb _ _); [apply Hsame|].
    destruct (json_loads _); try apply Hsame.
    destruct (foldl _ _ _) as [[d' []]|]; simpl; try apply Hsame.
    destruct (d' !! "timestamp") as [[]|]; apply Hmore.
  - apply Hmqtt.
  - intros topic payload. unfold main.on_message.
    destruct (json_loads payload); try apply Hsame.
    destruct (_ !! 1%nat); [apply Hmqtt|apply Hsame].
Qed.

(** ** The two HTTP writes *)

Lemma query_loop_api_key fs l d b d' b' :
  foldl (channels.query_step fs) (Ok (d, b)) l = Ok (d', b') ->
  d' !! "api_key" = d !! "api_key".
Proof.
  revert d b. induction l as [|[k v] l IH]; intros d b; simpl.
  - by intros [= <- <-].
  - destruct (String.eqb_spec k "api_key") as [->|Hne]; [apply IH|].
    destruct (decide (k ∈ fs)); [|apply IH].
    destruct (coerce_query (VStr v)); [|by rewrite query_step_Exn].
    intros Hl. rewrite (IH _ _ Hl). by apply lookup_insert_ne.
Qed.

(** The document and the flag the loop of [write_data] ends with. *)
Lemma write_loop_lookup fs (data : gmap string value) base d' b' :
  foldl (channels.write_step fs) (Ok (base, false)) (map_to_list data)
  = Ok (d', b') ->
  (forall k, d' !! k
             = match data !! k with
               | Some v => if decide (k ∈ fs) then Some (coerced v)
                           else base !! k
               | None => base !! k
               end)
  /\ (b' = true <-> exists k, is_Some (data !! k) /\ k ∈ fs).
Proof.
  intros Hloop.
  assert (Hval : forall k v, data !! k = Some v -> k ∈ fs ->
                   d' !! k = Some (coerced v) /\ b' = true).
  { intros k v Hkv Hk.
    destruct (write_loop_value fs (map_to_list data) base false d' b' k v)
      as (v' & Hv' & Hd' & Hb'); auto.
    - apply NoDup_fst_map_to_list.
    - by apply elem_of_map_to_list.
    - by rewrite (coerce_coerced _ _ Hv') in Hd'. }
  split.
  - intros k. destruct (data !! k) as [v|] eqn:Hv.
    + destruct (decide (k ∈ fs)) as [Hin|Hout].
      * by destruct (Hval k v Hv Hin).
      * by apply (write_loop_frame fs _ _ _ _ _ _ Hloop).
    + apply (write_loop_other fs _ _ _ _ _ _ Hloop).
      intros ((k0 & v) & Hk & Hkv%elem_of_map_to_list)%list_elem_of_fmap.
      simpl in Hk. subst k0. congruence.
  - split.
    + intros ->.
      destruct (decide (Exists (fun kv => kv.1 ∈ fs) (map_to_list data)))
        as [Hex|Hno].
      * apply Exists_exists in Hex as ((k & v) & Hkv%elem_of_map_to_list & Hk).
        exists k. split; [by eexists|done].
      * rewrite write_loop_none in Hloop; [congruence|].
        intros k v Hkv Hk. apply Hno, Exists_exists. by exists (k, v).
    + intros (k & [v Hv] & Hk). by destruct (Hval k v Hv Hk).
Qed.

(** The document and the flag the loop of the query-parameter write ends
    with. *)
Lemma query_loop_lookup fs (query_params : gmap string string) base d' b' :
  foldl (channels.query_step fs) (Ok (base, false))
    (map_to_list query_params) = Ok (d', b') ->
  (forall k, d' !! k
             = match query_params !! k with
               | Some v => if decide (k ∈ fs /\ k <> "api_key")
                           then Some (coerced (VStr v))
                           else base !! k
               | None => base !! k
               end)
  /\ (b' = true
      <-> exists k, is_Some (query_params !! k) /\ k ∈ fs /\ k <> "api_key").
Proof.
  intros Hloop.
  assert (Hval : forall k v, query_params !! k = Some v -> k ∈ fs ->
                   k <> "api_key" ->
                   d' !! k = Some (coerced (VStr v)) /\ b' = true).
  { intros k v Hkv Hk Hne.
    eapply (query_loop_value fs (map_to_list query_params)); eauto.
    - apply NoDup_fst_map_to_list.
    - by apply elem_of_map_to_list. }
  split.
  - intros k. destruct (query_params !! k) as [v|] eqn:Hv.
    + destruct (decide (k ∈ fs /\ k <> "api_key")) as [[Hin Hne]|Hout].
      * by destruct (Hval k v Hv Hin Hne).
      * destruct (decide (k = "api_key")) as [->|Hne].
        -- by apply (query_loop_api_key fs _ _ _ _ _ Hloop).
        -- apply (query_loop_frame fs _ _ _ _ _ _ Hloop). intros Hin.
           by apply Hout.
    + apply (query_loop_other fs _ _ _ _ _ _ Hloop).
      intros ((k0 & v) & Hk & Hkv%elem_of_map_to_list)%list_elem_of_fmap.
      simpl in Hk. subst k0. congruence.
  - split.
    + intros ->.
      destruct (decide (Exists (fun kv : string * string =>
                                  kv.1 ∈ fs /\ kv.1 <> "api_key")
                          (map_to_list query_params))) as [Hex|Hno].
      * apply Exists_exists in Hex
          as ((k & v) & Hkv%elem_of_map_to_list & Hk & Hne).
        exists k. split; [by eexists|done].
      * rewrite query_loop_none in Hloop; [congruence|].
        intros k v Hkv Hne Hk. apply Hno, Exists_exists. by exists (k, v).
    + intros (k & [v Hv] & Hk & Hne). by destruct (Hval k v Hv Hk Hne).
Qed.

Lemma coerce_str s : coerce (VStr s) = Ok (coerced (VStr s)).
Proof.
  apply coerce_no_overflow. simpl.
  destruct (of_str_no_escape s) as [[f ->]| ->]; discriminate.
Qed.

Lemma as_bag_lookup (query_params : gmap string string) k :
  as_bag query_params !! k
  = if decide (k = "api_key") then None else VStr <$> query_params !! k.
Proof.
  unfold as_bag. rewrite lookup_fmap.
  destruct (decide (k = "api_key")) as [->|Hne].
  - by rewrite lookup_delete_eq.
  - by rewrite lookup_delete_ne.
Qed.

(** X18.  The query-parameter write is the JSON write of the same parameters.
    With a key that is not empty, [GET /{channel}/update] leaves the store
    that [POST /{channel}/data] leaves for the bag made of the parameters
    other than [api_key], as strings; both succeed or both fail with the same
    status, and on success they report the same timestamp.  The
    query-parameter write never ends in an exception of its own. *)
Theorem query_params_mirrors_write_data (now : Z) (s : Database.t)
    (channel_name api_key : string) (query_params : gmap string string) :
  query_params !! "api_key" = Some api_key ->
  api_key <> EmptyString ->
  let get := channels.update_channel_data_by_query_params now channel_name
               query_params s in
  let post := channels.write_data now channel_name api_key
                (as_bag query_params) s in
  snd get = snd post
  /\ match fst get, fst post with
     | Return r, Return r' => r !! "timestamp" = r' !! "timestamp"
     | Raise (HTTPException status _), Raise (HTTPException status' _) =>
         status = status'
     | _, _ => False
     end.
Proof.
  intros Hkey Hne get post. unfold get, post.
  unfold channels.update_channel_data_by_query_params, channels.write_data.
  rewrite Hkey. simpl.
  destruct (String.eqb_spec api_key EmptyString); [done|]. run.
  destruct (Collection.find_one _ _) as [channel|]; [|done]. simpl.
  rewrite key_test.
  destruct (String.eqb api_key _); simpl; [|done].
  set (fs := list_to_set (Channel.fields channel) : gset string).
  destruct (query_loop_total fs (map_to_list query_params)
              (stamp channel_name now) false) as (d1 & b1 & Hq).
  destruct (write_loop_total fs (map_to_list (as_bag query_params))
              (stamp channel_name now) false) as (d2 & b2 & Hw).
  { intros k v Hkv%elem_of_map_to_list _. rewrite as_bag_lookup in Hkv.
    destruct (decide _); [done|].
    destruct (query_params !! k) as [t|]; [|done].
    injection Hkv as <-. eexists. apply coerce_str. }
  unfold stamp in Hq, Hw. rewrite Hq, Hw.
  destruct (query_loop_lookup _ _ _ _ _ Hq) as [Hd1 Hb1].
  destruct (write_loop_lookup _ _ _ _ _ Hw) as [Hd2 Hb2].
  assert (Hd : d1 = d2).
  { apply map_eq. intros k. rewrite Hd1, Hd2, as_bag_lookup.
    destruct (decide (k = "api_key")) as [->|Hk].
    - rewrite Hkey. rewrite decide_False by (intros [_ ?]; done). done.
    - destruct (query_params !! k) as [t|]; simpl; [|done].
      destruct (decide (k ∈ fs)) as [Hin|Hout].
      + by rewrite decide_True.
      + rewrite decide_False by (intros [? _]; done). done. }
  assert (Hb : b1 = b2).
  { apply eq_true_iff_eq. rewrite Hb1, Hb2. split.
    - intros (k & [t Ht] & Hin & Hk). exists k. split; [|done].
      rewrite as_bag_lookup, decide_False, Ht by done. by eexists.
    - intros (k & [v Hv] & Hin). rewrite as_bag_lookup in Hv.
      destruct (decide (k = "api_key")); [done|].
      exists k. split; [|done].
      destruct (query_params !! k); [by eexists|done]. }
  subst d2 b2. destruct b1; simpl; [|done].
  destruct (d1 !! "timestamp") as [ts|] eqn:Hts; simpl.
  - by rewrite !lookup_insert_eq.
  - rewrite Hd1 in Hts. rewrite new_doc_timestamp in Hts.
    destruct (query_params !! "timestamp"); [|done].
    by destruct (decide _).
Qed.

Lemma query_params_mirrors_write_data_witness :
  snd (channels.update_channel_data_by_query_params 7 "tank3" level_params
         tank3_db)
  = snd (channels.write_data 7 "tank3" "XWHX1ZJA6Q8F" (as_bag level_params)
           tank3_db).
Proof.
  refine (proj1 (query_params_mirrors_write_data 7 tank3_db "tank3"
                   "XWHX1ZJA6Q8F" level_params eq_refl _)).
  discriminate.
Defined.

(** X19.  A stored value is stable under coercion: when a write stored [v'] for
    the value [v], writing [v'] again stores [v'] and raises nothing. *)
Theorem coerce_stable (v v' : value) :
  coerce v = Ok v' -> coerce v' = Ok v' /\ coerced v' = v'.
Proof.
  unfold coerce, coerced. destruct (py_float v) as [f|e] eqn:Hf.
  - by intros [= <-].
  - destruct e; intros [= <-]; by rewrite Hf.
Qed.

Lemma coerce_stable_witness :
  coerce (VFloat (S754_finite false 5291729562160333 (-46)))
  = Ok (VFloat (S754_finite false 5291729562160333 (-46)))
  /\ coerced (VFloat (S754_finite false 5291729562160333 (-46)))
     = VFloat (S754_finite false 5291729562160333 (-46)).
Proof.
  refine (coerce_stable (VStr "75.2") _ _).
  vm_compute. reflexivity.
Defined.

(** ** Reading back what was written *)

Lemma find_latest_new `{!Env} (channel_name : string) (ds : list doc)
    (d : doc) (now : Z) :
  Collection.tagged channel_name d = true ->
  d !! "timestamp" = Some (VTime now) ->
  (forall d0, d0 ∈ ds -> Collection.tagged channel_name d0 = true ->
              exists t, d0 !! "timestamp" = Some (VTime t) /\ t < now) ->
  Collection.find (Query.Build channel_name None) (-1) 1 (ds ++ [d]) = [d].
Proof.
  intros Htag Hts Holder.
  destruct (find_latest channel_name (ds ++ [d]))
    as [[Hnone _]|(latest & Hin & Hl & Hmax & ->)].
  - rewrite Hnone in Htag; [done|]. apply elem_of_app. right. left.
  - apply elem_of_app in Hin as [Hin|Hin%list_elem_of_singleton];
      [|by subst].
    assert (Hge : Collection.ts_ge latest d).
    { apply Hmax; [|done]. apply elem_of_app. right. left. }
    destruct (Holder latest Hin Hl) as (t & Ht & Hlt).
    apply (ts_ge_dates latest d t now Ht Hts) in Hge. lia.
Qed.

(** X20.  Write, then read.  When neither ["tank_id"] nor ["timestamp"] is a
    field of the channel, every record of the channel is older than the
    clock and no value of the bag overflows, a JSON write followed by the
    latest-field query of a field of the bag answers with the coerced value
    of that field and the instant of the write, and the latest-record query
    answers with the record just stored. *)
Theorem write_then_read `{!Env} (now : Z) (s : Database.t)
    (channel_name : string) (channel : Channel.t)
    (data : gmap string value) (field_name : string) (v : value) :
  Collection.find_one channel_name (Database.channels s) = Some channel ->
  "tank_id" ∉ Channel.fields channel ->
  "timestamp" ∉ Channel.fields channel ->
  (forall d, d ∈ Database.data s ->
     Collection.tagged channel_name d = true ->
     exists t, d !! "timestamp" = Some (VTime t) /\ t < now) ->
  (forall k w, data !! k = Some w -> k ∈ Channel.fields channel ->
               py_float w <> Exn OverflowError) ->
  data !! field_name = Some v ->
  field_name ∈ Channel.fields channel ->
  let s' := snd (channels.write_data now channel_name
                   (Channel.api_key channel) data s) in
  data.get_field_value channel_name field_name (Channel.api_key channel) s'
  = (Return (<["timestamp" := VStr (isoformat now)]>
               (<["value" := coerced v]>
                  (<["field" := VStr field_name]>
                     {["channel_name" := VStr channel_name]}))), s')
  /\ exists data_doc,
       Database.data s' = (Database.data s ++ [data_doc])%list
       /\ data_doc !! field_name = Some (coerced v)
       /\ data.get_latest_data channel_name (Channel.api_key channel) s'
          = (Return (latest_view data_doc), s').
Proof.
  intros Hfind Htank Htime Holder Hsafe Hv Hfield s'. unfold s'. clear s'.
  unfold channels.write_data. run. rewrite Hfind, String.eqb_refl. simpl.
  set (fs := list_to_set (Channel.fields channel) : gset string).
  destruct (write_loop_total fs (map_to_list data)
              (stamp channel_name now) false) as (d' & b' & Hloop).
  { intros k w Hkw%elem_of_map_to_list Hk%list_to_set_fields.
    exists (coerced w). apply coerce_no_overflow. by apply (Hsafe k). }
  destruct (write_loop_lookup _ _ _ _ _ Hloop) as [Hd Hb].
  unfold stamp in Hloop. rewrite Hloop.
  assert (b' = true) as ->.
  { apply Hb. exists field_name. split; [by eexists|].
    by apply list_to_set_fields. }
  assert (Hframe : forall k, k ∉ Channel.fields channel ->
                     d' !! k = stamp channel_name now !! k).
  { intros k Hk. rewrite Hd. destruct (data !! k); [|done].
    rewrite decide_False; [done|]. by intros Hin%list_to_set_fields. }
  assert (Hts : d' !! "timestamp" = Some (VTime now))
    by (rewrite Hframe by done; apply new_doc_timestamp).
  assert (Htag : Collection.tagged channel_name d' = true).
  { unfold Collection.tagged. rewrite Hframe by done. unfold stamp.
    rewrite lookup_insert_ne by done. rewrite lookup_singleton_eq.
    apply String.eqb_refl. }
  assert (Hval : d' !! field_name = Some (coerced v)).
  { rewrite Hd, Hv. rewrite decide_True; [done|].
    by apply list_to_set_fields. }
  rewrite Hts. simpl. unfold Collection.insert_one.
  pose proof (find_latest_new channel_name (Database.data s) d' now
                Htag Hts Holder) as Hlatest.
  split.
  - unfold data.get_field_value. run. rewrite Hfind, String.eqb_refl. simpl.
    rewrite bool_decide_true by done. simpl.
    by rewrite Hlatest, Hval, Hts.
  - exists d'. split; [done|]. split; [done|].
    unfold data.get_latest_data. run. rewrite Hfind, String.eqb_refl. simpl.
    by rewrite Hlatest.
Qed.

Lemma write_then_read_witness :
  data.get_field_value "tank3" "level" (Channel.api_key tank3)
    (snd (channels.write_data 7 "tank3" (Channel.api_key tank3) level_bag
            tank3_db))
  = (Return (<["timestamp" := VStr (isoformat 7)]>
               (<["value" := coerced (VStr "75.2")]>
                  (<["field" := VStr "level"]>
                     {["channel_name" := VStr "tank3"]}))),
     snd (channels.write_data 7 "tank3" (Channel.api_key tank3) level_bag
            tank3_db)).
Proof.
  refine (proj1 (write_then_read 7 tank3_db "tank3" tank3 level_bag "level"
                   (VStr "75.2") eq_refl _ _ _ _ eq_refl _)).
  - simpl. not_in_list.
  - simpl. not_in_list.
  - intros d Hd%list_elem_of_singleton _. subst d. exists 0.
    split; [reflexivity|lia].
  - intros k w Hkw _. unfold level_bag in Hkw.
    apply lookup_singleton_Some in Hkw as [_ <-]. discriminate.
  - simpl. left.
Defined.



Lemma delete_many_none (name : string) (ds : list doc) :
  List.filter (Collection.tagged name) (Collection.delete_many name ds) = [].
Proof.
  unfold Collection.delete_many.
  induction ds as [|d ds IH]; simpl; [done|].
  destruct (Collection.tagged name d) eqn:Hd; simpl; [done|].
  by rewrite Hd.
Qed.

(** X22.  Registering a name again after its channel was deleted starts from a
    clean history: with distinct channel names and a schema without
    ["tank_id"], the only record filed under the name is the new seed record,
    and the channel is the new one. *)
Theorem reregistration_starts_clean (generated : string) (now : Z)
    (s : Database.t) (channel : Channel.t) (new : ChannelCreate.t) :
  names_unique s ->
  Collection.find_one (ChannelCreate.channel_name new) (Database.channels s)
  = Some channel ->
  "tank_id" ∉ ChannelCreate.fields new ->
  let name := ChannelCreate.channel_name new in
  let s1 := snd (channels.delete_channel name (Channel.api_key channel) s) in
  let s2 := snd (channels.create_channel generated now new s1) in
  List.filter (Collection.tagged name) (Database.data s2)
  = [channels.seed_doc now new]
  /\ Collection.find_one name (Database.channels s2)
     = Some (Channel.Build name generated (ChannelCreate.fields new)).
Proof.
  intros Hnames Hfind Htank name s1 s2. unfold s2, s1, name. clear s2 s1 name.
  set (name := ChannelCreate.channel_name new) in *.
  assert (Hs1 : channels.delete_channel name (Channel.api_key channel) s
                = (Return ("Channel '" +:+ name
                           +:+ "' and all related data deleted"),
                   Database.Build
                     (Collection.delete_one name (Database.channels s))
                     (Collection.delete_many name (Database.data s)))).
  { unfold channels.delete_channel. run.
    by rewrite Hfind, String.eqb_refl. }
  rewrite Hs1. simpl.
  rewrite create_channel_run by (simpl; by apply delete_one_find).
  simpl. split.
  - rewrite List.filter_app. simpl.
    assert (Hseed : Collection.tagged name (channels.seed_doc now new)
                    = true).
    { unfold Collection.tagged. rewrite seed_doc_frame by done.
      unfold stamp. rewrite lookup_insert_ne by done.
      rewrite lookup_singleton_eq. apply String.eqb_refl. }
    rewrite Hseed.
    by rewrite delete_many_none.
  - rewrite find_one_snoc by (by apply delete_one_find).
    unfold Collection.has_name. simpl. by rewrite String.eqb_refl.
Qed.

Lemma reregistration_starts_clean_witness :
  List.filter (Collection.tagged "tank3")
    (Database.data
       (snd (channels.create_channel "A1B2C3D4E5F6" 7
               (ChannelCreate.Build "tank3" ["level"] None)
               (snd (channels.delete_channel "tank3" (Channel.api_key tank3)
                       tank3_db)))))
  = [channels.seed_doc 7 (ChannelCreate.Build "tank3" ["level"] None)].
Proof.
  refine (proj1 (reregistration_starts_clean "A1B2C3D4E5F6" 7 tank3_db tank3
                   (ChannelCreate.Build "tank3" ["level"] None) _ eq_refl _)).
  - unfold names_unique. simpl. apply NoDup_singleton.
  - simpl. not_in_list.
Defined.
